(** * Sales analytics agent (agent.py): data loading, gateway and views

    A shallow embedding of [agent.py], the single-file Streamlit
    application.  The pandas frames the script manipulates are modelled
    row-wise with dynamically typed cells.  A numeric cell carries the
    value of its number, and the arithmetic of the script is the
    arithmetic of pandas on it: IEEE 754 binary64 with rounding to
    nearest, ties to even, where pandas computes in float64, and
    wrap-around where it adds in int64 or uint64.  Python exceptions
    are an explicit result type, the objects
    the script binds to names live in a store of frames, and what the
    script obtains from its libraries and its environment (files, the
    environment variable, the secret store, the completion endpoint, the
    text rendering of frames and numbers) is taken as section variables. *)

From Stdlib Require Import Ascii ZArith QArith Qcanon Lia SpecFloat.
From stdpp Require Import base tactics option list list_monad sorting.
From stdpp Require Import strings pretty numbers gmap.

Local Open Scope Qc_scope.
Local Open Scope nat_scope.

Set Warnings "-clear-no-such-hyp".

(** ** Exceptions and results *)

(** A raised Python exception, an instance of a subclass of
    [Exception]: its class name and [str(e)]. *)
Inductive exn := Exception (cls msg : string).

Definition str (e : exn) : string :=
  match e with Exception _ msg => msg end.

Inductive result (A : Type) :=
  | Ok (a : A)
  | Raise (e : exn).
Arguments Ok {A} a.
Arguments Raise {A} e.

#[global] Instance exn_eq_dec : EqDecision exn.
Proof. solve_decision. Defined.

#[global] Instance result_eq_dec {A} `{EqDecision A} : EqDecision (result A).
Proof. solve_decision. Defined.

#[global] Instance result_ret : MRet result := @Ok.
#[global] Instance result_bind : MBind result := λ A B f m,
  match m with Ok a => f a | Raise e => Raise e end.
#[global] Instance result_fmap : FMap result := λ A B f m,
  match m with Ok a => Ok (f a) | Raise e => Raise e end.

Definition KeyError (key : string) : exn := Exception "KeyError" ("'" +:+ key +:+ "'").
Definition TypeError (msg : string) : exn := Exception "TypeError" msg.
Definition ValueError (msg : string) : exn := Exception "ValueError" msg.

(** The double quote, and [repr] of a list of labels. *)
Definition dq : string := String "034"%char "".

Definition py_list (labels : list string) : string :=
  "[" +:+ String.concat ", " ((λ c, "'" +:+ c +:+ "'") <$> labels) +:+ "]".

(** The two [KeyError]s of a selection of several labels: some of them
    are missing, or all of them are.  The message of a [KeyError] is
    the [repr] of its argument, which Python writes between double
    quotes here because the argument holds single quotes. *)
Definition KeyError_not_in_index (missing : list string) : exn :=
  Exception "KeyError" (dq +:+ py_list missing +:+ " not in index" +:+ dq).

Definition KeyError_none_of (labels : list string) : exn :=
  Exception "KeyError"
    (dq +:+ "None of [Index(" +:+ py_list labels
        +:+ ", dtype='object')] are in the [columns]" +:+ dq).

(** ** Cells, series and frames *)

(** A cell of a frame.  [NaN] is the missing value ([NaN], [NaT] or
    [None]); [Num] a finite number, by its value, whether pandas holds
    it in an int64, a uint64 or a float64 column (a whole number is
    the same cell in each, as it is the same number when pandas
    compares or joins two columns; the sign of a float64 zero is not
    kept); [Inf] an infinite float64; [Str] a Python [str];
    [Timestamp] a parsed date. *)
Inductive value :=
  | NaN
  | Num (q : Qc)
  | Inf (negative : bool)
  | Str (s : string)
  | Timestamp (t : Z).

#[global] Instance value_eq_dec : EqDecision value.
Proof. solve_decision. Defined.

(** A frame: its column labels and its rows, in positional order.  A
    frame of pandas is rectangular ([rectangular] below), and the labels
    of a frame that [read_csv] returns are distinct. *)
Record DataFrame := mkDataFrame {
  columns : list string;
  rows : list (list value)
}.

Definition rectangular (df : DataFrame) : Prop :=
  Forall (λ r, length r = length (columns df)) (rows df).

#[global] Instance DataFrame_eq_dec : EqDecision DataFrame.
Proof. solve_decision. Defined.

Definition cell (i : nat) (r : list value) : value := default NaN (r !! i).

Definition column_loc (c : string) (df : DataFrame) : option nat :=
  fst <$> list_find (λ c', c' = c) (columns df).

(** [len(df)] *)
Definition len (df : DataFrame) : nat := length (rows df).

(** [df.empty]: true when either axis has length zero. *)
Definition empty (df : DataFrame) : bool :=
  bool_decide (rows df = []) || bool_decide (columns df = []).

(** [c in df.columns] *)
Definition has_column (c : string) (df : DataFrame) : bool :=
  bool_decide (c ∈ columns df).

(** [df[c]] *)
Definition getitem (c : string) (df : DataFrame) : result (list value) :=
  match column_loc c df with
  | Some i => Ok (cell i <$> rows df)
  | None => Raise (KeyError c)
  end.

(** [df[[c1, ..., cn]]] for distinct labels: the columns in the order
    asked for; a label that the frame carries more than once stands
    for its first column.  Labels that are missing raise together. *)
Definition getitems (cs : list string) (df : DataFrame) : result DataFrame :=
  match filter (λ c, c ∉ columns df) cs with
  | [] =>
      Ok {| columns := cs;
            rows := (λ r, (λ c, cell (default 0 (column_loc c df)) r) <$> cs) <$> rows df |}
  | missing =>
      if bool_decide (missing = cs) then Raise (KeyError_none_of cs)
      else Raise (KeyError_not_in_index missing)
  end.

(** [df[c] = s] on a frame and a series that share a positional index:
    the column is replaced when it exists and appended otherwise. *)
Definition setitem (c : string) (s : list value) (df : DataFrame) : DataFrame :=
  match column_loc c df with
  | Some i =>
      {| columns := columns df;
         rows := imap (λ k r, <[i := cell k s]> r) (rows df) |}
  | None =>
      {| columns := columns df ++ [c];
         rows := imap (λ k r, r ++ [cell k s]) (rows df) |}
  end.

(** [df.rename(columns=mapping)]: labels absent from the mapping are kept,
    keys of the mapping absent from the frame are ignored. *)
Definition rename (mapping : gmap string string) (df : DataFrame) : DataFrame :=
  {| columns := (λ c, default c (mapping !! c)) <$> columns df;
     rows := rows df |}.

(** [df.head(n)] *)
Definition head (n : nat) (df : DataFrame) : DataFrame :=
  {| columns := columns df; rows := take n (rows df) |}.

(** Elementwise [==] of a cell with a scalar: a missing value equals
    nothing, not even another missing value. *)
Definition eq_py (x y : value) : bool :=
  match x, y with
  | NaN, _ | _, NaN => false
  | _, _ => bool_decide (x = y)
  end.

(** [df[df[c] == v]] *)
Definition where_eq (c : string) (v : value) (df : DataFrame) : result DataFrame :=
  match column_loc c df with
  | Some i =>
      Ok {| columns := columns df;
            rows := filter (λ r, eq_py (cell i r) v = true) (rows df) |}
  | None => Raise (KeyError c)
  end.

(** [df[df.c == v]]: the attribute access raises [AttributeError]
    where the item access raises [KeyError]. *)
Definition where_attr_eq (c : string) (v : value) (df : DataFrame) : result DataFrame :=
  match where_eq c v df with
  | Ok selected => Ok selected
  | Raise _ =>
      Raise (Exception "AttributeError"
               ("'DataFrame' object has no attribute '" +:+ c +:+ "'"))
  end.

(** [s.dropna()] *)
Definition dropna (s : list value) : list value := filter (λ v, v ≠ NaN) s.

(** [s.unique()]: distinct values in order of first appearance. *)
Fixpoint unique_from (seen s : list value) : list value :=
  match s with
  | [] => []
  | v :: s =>
      if bool_decide (v ∈ seen) then unique_from seen s
      else v :: unique_from (v :: seen) s
  end.

Definition unique (s : list value) : list value := unique_from [] s.

(** [s.tolist()] *)
Definition tolist (s : list value) : list value := s.

(** ** Numbers *)

(** float64 is IEEE 754 binary64, computed by the operations of the
    Standard Library's [SpecFloat] at precision 53 and maximal
    exponent 1024; they round to nearest, ties to even. *)
Definition f64_add : spec_float → spec_float → spec_float := SFadd 53 1024.
Definition f64_sub : spec_float → spec_float → spec_float := SFsub 53 1024.
Definition f64_mul : spec_float → spec_float → spec_float := SFmul 53 1024.
Definition f64_div : spec_float → spec_float → spec_float := SFdiv 53 1024.

(** The float64 nearest to a rational: a float64 value is left as it
    is, an integer is converted as pandas converts an int64 that meets
    a float64. *)
Definition float64_of (q : Qc) : spec_float :=
  match Qnum q with
  | Z0 => S754_zero false
  | Zpos n => f64_div (S754_finite false n 0) (S754_finite false (Qden q) 0)
  | Zneg n => f64_div (S754_finite true n 0) (S754_finite false (Qden q) 0)
  end.

(** The cell that holds a float64. *)
Definition of_float64 (f : spec_float) : value :=
  match f with
  | S754_nan => NaN
  | S754_infinity s => Inf s
  | S754_zero _ => Num 0%Qc
  | S754_finite s m e =>
      let n := if s then Zneg m else Zpos m in
      Num (Q2Qc (match e with
                 | Z0 => n # 1
                 | Zpos _ => (n * 2 ^ e)%Z # 1
                 | Zneg k => n # 2 ^ k
                 end))
  end.

(** A cell read as a float64; strings and dates are not numbers. *)
Definition as_float64 (v : value) : option spec_float :=
  match v with
  | NaN => Some S754_nan
  | Num q => Some (float64_of q)
  | Inf s => Some (S754_infinity s)
  | _ => None
  end.

Definition to_float64 (v : value) : spec_float := default S754_nan (as_float64 v).

(** A cell that holds a number or is missing. *)
Definition is_numeric (v : value) : bool :=
  match v with
  | NaN | Num _ | Inf _ => true
  | _ => false
  end.

(** The whole number a cell holds. *)
Definition whole (v : value) : option Z :=
  match v with
  | Num q => if bool_decide (Qden q = 1%positive) then Some (Qnum q) else None
  | _ => None
  end.

Definition as_Z (v : value) : Z := default 0%Z (whole v).

Definition num (z : Z) : value := Num (Q2Qc (inject_Z z)).

Definition is_int64 (v : value) : bool :=
  from_option (λ z, bool_decide (- 2 ^ 63 ≤ z < 2 ^ 63)%Z) false (whole v).

Definition is_uint64 (v : value) : bool :=
  from_option (λ z, bool_decide (0 ≤ z < 2 ^ 64)%Z) false (whole v).

(** A parsed date or a missing one. *)
Definition is_date (v : value) : bool :=
  match v with
  | NaN | Timestamp _ => true
  | _ => false
  end.

(** How pandas holds a column. *)
Inductive dtype := int64 | uint64 | float64 | datetime64 | object.

#[global] Instance dtype_eq_dec : EqDecision dtype.
Proof. solve_decision. Defined.

Definition dtype_name (d : dtype) : string :=
  match d with
  | int64 => "int64"
  | uint64 => "uint64"
  | float64 => "float64"
  | datetime64 => "datetime64[ns]"
  | object => "object"
  end.

Definition numeric_dtype (d : dtype) : bool :=
  match d with
  | int64 | uint64 | float64 => true
  | _ => false
  end.

(** The dtype [read_csv] gives a column, by what the column holds:
    numbers with a missing, fractional or infinite one among them are
    float64; whole numbers are int64 when they fit, uint64 when they
    fit that, and float64 beyond; anything else is an object column.
    The cells of a column of whole numbers do not tell whether the
    file wrote them with a decimal point or an exponent, which makes
    the column float64: [decimal] says so. *)
Definition dtype_of (decimal : bool) (s : list value) : dtype :=
  if forallb is_numeric s then
    if decimal then float64
    else if forallb is_int64 s then int64
    else if forallb is_uint64 s then uint64
    else float64
  else if forallb is_date s then datetime64
  else object.

(** Addition in int64 and in uint64 wraps around. *)
Definition int64_wrap (z : Z) : Z := ((z + 2 ^ 63) `mod` 2 ^ 64 - 2 ^ 63)%Z.
Definition uint64_wrap (z : Z) : Z := (z `mod` 2 ^ 64)%Z.

Definition Z_sum (zs : list Z) : Z := foldr Z.add 0%Z zs.

(** NumPy adds a float64 array pairwise: fewer than eight numbers from
    left to right; up to 128 numbers in eight running sums, each taking
    every eighth number, which are then added in pairs, the numbers
    beyond the last full eight added one by one; a longer array as the
    sum of the sums of its two halves, the first half a multiple of
    eight long. *)
Definition sum_small (a : list spec_float) : spec_float :=
  fold_left f64_add a (S754_zero true).

Fixpoint accumulate (r a : list spec_float) : list spec_float :=
  match a with
  | a0 :: a1 :: a2 :: a3 :: a4 :: a5 :: a6 :: a7 :: a' =>
      accumulate (zip_with f64_add r [a0; a1; a2; a3; a4; a5; a6; a7]) a'
  | _ => r
  end.

Definition sum_unrolled (a : list spec_float) : spec_float :=
  let n := length a in
  match accumulate (take 8 a) (take (n - n `mod` 8 - 8) (drop 8 a)) with
  | [r0; r1; r2; r3; r4; r5; r6; r7] =>
      fold_left f64_add (drop (n - n `mod` 8) a)
        (f64_add (f64_add (f64_add r0 r1) (f64_add r2 r3))
                 (f64_add (f64_add r4 r5) (f64_add r6 r7)))
  | _ => sum_small a
  end.

Fixpoint pairwise_sum (depth : nat) (a : list spec_float) : spec_float :=
  let n := length a in
  if n <? 8 then sum_small a
  else if n <=? 128 then sum_unrolled a
  else
    match depth with
    | 0 => sum_unrolled a
    | S depth =>
        let n2 := n `div` 2 - (n `div` 2) `mod` 8 in
        f64_add (pairwise_sum depth (take n2 a)) (pairwise_sum depth (drop n2 a))
    end.

(** [a.sum()] on a float64 array: the pairwise sum, added to the zero
    the reduction starts from.  The halving ends before [length a]
    steps. *)
Definition np_sum (a : list spec_float) : spec_float :=
  f64_add (S754_zero false) (pairwise_sum (length a) a).

(** The sum of a group in [groupby(...).sum()] on float64: the numbers
    in row order, with Kahan's compensation (which is dropped when it
    is not a number, as next to an infinite amount). *)
Definition kahan_step (acc : spec_float * spec_float) (val : spec_float) :
    spec_float * spec_float :=
  let y := f64_sub val acc.2 in
  let t := f64_add acc.1 y in
  let c := f64_sub (f64_sub t acc.1) y in
  (t, match c with S754_nan => S754_zero false | _ => c end).

Definition kahan_sum (a : list spec_float) : spec_float :=
  (fold_left kahan_step a (S754_zero false, S754_zero false)).1.

(** ** The left join *)

(** The suffixes [merge] gives to a non-key label present on both sides. *)
Definition suffixed (on : string) (other : list string) (sfx c : string) : string :=
  if bool_decide (c ≠ on ∧ c ∈ other) then c +:+ sfx else c.

(** The rows [left.merge(right, on=on, how="left")] makes of a row of
    [left]: one per row of [right] with the same key (missing keys
    match each other), and one with missing values when there is
    none. *)
Definition join_row (right : DataFrame) (i j : nat) (r : list value) : list (list value) :=
  match filter (λ s, cell j s = cell i r) (rows right) with
  | [] => [r ++ replicate (length (columns right) - 1) NaN]
  | ms => (λ s, r ++ delete j s) <$> ms
  end.

(** The column a key label denotes: [merge] refuses a label that the
    frame carries more than once. *)
Definition label_loc (c : string) (df : DataFrame) : result nat :=
  match column_loc c df with
  | None => Raise (KeyError c)
  | Some i =>
      if bool_decide (c ∈ drop (S i) (columns df))
      then Raise (ValueError ("The column label '" +:+ c +:+ "' is not unique."))
      else Ok i
  end.

(** The key columns [merge] accepts: of one dtype, or both of numbers;
    a side without rows is not looked at.  (The dtype is that of
    [dtype_of] for a file that writes whole numbers without decimal
    point; an object column is one of strings and missing values, as
    [read_csv] makes it.) *)
Definition keys_compatible (l r : list value) : bool :=
  bool_decide (l = []) || bool_decide (r = [])
  || bool_decide (dtype_of false l = dtype_of false r)
  || numeric_dtype (dtype_of false l) && numeric_dtype (dtype_of false r).

(** [left.merge(right, on=on, how="left")]: every row of [left], in
    order, joined as [join_row] has it.  The key is looked up in
    [right] first. *)
Definition merge_left (left right : DataFrame) (on : string) : result DataFrame :=
  j ← label_loc on right;
  i ← label_loc on left;
  let lk := cell i <$> rows left in
  let rk := cell j <$> rows right in
  if keys_compatible lk rk
  then Ok {| columns := (suffixed on (columns right) "_x" <$> columns left)
                        ++ (suffixed on (columns left) "_y" <$> delete j (columns right));
             rows := rows left ≫= join_row right i j |}
  else Raise (ValueError ("You are trying to merge on "
                          +:+ dtype_name (dtype_of false lk) +:+ " and "
                          +:+ dtype_name (dtype_of false rk)
                          +:+ " columns for key '" +:+ on
                          +:+ "'. If you wish to proceed you should use pd.concat")).

(** ** Arithmetic on series *)

(** [x * y] and [x / y] on the cells of two columns of which one is
    float64, as a quotient is: the float64 product and quotient.
    Missing values propagate, strings and dates are not numbers. *)
Definition value_mul (x y : value) : result value :=
  match as_float64 x, as_float64 y with
  | Some a, Some b => Ok (of_float64 (f64_mul a b))
  | _, _ => Raise (TypeError "unsupported operand type(s) for *")
  end.

(** [x / y]: true division, in float64 whatever the dtypes. *)
Definition value_div (x y : value) : result value :=
  match as_float64 x, as_float64 y with
  | Some a, Some b => Ok (of_float64 (f64_div a b))
  | _, _ => Raise (TypeError "unsupported operand type(s) for /")
  end.

(** [s / k] *)
Definition series_div (s : list value) (k : Qc) : result (list value) :=
  mapM (λ x, value_div x (Num k)) s.

(** [s1 * s2] for two series with the same positional index. *)
Definition series_mul (s1 s2 : list value) : result (list value) :=
  mapM (λ p, value_mul p.1 p.2) (zip s1 s2).

(** A float64 with zero for a missing value. *)
Definition zero_if_nan (f : spec_float) : spec_float :=
  match f with
  | S754_nan => S754_zero false
  | _ => f
  end.

(** [s.sum()]: in the arithmetic of the column's dtype; missing values
    count as zero.  On a column of strings pandas concatenates, and the
    money format the dashboard applies to the result raises; the sum of
    such a column is modelled as raising. *)
Definition series_sum (decimal : bool) (s : list value) : result value :=
  match dtype_of decimal s with
  | int64 => Ok (num (int64_wrap (Z_sum (as_Z <$> s))))
  | uint64 => Ok (num (uint64_wrap (Z_sum (as_Z <$> s))))
  | float64 => Ok (of_float64 (np_sum ((λ v, zero_if_nan (to_float64 v)) <$> s)))
  | datetime64 => Raise (TypeError "datetime64 type does not support sum operations")
  | object => Raise (TypeError "unsupported format string passed to str.__format__")
  end.

(** Amount multiplied by the hundredth of the probability, the
    quotient and then the product each rounded to float64. *)
Definition weighted (amount probability : value) : value :=
  match value_div probability (Num (Q2Qc 100)) ≫= value_mul amount with
  | Ok w => w
  | Raise _ => NaN
  end.

(** ** Ordering, sorting and grouping *)

(** The order used to arrange labels: within a kind the natural order
    (numbers by value, strings by code point, dates by time), numbers
    before strings before dates. *)
Definition value_leb (x y : value) : bool :=
  match x, y with
  | NaN, _ => true
  | Inf true, (Num _ | Inf _) => true
  | Num a, Num b => bool_decide (a ≤ b)%Qc
  | (Num _ | Inf false), Inf false => true
  | (Num _ | Inf _), (Str _ | Timestamp _) => true
  | Str a, Str b => bool_decide (a ≤ b)%string
  | Str _, Timestamp _ => true
  | Timestamp a, Timestamp b => bool_decide (a ≤ b)%Z
  | _, _ => false
  end.

Definition value_le (x y : value) : Prop := value_leb x y.

#[global] Instance value_le_dec : RelDecision value_le.
Proof. intros x y. unfold value_le. apply _. Defined.

Definition same_kind (x y : value) : bool :=
  match x, y with
  | NaN, NaN | (Num _ | Inf _), (Num _ | Inf _)
  | Str _, Str _ | Timestamp _, Timestamp _ => true
  | _, _ => false
  end.

(** Python's [sorted(xs)]: comparing values of different kinds raises. *)
Definition sorted (xs : list value) : result (list value) :=
  match xs with
  | [] => Ok []
  | x :: _ =>
      if forallb (same_kind x) xs then Ok (merge_sort value_le xs)
      else Raise (TypeError "'<' not supported between instances")
  end.

(** The sum of a group of [groupby(...)[c].sum()], in the arithmetic
    of the dtype of the column [c]; missing values are skipped. *)
Definition group_sum (dt : dtype) (s : list value) : result value :=
  match dt with
  | int64 => Ok (num (int64_wrap (Z_sum (as_Z <$> s))))
  | uint64 => Ok (num (uint64_wrap (Z_sum (as_Z <$> s))))
  | float64 => Ok (of_float64 (kahan_sum (to_float64 <$> dropna s)))
  | datetime64 => Raise (TypeError "datetime64 type does not support sum operations")
  | object => Raise (TypeError "unsupported format string passed to str.__format__")
  end.

(** The sum of a group of a column of numbers. *)
Definition group_total (dt : dtype) (s : list value) : value :=
  match group_sum dt s with
  | Ok total => total
  | Raise _ => NaN
  end.

(** [df.groupby(key)[c].sum().reset_index()]: one row per distinct
    non-missing label of [key] (rows whose label is missing belong to no
    group), labels in sorted order, with the sum of [c] over the group. *)
Definition groupby_sum (decimal : bool) (key c : string) (df : DataFrame) : result DataFrame :=
  labels ← getitem key df;
  values ← getitem c df;
  body ← mapM (λ k, g ← where_eq key k df;
                    total ← getitem c g ≫= group_sum (dtype_of decimal values);
                    Ok [k; total])
              (merge_sort value_le (unique (dropna labels)));
  Ok {| columns := [key; c]; rows := body |}.

(** ** The store of named frames *)

(** Frames are objects: a name denotes a location of the store, a copy
    allocates, and an item assignment updates the object in place.  The
    store survives a raised exception. *)
Abbreviation store := (list DataFrame).

Definition M (A : Type) : Type := store → result A * store.

#[global] Instance M_ret : MRet M := λ A a σ, (Ok a, σ).
#[global] Instance M_bind : MBind M := λ A B f m σ,
  match m σ with
  | (Ok a, σ') => f a σ'
  | (Raise e, σ') => (Raise e, σ')
  end.

Definition lift {A} (r : result A) : M A := λ σ, (r, σ).

Definition deref (l : nat) : M DataFrame := λ σ,
  match σ !! l with
  | Some df => (Ok df, σ)
  | None => (Raise (Exception "NameError" "name is not defined"), σ)
  end.

(** [df.copy()] *)
Definition df_copy (l : nat) : M nat := λ σ,
  match σ !! l with
  | Some df => (Ok (length σ), σ ++ [df])
  | None => (Raise (Exception "NameError" "name is not defined"), σ)
  end.

(** [df[c] = s], in place. *)
Definition df_setitem (l : nat) (c : string) (s : list value) : M unit := λ σ,
  match σ !! l with
  | Some df => (Ok (), <[l := setitem c s df]> σ)
  | None => (Raise (Exception "NameError" "name is not defined"), σ)
  end.

(** A computation that leaves the store as it found it, whatever it
    returns. *)
Definition read_only {A} (m : M A) : Prop := ∀ σ, (m σ).2 = σ.

(** The four module-level names bound by [load_data()]'s result. *)
Definition accounts_df : nat := 0.
Definition contacts_df : nat := 1.
Definition opps_df : nat := 2.
Definition tasks_df : nat := 3.

(** Two stores that hold the same contact and opportunity tables. *)
Definition same_tables (σ1 σ2 : store) : Prop :=
  σ1 !! contacts_df = σ2 !! contacts_df ∧ σ1 !! opps_df = σ2 !! opps_df.

(** A computation whose result is a function of the contact and
    opportunity tables alone. *)
Definition reads_two_tables {A} (m : M A) : Prop :=
  ∀ σ1 σ2, same_tables σ1 σ2 → (m σ1).1 = (m σ2).1.

(** Whether a result is a value or an exception, and which. *)
Definition outcome {A} (r : result A) : result unit := (λ _, ()) <$> r.

(** Two computations that end alike on every store: in the same store,
    both with a value or both with the same exception. *)
Definition end_alike {A} (m1 m2 : M A) : Prop :=
  ∀ σ, outcome (m1 σ).1 = outcome (m2 σ).1 ∧ (m1 σ).2 = (m2 σ).2.

(** A string cell, or a missing one. *)
Definition is_text (v : value) : bool :=
  match v with
  | NaN | Str _ => true
  | _ => false
  end.

(** ** Strings *)

Definition nl : string := String "010"%char "".

(** [s.lower()] on ASCII letters. *)
Definition lower_ascii (a : ascii) : ascii :=
  let n := nat_of_ascii a in
  if (65 <=? n) && (n <=? 90) then ascii_of_nat (n + 32) else a.

Fixpoint lower (s : string) : string :=
  match s with
  | "" => ""
  | String a s => String (lower_ascii a) (lower s)
  end.

(** ** Streamlit *)

Inductive metric_value := MStr (s : string) | MInt (n : nat).

(** What a run of the script puts on the page. *)
Inductive element :=
  | StError (body : string)
  | StMarkdown (body : string)
  | StMetric (label : string) (v : metric_value)
  | StPlotlyChart (data : DataFrame) (x y title : string)
  | StSuccess (body : string)
  | StSelectbox (label : string) (options : list value)
  | StTextArea (label body : string).

(** [st.selectbox(label, options)]: the option the user picked, the
    first option when nothing valid is picked, and [none] when there is
    no option at all. *)
Definition selectbox {A} (none : A) (options : list A) (picked : nat) : A :=
  default (default none (options !! 0)) (options !! picked).

(** The state of the widgets when the script runs. *)
Record widgets := mkWidgets {
  insights_clicked : bool;
  question : string;
  ask_clicked : bool;
  prep_account_picked : nat;
  brief_clicked : bool;
  outreach_account_picked : nat;
  contact_picked : nat;
  tone_picked : nat;
  purpose : string;
  email_clicked : bool
}.

(** Python truthiness of an optional string. *)
Definition truthy (s : option string) : bool :=
  match s with
  | Some s => negb (bool_decide (s = ""))
  | None => false
  end.

(** [a or b]: [b] is evaluated only when [a] is falsy. *)
Definition py_or (a : option string) (b : result (option string)) : result (option string) :=
  if truthy a then Ok a else b.

(** ** The completion client *)

Record Groq := mkGroq { api_key : option string }.

Record Request := mkRequest {
  model : string;
  messages : list (string * string);
  temperature : Qc;
  max_tokens : nat
}.

Record ChatMessage := mkChatMessage { content : string }.
Record Choice := mkChoice { message : ChatMessage }.
Record ChatCompletion := mkChatCompletion { choices : list Choice }.

(** How a call that may end the script run returns: a value, the stop
    requested by [st.stop()], or an exception. *)
Inductive control (A : Type) :=
  | Return (a : A)
  | Stop
  | Throw (e : exn).
Arguments Return {A} a.
Arguments Stop {A}.
Arguments Throw {A} e.

(** The resource cache of the process, with the number of client
    handles constructed so far. *)
Record session := mkSession {
  client_cache : option Groq;
  constructed : nat
}.

(** ** The schema *)

(** The label a column of the opportunities file, and of the contacts
    file, is loaded under. *)
Definition opportunity_label (c : string) : string :=
  if decide (c = "ID") then "opportunity_id"
  else if decide (c = "ACCOUNT_ID") then "account_id"
  else if decide (c = "AMOUNT") then "amount"
  else if decide (c = "PROBABILITY") then "probability"
  else if decide (c = "STAGE_NAME") then "stage"
  else if decide (c = "CLOSE_DATE") then "close_date"
  else c.

Definition contact_label (c : string) : string :=
  if decide (c = "ID") then "contact_id"
  else if decide (c = "ACCOUNT_ID") then "account_id"
  else if decide (c = "NAME") then "contact_name"
  else if decide (c = "EMAIL") then "email"
  else c.

(** ** The application *)

Section App.

(** [pd.read_csv(path)] on the files of the working directory. *)
Variable pd_read_csv : string → result DataFrame.
(** [pd.to_datetime(s)]: the parsed series, or the exception raised on
    a value that cannot be parsed. *)
Variable pd_to_datetime : list value → result (list value).
(** [df.to_string(index=False)] *)
Variable to_string : DataFrame → string.
(** [format(x, ",.0f")] *)
Variable format_money : value → string.
(** Whether pandas holds the amounts of the opportunities as float64
    although all of them are whole numbers, as it does when the file
    writes them with a decimal point or an exponent. *)
Variable amount_float64 : bool.
(** [str(v)] for a value that is not a [str]. *)
Variable repr : value → string.
(** [os.getenv(name)] and [st.secrets.get(name)] *)
Variable os_getenv : string → option string.
Variable st_secrets_get : string → result (option string).
(** [client.chat.completions.create(...)] *)
Variable chat_completions_create : Groq → Request → result ChatCompletion.

(** The text an f-string puts for [{v}]. *)
Definition py_str (v : value) : string :=
  match v with
  | Str s => s
  | _ => repr v
  end.

(** The body of [get_groq_client]: what it shows, and the client or the
    end of the run. *)
Definition get_groq_client_body : list element * control Groq :=
  match py_or (os_getenv "GROQ_API_KEY") (st_secrets_get "GROQ_API_KEY") with
  | Raise e => ([], Throw e)
  | Ok API_KEY =>
      if negb (truthy API_KEY)
      then ([StError "❌ GROQ_API_KEY not found in Streamlit secrets"], Stop)
      else ([], Return {| api_key := API_KEY |})
  end.

(** [get_groq_client] under [@st.cache_resource]: the body runs when the
    cache holds no client, and a client it returns is kept. *)
Definition get_groq_client (s : session) : list element * control Groq * session :=
  match client_cache s with
  | Some client => ([], Return client, s)
  | None =>
      match get_groq_client_body with
      | (shown, Return client) =>
          (shown, Return client,
           {| client_cache := Some client; constructed := S (constructed s) |})
      | (shown, Stop) => (shown, Stop, s)
      | (shown, Throw e) => (shown, Throw e, s)
      end
  end.

(** [child.merge(accounts[["account_id", "account_name"]],
    on="account_id", how="left")].  The selection keeps every column
    that carries a label asked for, so that an account_id label the
    accounts table carries twice reaches [merge], which refuses it. *)
Definition join_account_name (child accounts : DataFrame) : result DataFrame :=
  right ← getitems ["account_id"; "account_name"] accounts;
  _ ← label_loc "account_id" accounts;
  merge_left child right "account_id".

(** The four blocks of [load_data], as its comments name them. *)
Definition standardize_accounts (accounts : DataFrame) : DataFrame :=
  rename (list_to_map [("ID", "account_id"); ("NAME", "account_name")]) accounts.

Definition standardize_opportunities (accounts opportunities : DataFrame) : result DataFrame :=
  let opportunities :=
    rename (list_to_map [("ID", "opportunity_id"); ("ACCOUNT_ID", "account_id");
                         ("AMOUNT", "amount"); ("PROBABILITY", "probability");
                         ("STAGE_NAME", "stage"); ("CLOSE_DATE", "close_date")])
           opportunities in
  close_date ← getitem "close_date" opportunities ≫= pd_to_datetime;
  let opportunities := setitem "close_date" close_date opportunities in
  join_account_name opportunities accounts.

Definition standardize_contacts (accounts contacts : DataFrame) : result DataFrame :=
  let contacts :=
    rename (list_to_map [("ID", "contact_id"); ("ACCOUNT_ID", "account_id");
                         ("NAME", "contact_name"); ("EMAIL", "email")])
           contacts in
  join_account_name contacts accounts.

Definition standardize_tasks (accounts tasks : DataFrame) : result DataFrame :=
  let tasks :=
    if has_column "ACCOUNT_ID" tasks
    then rename (list_to_map [("ACCOUNT_ID", "account_id")]) tasks
    else tasks in
  tasks ←
    (if has_column "ACTIVITY_DATE" tasks
     then activity_date ← getitem "ACTIVITY_DATE" tasks ≫= pd_to_datetime;
          Ok (setitem "activity_date" activity_date tasks)
     else Ok tasks);
  if has_column "account_id" tasks
  then join_account_name tasks accounts
  else Ok tasks.

Definition load_data : result (DataFrame * DataFrame * DataFrame * DataFrame) :=
  accounts ← pd_read_csv "accounts.csv";
  opportunities ← pd_read_csv "opportunities.csv";
  contacts ← pd_read_csv "contacts.csv";
  tasks ← pd_read_csv "tasks.csv";
  let accounts := standardize_accounts accounts in
  opportunities ← standardize_opportunities accounts opportunities;
  contacts ← standardize_contacts accounts contacts;
  tasks ← standardize_tasks accounts tasks;
  Ok (accounts, contacts, opportunities, tasks).

Definition ask_ai (client : Groq) (prompt : string) : string :=
  let attempt : result string :=
    response ← chat_completions_create client
                 {| model := "openai/gpt-oss-120b";
                    messages := [("user", prompt)];
                    temperature := Q2Qc (2 # 5);
                    max_tokens := 1000 |};
    match choices response with
    | first :: _ => Ok (content (message first))
    | [] => Raise (Exception "IndexError" "list index out of range")
    end in
  match attempt with
  | Ok text => text
  | Raise e => "AI Error: " +:+ str e
  end.

(** The indentation the f-string literals of the views carry. *)
Definition ind : string := "            ".

Definition insights_prompt (stage_summary : DataFrame) : string :=
  nl +:+ ind +:+ "Analyze this sales pipeline data and provide 3 actionable insights:"
  +:+ nl +:+ ind +:+ to_string stage_summary
  +:+ nl +:+ ind +:+ "Focus on opportunities, risks, and next actions."
  +:+ nl +:+ ind.

Definition assistant_prompt (context : DataFrame) (question : string) : string :=
  nl +:+ ind +:+ "Sales Data (top 20 opportunities):"
  +:+ nl +:+ ind +:+ to_string context
  +:+ nl +:+ ind
  +:+ nl +:+ ind +:+ "Question: " +:+ question
  +:+ nl +:+ ind
  +:+ nl +:+ ind +:+ "Answer concisely with specific numbers and recommendations."
  +:+ nl +:+ ind.

Definition brief_prompt (account : value) (opps_text contacts_text : string) : string :=
  nl +:+ ind +:+ "MEETING BRIEF for " +:+ py_str account
  +:+ nl
  +:+ nl +:+ ind +:+ "Opportunities:"
  +:+ nl +:+ ind +:+ opps_text
  +:+ nl
  +:+ nl +:+ ind +:+ "Contacts:"
  +:+ nl +:+ ind +:+ contacts_text
  +:+ nl
  +:+ nl +:+ ind +:+ "Provide:"
  +:+ nl +:+ ind +:+ "1. Account status summary"
  +:+ nl +:+ ind +:+ "2. Key talking points"
  +:+ nl +:+ ind +:+ "3. Next action recommendations"
  +:+ nl +:+ ind.

Definition email_prompt (tone : string) (contact account : value) (purpose : string) : string :=
  nl +:+ ind +:+ "Write a " +:+ lower tone +:+ " sales email to " +:+ py_str contact
             +:+ " at " +:+ py_str account +:+ "."
  +:+ nl +:+ ind +:+ "Purpose: " +:+ purpose
  +:+ nl +:+ ind +:+ "Structure: Subject line + Greeting + Body + Call-to-action + Sign-off"
  +:+ nl +:+ ind +:+ "Keep under 150 words. Conversational tone."
  +:+ nl +:+ ind +:+ "From: Your Name, Sales Manager at Your Company"
  +:+ nl +:+ ind.

(** [with tabs[0]]: the dashboard. *)
Definition dashboard (client : Groq) (w : widgets) : M (list element) :=
  weighted_df ← df_copy opps_df;
  copied ← deref weighted_df;
  weighted_amount ← lift (amount ← getitem "amount" copied;
                          probability ← getitem "probability" copied;
                          share ← series_div probability (Q2Qc 100);
                          series_mul amount share);
  df_setitem weighted_df "weighted_amount" weighted_amount;;
  opps ← deref opps_df;
  total ← lift (getitem "amount" opps ≫= series_sum amount_float64);
  weighted ← deref weighted_df;
  weighted_total ← lift (getitem "weighted_amount" weighted ≫= series_sum true);
  stage_summary ← lift (groupby_sum amount_float64 "stage" "amount" opps);
  mret ([StMetric "Total Pipeline" (MStr ("€" +:+ format_money total));
         StMetric "Weighted Pipeline" (MStr ("€" +:+ format_money weighted_total));
         StMetric "Active Deals" (MInt (len opps));
         StPlotlyChart stage_summary "stage" "amount" "Pipeline by Stage"]
        ++ (if insights_clicked w
            then [StSuccess (ask_ai client (insights_prompt stage_summary))]
            else [])).

(** [with tabs[1]]: the assistant. *)
Definition assistant (client : Groq) (w : widgets) : M (list element) :=
  if ask_clicked w && negb (bool_decide (question w = ""))
  then
    opps ← deref opps_df;
    context ← lift (head 20 <$> getitems ["account_name"; "stage"; "amount"; "probability"] opps);
    mret [StMarkdown (ask_ai client (assistant_prompt context (question w)))]
  else mret [].

(** [with tabs[2]]: meeting preparation. *)
Definition meeting_prep (client : Groq) (w : widgets) : M (list element) :=
  opps ← deref opps_df;
  options ← lift (names ← getitem "account_name" opps; sorted (unique (dropna names)));
  let account := selectbox NaN options (prep_account_picked w) in
  if brief_clicked w
  then
    account_opps ← lift (where_attr_eq "account_name" account opps);
    contacts ← deref contacts_df;
    account_contacts ← lift (where_attr_eq "account_name" account contacts);
    opps_text ← lift (to_string <$>
                        getitems ["stage"; "amount"; "probability"; "close_date"] account_opps);
    contacts_text ← lift (if negb (empty account_contacts)
                          then to_string <$> getitems ["contact_name"; "email"] account_contacts
                          else Ok "No contacts");
    mret [StSelectbox "Select Account" options;
          StMarkdown "### 📋 Meeting Brief";
          StMarkdown (ask_ai client (brief_prompt account opps_text contacts_text))]
  else mret [StSelectbox "Select Account" options].

(** [with tabs[3]]: the outreach generator. *)
Definition outreach (client : Groq) (w : widgets) : M (list element) :=
  contacts ← deref contacts_df;
  options ← lift (names ← getitem "account_name" contacts; sorted (unique (dropna names)));
  let account := selectbox NaN options (outreach_account_picked w) in
  contact_df ← lift (where_eq "account_name" account contacts);
  contact_options ← lift (if negb (empty contact_df)
                          then tolist <$> getitem "contact_name" contact_df
                          else Ok [Str "No Contacts"]);
  let contact := selectbox NaN contact_options (contact_picked w) in
  let tone := selectbox "" ["Professional"; "Friendly"; "Executive"] (tone_picked w) in
  mret ([StSelectbox "Account" options;
         StSelectbox "Contact" contact_options;
         StSelectbox "Tone" [Str "Professional"; Str "Friendly"; Str "Executive"]]
        ++ (if email_clicked w && negb (bool_decide (purpose w = ""))
            then [StTextArea "Generated Email"
                    (ask_ai client (email_prompt tone contact account (purpose w)))]
            else [])).

(** The four tab bodies, in the order the script runs them. *)
Definition views (client : Groq) (w : widgets) : M (list element) :=
  tab0 ← dashboard client w;
  tab1 ← assistant client w;
  tab2 ← meeting_prep client w;
  tab3 ← outreach client w;
  mret (tab0 ++ tab1 ++ tab2 ++ tab3).

(** How a run of the script ends: an uncaught exception, the stop
    requested by [st.stop()], or the rendered page. *)
Inductive page :=
  | Crashed (e : exn)
  | Halted (shown : list element)
  | Rendered (shown : list element).

(** The header and the tabs, on the loaded tables and with the client
    the script holds. *)
Definition render (client : Groq) (w : widgets)
    (tables : DataFrame * DataFrame * DataFrame * DataFrame) : page :=
  let '(accounts, contacts, opps, tasks) := tables in
  match views client w [accounts; contacts; opps; tasks] with
  | (Ok shown, _) => Rendered (StMarkdown (nl +:+ "#AI Sales Analytics" +:+ nl) :: shown)
  | (Raise e, _) => Crashed e
  end.

(** One run of the script, top to bottom.  [st.set_page_config] shows
    nothing and is left out; [load_data] is memoised by
    [@st.cache_data] and, being a function of the files alone, is
    written as evaluated again. *)
Definition script (w : widgets) (s : session) : page * session :=
  match load_data with
  | Raise e => (Crashed e, s)
  | Ok tables =>
      match get_groq_client s with
      | (shown, Stop, s') => (Halted shown, s')
      | (_, Throw e, s') => (Crashed e, s')
      | (_, Return client, s') => (render client w tables, s')
      end
  end.

(** The script run once per interaction, the session carried along. *)
Fixpoint reruns (ws : list widgets) (s : session) : list page * session :=
  match ws with
  | [] => ([], s)
  | w :: ws =>
      let '(p, s') := script w s in
      let '(ps, s'') := reruns ws s' in
      (p :: ps, s'')
  end.

End App.

(** ** Sample inputs *)

Definition demo_to_datetime (s : list value) : result (list value) :=
  mapM (λ v, match v with
             | Str "2024-01-31" => Ok (Timestamp 1706659200)
             | Str "2024-02-29" => Ok (Timestamp 1709164800)
             | NaN => Ok NaN
             | _ => Raise (Exception "ValueError" "Unknown datetime string format")
             end) s.

Definition accounts_csv : DataFrame :=
  {| columns := ["ID"; "NAME"];
     rows := [[Str "A1"; Str "Acme"]; [Str "A2"; Str "Bolt"]; [Str "A3"; Str "Core"]] |}.

Definition contacts_csv : DataFrame :=
  {| columns := ["ID"; "ACCOUNT_ID"; "NAME"; "EMAIL"];
     rows := [[Str "C1"; Str "A1"; Str "Ann"; Str "ann@acme.test"];
              [Str "C2"; Str "A9"; Str "Bob"; Str "bob@nowhere.test"]] |}.


(** A tasks file whose account column already carries the lower-case
    label, and one with none of the optional columns. *)
Definition tasks_lower_csv : DataFrame :=
  {| columns := ["ID"; "account_id"];
     rows := [[Str "T1"; Str "A2"]; [Str "T2"; Str "A9"]] |}.

Definition tasks_bare_csv : DataFrame :=
  {| columns := ["ID"; "SUBJECT"];
     rows := [[Str "T1"; Str "Call"]] |}.

Definition q (z : Z) : value := Num (Q2Qc (inject_Z z)).

(** The example of the specification: three accounts and five
    opportunities of 1000 to 5000, each at 50 percent. *)
Definition opportunities_csv : DataFrame :=
  {| columns := ["ID"; "ACCOUNT_ID"; "AMOUNT"; "PROBABILITY"; "STAGE_NAME"; "CLOSE_DATE"];
     rows := [[Str "O1"; Str "A1"; q 1000; q 50; Str "Prospecting"; Str "2024-01-31"];
              [Str "O2"; Str "A1"; q 2000; q 50; Str "Negotiation"; Str "2024-01-31"];
              [Str "O3"; Str "A2"; q 3000; q 50; Str "Prospecting"; Str "2024-02-29"];
              [Str "O4"; Str "A3"; q 4000; q 50; Str "Closed Won"; Str "2024-02-29"];
              [Str "O5"; Str "A3"; q 5000; q 50; Str "Negotiation"; Str "2024-02-29"]] |}.

Definition demo_read_csv (path : string) : result DataFrame :=
  if bool_decide (path = "accounts.csv") then Ok accounts_csv
  else if bool_decide (path = "opportunities.csv") then Ok opportunities_csv
  else if bool_decide (path = "contacts.csv") then Ok contacts_csv
  else if bool_decide (path = "tasks.csv") then Ok tasks_bare_csv
  else Raise (Exception "FileNotFoundError" path).


(** The same files, with the tasks file that has the lower-case label. *)
Definition demo_read_csv_lower (path : string) : result DataFrame :=
  if bool_decide (path = "tasks.csv") then Ok tasks_lower_csv
  else demo_read_csv path.

(** The store a run of the script starts its views with. *)
Definition demo_store : store :=
  match load_data demo_read_csv demo_to_datetime with
  | Ok (accounts, contacts, opps, tasks) => [accounts; contacts; opps; tasks]
  | Raise _ => []
  end.

Definition demo_table (l : nat) : DataFrame :=
  default {| columns := []; rows := [] |} (demo_store !! l).

Definition demo_to_string (df : DataFrame) : string :=
  String.concat " " (columns df).

Definition demo_format_money (x : value) : string :=
  match x with
  | Num x => pretty (Qnum x `div` Z.pos (Qden x))%Z
  | Inf negative => if negative then "-inf" else "inf"
  | _ => "nan"
  end.

Definition demo_repr (v : value) : string := "nan".

(** An endpoint that is over its quota. *)
Definition rate_limited (client : Groq) (request : Request) : result ChatCompletion :=
  Raise (Exception "RateLimitError" "rate limit").

(** An endpoint that answers with one choice. *)
Definition echo (client : Groq) (request : Request) : result ChatCompletion :=
  Ok {| choices := [{| message := {| content := "ok" |} |}] |}.

Definition demo_widgets : widgets :=
  {| insights_clicked := false;
     question := "Which accounts have the highest pipeline?";
     ask_clicked := true;
     prep_account_picked := 1;
     brief_clicked := true;
     outreach_account_picked := 0;
     contact_picked := 0;
     tone_picked := 1;
     purpose := "Schedule discovery call";
     email_clicked := true |}.

(** A process with no environment variable and a secret store that
    holds the key, and one with neither. *)
Definition no_env (name : string) : option string := None.
Definition secret_store (name : string) : result (option string) :=
  if bool_decide (name = "GROQ_API_KEY") then Ok (Some "gsk_secret") else Ok None.
Definition no_secret (name : string) : result (option string) := Ok None.

Definition fresh_session : session := {| client_cache := None; constructed := 0 |}.

(** A loaded opportunity table in which one opportunity has no stage. *)
Definition opps_missing_stage : DataFrame :=
  {| columns := ["opportunity_id"; "account_id"; "amount"; "probability"; "stage";
                 "close_date"; "account_name"];
     rows := [[Str "O1"; Str "A1"; q 1000; q 50; Str "Prospecting";
               Timestamp 1706659200; Str "Acme"];
              [Str "O2"; Str "A2"; q 500; q 20; NaN;
               Timestamp 1709164800; Str "Bolt"]] |}.

(** The float64 that [read_csv] reads for the decimal [n / d]. *)
Definition f64 (n : Z) (d : positive) : value := of_float64 (float64_of (Q2Qc (n # d))).

(** A loaded opportunity table with amounts 0.1, 0.2 and 0.4, in two
    stages. *)
Definition opps_float_amounts : DataFrame :=
  {| columns := ["opportunity_id"; "account_id"; "amount"; "probability"; "stage";
                 "close_date"; "account_name"];
     rows := [[Str "O1"; Str "A1"; f64 1 10; q 50; Str "Negotiation";
               Timestamp 1706659200; Str "Acme"];
              [Str "O2"; Str "A2"; f64 2 10; q 50; Str "Prospecting";
               Timestamp 1709164800; Str "Bolt"];
              [Str "O3"; Str "A1"; f64 4 10; q 50; Str "Negotiation";
               Timestamp 1709164800; Str "Acme"]] |}.



(** An opportunities file without a close date column, one whose close
    date does not parse, and an accounts file without identifiers. *)
Definition opportunities_undated_csv : DataFrame :=
  {| columns := ["ID"; "ACCOUNT_ID"; "AMOUNT"; "PROBABILITY"; "STAGE_NAME"];
     rows := [[Str "O1"; Str "A1"; q 1000; q 50; Str "Prospecting"]] |}.

Definition opportunities_bad_date_csv : DataFrame :=
  {| columns := ["ID"; "ACCOUNT_ID"; "AMOUNT"; "PROBABILITY"; "STAGE_NAME"; "CLOSE_DATE"];
     rows := [[Str "O1"; Str "A1"; q 1000; q 50; Str "Prospecting"; Str "next week"]] |}.

Definition accounts_unkeyed_csv : DataFrame :=
  {| columns := ["NAME"]; rows := [[Str "Acme"]] |}.

Definition demo_read_csv_with (accounts opportunities : DataFrame) (path : string) :
    result DataFrame :=
  if bool_decide (path = "accounts.csv") then Ok accounts
  else if bool_decide (path = "opportunities.csv") then Ok opportunities
  else demo_read_csv path.

(** A contacts file that already carries an account_name column. *)
Definition contacts_named_csv : DataFrame :=
  {| columns := ["ID"; "ACCOUNT_ID"; "NAME"; "EMAIL"; "account_name"];
     rows := [[Str "C1"; Str "A1"; Str "Ann"; Str "ann@acme.test"; Str "ACME Inc."]] |}.

Definition demo_read_csv_named (path : string) : result DataFrame :=
  if bool_decide (path = "contacts.csv") then Ok contacts_named_csv
  else demo_read_csv path.

(** A store whose opportunity table has no row. *)
Definition empty_opps : DataFrame :=
  {| columns := ["opportunity_id"; "account_id"; "amount"; "probability"; "stage";
                 "close_date"; "account_name"];
     rows := [] |}.

Definition empty_opps_store : store :=
  [demo_table accounts_df; demo_table contacts_df; empty_opps; demo_table tasks_df].

Definition insights_widgets : widgets :=
  {| insights_clicked := true;
     question := "";
     ask_clicked := false;
     prep_account_picked := 0;
     brief_clicked := false;
     outreach_account_picked := 0;
     contact_picked := 0;
     tone_picked := 0;
     purpose := "";
     email_clicked := false |}.

(** A tasks file with an activity date. *)
Definition tasks_dated_csv : DataFrame :=
  {| columns := ["ID"; "ACCOUNT_ID"; "ACTIVITY_DATE"];
     rows := [[Str "T1"; Str "A2"; Str "2024-01-31"]] |}.

(** A tasks file that has the account column under both labels, and
    one whose account identifiers are numbers. *)
Definition tasks_twice_csv : DataFrame :=
  {| columns := ["ID"; "ACCOUNT_ID"; "account_id"];
     rows := [[Str "T1"; Str "A2"; Str "A2"]] |}.

Definition tasks_numbered_csv : DataFrame :=
  {| columns := ["ID"; "ACCOUNT_ID"];
     rows := [[Str "T1"; q 2]; [Str "T2"; q 9]] |}.

(** * Properties *)

(** Decidable facts about concrete inputs. *)
Ltac by_computation :=
  match goal with
  | |- ?P => apply (@bool_decide_unpack P _); vm_compute; exact I
  end.

(** ** The result monad *)

Lemma bind_Ok {A B} (m : result A) (f : A → result B) (b : B) :
  m ≫= f = Ok b ↔ ∃ a, m = Ok a ∧ f a = Ok b.
Proof.
  destruct m as [a|e]; simpl; split.
  - intros H. by exists a.
  - by intros (a' & [= ->] & H).
  - intros H. discriminate H.
  - by intros (a' & [=] & _).
Qed.

Lemma fmap_Ok {A B} (f : A → B) (m : result A) (b : B) :
  f <$> m = Ok b ↔ ∃ a, m = Ok a ∧ b = f a.
Proof.
  destruct m as [a|e]; simpl; split.
  - intros [= <-]. by exists a.
  - by intros (a' & [= ->] & ->).
  - intros H. discriminate H.
  - by intros (a' & [=] & _).
Qed.

Lemma mapM_Ok_fmap {A B} (f : A → result B) (g : A → B) (l : list A) :
  (∀ x, x ∈ l → f x = Ok (g x)) → mapM f l = Ok (g <$> l).
Proof.
  induction l as [|x l IH]; intros Hf; [done|].
  cbn. rewrite (Hf x) by left. cbn.
  rewrite IH; [done|]. intros y Hy. apply Hf. by right.
Qed.

(** ** Filters *)

Lemma filter_ext_in {A} (P Q : A → Prop)
    `{!∀ x, Decision (P x), !∀ x, Decision (Q x)} (l : list A) :
  (∀ x, x ∈ l → P x ↔ Q x) → filter P l = filter Q l.
Proof.
  induction l as [|x l IH]; intros Hext; [done|].
  rewrite !filter_cons.
  assert (filter P l = filter Q l) as -> by (apply IH; intros y Hy; apply Hext; by right).
  destruct (decide (P x)) as [Hp|Hp].
  - rewrite decide_True; [done|]. apply Hext; [left|done].
  - rewrite decide_False; [done|]. rewrite <- Hext; [done|left].
Qed.

Lemma filter_all {A} (l : list A) : filter (λ _, True) l = l.
Proof.
  induction l as [|x l IH]; [done|]. by rewrite filter_cons_True, IH.
Qed.

Lemma eq_py_true (x k : value) : k ≠ NaN → eq_py x k = true ↔ x = k.
Proof.
  intros Hk. destruct x, k; simpl; try done;
    rewrite bool_decide_eq_true; done.
Qed.

(** ** Columns *)

Lemma column_loc_Some c df i :
  column_loc c df = Some i → columns df !! i = Some c.
Proof.
  unfold column_loc. intros H.
  destruct (list_find _ _) as [[k c']|] eqn:E; simplify_eq/=.
  apply list_find_Some in E as (E & -> & _). done.
Qed.

Lemma column_loc_None c df :
  column_loc c df = None ↔ c ∉ columns df.
Proof.
  unfold column_loc. split.
  - intros H. destruct (list_find _ _) as [[k c']|] eqn:E; simplify_eq/=.
    apply list_find_None in E. intros Hin.
    rewrite Forall_forall in E. by apply (E c).
  - intros H. destruct (list_find _ _) as [[k c']|] eqn:E; [|done].
    apply list_find_Some in E as (E & -> & _).
    destruct H. by eapply list_elem_of_lookup_2.
Qed.

Lemma column_loc_is_Some c df :
  c ∈ columns df → is_Some (column_loc c df).
Proof.
  intros H. destruct (column_loc c df) eqn:E; [by eexists|].
  by apply column_loc_None in E.
Qed.

Lemma has_column_true c df : has_column c df = true ↔ c ∈ columns df.
Proof. unfold has_column. apply bool_decide_eq_true. Qed.

Lemma has_column_false c df : has_column c df = false ↔ c ∉ columns df.
Proof. unfold has_column. apply bool_decide_eq_false. Qed.

Lemma getitem_Ok c df s :
  getitem c df = Ok s ↔ ∃ i, column_loc c df = Some i ∧ s = cell i <$> rows df.
Proof.
  unfold getitem. destruct (column_loc c df) as [i|]; split.
  - intros [= <-]. by exists i.
  - by intros (i' & [= ->] & ->).
  - intros H. discriminate H.
  - by intros (i' & [=] & _).
Qed.

Lemma getitem_length c df s : getitem c df = Ok s → length s = len df.
Proof. intros (i & _ & ->)%getitem_Ok. by rewrite length_fmap. Qed.

(** ** The left join *)




Lemma filter_none {A} (P : A → Prop) `{!∀ x, Decision (P x)} (l : list A) :
  (∀ x, x ∈ l → ¬ P x) → filter P l = [].
Proof.
  induction l as [|x l IH]; intros Hno; [done|].
  rewrite filter_cons_False by (apply Hno; left).
  apply IH. intros y Hy. apply Hno. by right.
Qed.





Lemma label_loc_Ok c df i :
  label_loc c df = Ok i ↔ column_loc c df = Some i ∧ c ∉ drop (S i) (columns df).
Proof.
  unfold label_loc. destruct (column_loc c df) as [k|]; [|naive_solver].
  case_bool_decide; naive_solver.
Qed.

(** When the join returns. *)
Lemma merge_left_returns left right on joined :
  merge_left left right on = Ok joined ↔
  ∃ i j, label_loc on left = Ok i ∧ label_loc on right = Ok j ∧
    keys_compatible (cell i <$> rows left) (cell j <$> rows right) = true ∧
    joined = {| columns := (suffixed on (columns right) "_x" <$> columns left)
                           ++ (suffixed on (columns left) "_y" <$> delete j (columns right));
                rows := rows left ≫= join_row right i j |}.
Proof.
  unfold merge_left. split.
  - intros (j & Hj & (i & Hi & H)%bind_Ok)%bind_Ok.
    destruct (keys_compatible _ _) eqn:Hk; [|done].
    injection H as <-. by exists i, j.
  - intros (i & j & -> & -> & Hk & ->). cbn. by rewrite Hk.
Qed.

Lemma merge_left_Ok left right on joined :
  merge_left left right on = Ok joined →
  ∃ i j, column_loc on left = Some i ∧ column_loc on right = Some j ∧
    joined = {| columns := (suffixed on (columns right) "_x" <$> columns left)
                           ++ (suffixed on (columns left) "_y" <$> delete j (columns right));
                rows := rows left ≫= join_row right i j |}.
Proof.
  intros (i & j & [Hi _]%label_loc_Ok & [Hj _]%label_loc_Ok & _ & ->)%merge_left_returns.
  by exists i, j.
Qed.

(** ** Selecting columns *)

Lemma getitems_Ok cs df selected :
  getitems cs df = Ok selected ↔
  Forall (λ c, c ∈ columns df) cs ∧
  selected = {| columns := cs;
                rows := (λ r, (λ c, cell (default 0 (column_loc c df)) r) <$> cs)
                        <$> rows df |}.
Proof.
  unfold getitems. destruct (filter _ cs) as [|c missing] eqn:E.
  - split.
    + intros [= <-]. split; [|done]. apply Forall_forall. intros c Hc.
      destruct (decide (c ∈ columns df)) as [|Hno]; [done|].
      assert (c ∈ filter (λ c, c ∉ columns df) cs) as Hin
        by (by apply list_elem_of_filter).
      rewrite E in Hin. by apply elem_of_nil in Hin.
    + by intros [_ ->].
  - split.
    + intros H. by case_bool_decide.
    + intros [Hall _]. exfalso.
      assert (c ∈ filter (λ c, c ∉ columns df) cs) as Hin by (rewrite E; left).
      apply list_elem_of_filter in Hin as [Hno Hin].
      rewrite Forall_forall in Hall. by apply Hno, Hall.
Qed.

Lemma getitems_missing (cs : list string) (df : DataFrame) (c : string) :
  c ∈ cs → c ∉ columns df →
  getitems cs df
  = Raise (if bool_decide (filter (λ c, c ∉ columns df) cs = cs)
           then KeyError_none_of cs
           else KeyError_not_in_index (filter (λ c, c ∉ columns df) cs)).
Proof.
  intros Hin Hno. unfold getitems.
  destruct (filter _ cs) as [|c' missing] eqn:E; [|by case_bool_decide].
  assert (c ∈ filter (λ c, c ∉ columns df) cs) as H by (by apply list_elem_of_filter).
  rewrite E in H. by apply elem_of_nil in H.
Qed.

(** The two columns [accounts[["account_id", "account_name"]]] selects. *)
Lemma getitems_account_key accounts right :
  getitems ["account_id"; "account_name"] accounts = Ok right →
  ∃ ids names,
    getitem "account_id" accounts = Ok ids ∧
    getitem "account_name" accounts = Ok names ∧
    columns right = ["account_id"; "account_name"] ∧
    rows right = (λ r, [r.1; r.2]) <$> zip ids names.
Proof.
  intros [Hall ->]%getitems_Ok.
  apply Forall_cons_1 in Hall as [[a Ha]%column_loc_is_Some Hall].
  apply Forall_cons_1 in Hall as [[b Hb]%column_loc_is_Some _].
  unfold getitem. rewrite Ha, Hb. eexists _, _. repeat split. cbn [rows].
  rewrite (list_fmap_ext _ (λ r, [cell a r; cell b r]) (rows accounts))
    by (intros; cbn; by rewrite Ha, Hb).
  induction (rows accounts) as [|r l IH]; [done|]. cbn. by rewrite IH.
Qed.

(** The join of a table with the accounts, as the merge of the table
    with the two key columns. *)
Lemma join_account_name_inv child accounts joined :
  join_account_name child accounts = Ok joined →
  ∃ right, getitems ["account_id"; "account_name"] accounts = Ok right ∧
           merge_left child right "account_id" = Ok joined.
Proof.
  unfold join_account_name. intros (right & Hright & (i & _ & H)%bind_Ok)%bind_Ok.
  by exists right.
Qed.

(** ** The join with the accounts table *)


Lemma load_data_Ok pd_read_csv pd_to_datetime accounts contacts opps tasks :
  load_data pd_read_csv pd_to_datetime = Ok (accounts, contacts, opps, tasks) →
  ∃ raw_accounts raw_opps raw_contacts raw_tasks,
    pd_read_csv "accounts.csv" = Ok raw_accounts ∧
    pd_read_csv "opportunities.csv" = Ok raw_opps ∧
    pd_read_csv "contacts.csv" = Ok raw_contacts ∧
    pd_read_csv "tasks.csv" = Ok raw_tasks ∧
    accounts = standardize_accounts raw_accounts ∧
    standardize_opportunities pd_to_datetime accounts raw_opps = Ok opps ∧
    standardize_contacts accounts raw_contacts = Ok contacts ∧
    standardize_tasks pd_to_datetime accounts raw_tasks = Ok tasks.
Proof.
  unfold load_data.
  intros (raw_accounts & Ha & H)%bind_Ok.
  apply bind_Ok in H as (raw_opps & Ho & H).
  apply bind_Ok in H as (raw_contacts & Hc & H).
  apply bind_Ok in H as (raw_tasks & Ht & H).
  apply bind_Ok in H as (opps' & Hso & H).
  apply bind_Ok in H as (contacts' & Hsc & H).
  apply bind_Ok in H as (tasks' & Hst & [= <- <- <- <-]).
  by exists raw_accounts, raw_opps, raw_contacts, raw_tasks.
Qed.


Section Loader.

Variable pd_read_csv : string → result DataFrame.
Variable pd_to_datetime : list value → result (list value).


End Loader.



(** ** The optional columns of the tasks table *)

Lemma rename_account_id_columns c tasks :
  c ∈ columns (rename (list_to_map [("ACCOUNT_ID", "account_id")]) tasks) →
  c = "account_id" ∨ c ∈ columns tasks.
Proof.
  unfold rename. simpl. intros (c' & -> & Hc')%list_elem_of_fmap.
  destruct (decide (c' = "ACCOUNT_ID")) as [->|Hne].
  - left. by rewrite lookup_insert_eq.
  - right. rewrite lookup_insert_ne, lookup_empty by done. done.
Qed.

Lemma join_account_name_columns child accounts joined c :
  join_account_name child accounts = Ok joined →
  c ∈ columns joined →
  c ∈ columns child ∨ c = "account_name" ∨ c = "account_name_x" ∨ c = "account_name_y".
Proof.
  intros (right & Hright & Hmerge)%join_account_name_inv.
  apply getitems_account_key in Hright as (ids & names & _ & _ & Hcols & _).
  apply merge_left_Ok in Hmerge as (i & j & Hi & Hj & ->).
  assert (j = 0) as ->.
  { unfold column_loc in Hj. rewrite Hcols in Hj. by simplify_eq/=. }
  simpl. rewrite Hcols. simpl.
  rewrite elem_of_app, list_elem_of_fmap, list_elem_of_singleton.
  intros [(c' & -> & Hc') | ->].
  - unfold suffixed. case_bool_decide as Hs; [|by left].
    destruct Hs as [Hne Hs].
    apply elem_of_cons in Hs as [?|Hs]; [done|].
    apply list_elem_of_singleton in Hs as ->.
    right; right; left. reflexivity.
  - unfold suffixed. case_bool_decide as Hs.
    + right; right; right. reflexivity.
    + right; left. reflexivity.
Qed.

Section Tasks.

Variable pd_read_csv : string → result DataFrame.
Variable pd_to_datetime : list value → result (list value).

Lemma standardize_tasks_cases (accounts tasks : DataFrame) :
  ("ACCOUNT_ID" ∉ columns tasks → "account_id" ∉ columns tasks →
   standardize_tasks pd_to_datetime accounts tasks
   = if has_column "ACTIVITY_DATE" tasks
     then activity_date ← getitem "ACTIVITY_DATE" tasks ≫= pd_to_datetime;
          Ok (setitem "activity_date" activity_date tasks)
     else Ok tasks) ∧
  ("ACTIVITY_DATE" ∉ columns tasks →
   (let renamed :=
      if has_column "ACCOUNT_ID" tasks
      then rename (list_to_map [("ACCOUNT_ID", "account_id")]) tasks
      else tasks in
    standardize_tasks pd_to_datetime accounts tasks
    = if has_column "account_id" renamed
      then join_account_name renamed accounts
      else Ok renamed) ∧
   ∀ loaded, standardize_tasks pd_to_datetime accounts tasks = Ok loaded →
     "activity_date" ∈ columns loaded → "activity_date" ∈ columns tasks) ∧
  ("ACCOUNT_ID" ∉ columns tasks → "account_id" ∉ columns tasks →
   "ACTIVITY_DATE" ∉ columns tasks →
   standardize_tasks pd_to_datetime accounts tasks = Ok tasks).
Proof.
  assert (∀ t, "ACTIVITY_DATE" ∉ columns tasks →
    t = (if has_column "ACCOUNT_ID" tasks
         then rename (list_to_map [("ACCOUNT_ID", "account_id")]) tasks else tasks) →
    has_column "ACTIVITY_DATE" t = false ∧
    (∀ c, c ∈ columns t → c = "account_id" ∨ c ∈ columns tasks)) as Hrenamed.
  { intros t Hdate ->. destruct (has_column "ACCOUNT_ID" tasks).
    - split; [|intros c; apply rename_account_id_columns].
      apply has_column_false. intros [?|?]%rename_account_id_columns; done.
    - split; [by apply has_column_false|auto]. }
  split; [|split].
  - intros Hraw%has_column_false Hlow. unfold standardize_tasks. rewrite Hraw.
    destruct (has_column "ACTIVITY_DATE" tasks) eqn:Hdate; cbn.
    + destruct (getitem "ACTIVITY_DATE" tasks) as [s|e]; [|done]. cbn.
      destruct (pd_to_datetime s) as [d|e]; [|done]. cbn.
      assert (has_column "account_id" (setitem "activity_date" d tasks) = false) as ->;
        [|done].
      apply has_column_false. unfold setitem.
      destruct (column_loc "activity_date" tasks); simpl; [done|].
      intros [?|?%list_elem_of_singleton]%elem_of_app; done.
    + apply has_column_false in Hlow. by rewrite Hlow.
  - intros Hdate.
    destruct (Hrenamed _ Hdate eq_refl) as [Hno Hcols].
    unfold standardize_tasks. rewrite Hno. cbn.
    split; [done|].
    intros loaded Hloaded Hin.
    destruct (has_column "account_id" _) eqn:Hlow.
    + eapply join_account_name_columns in Hin as [Hin|[?|[?|?]]]; [|done..].
      apply Hcols in Hin as [?|?]; done.
    + injection Hloaded as <-. apply Hcols in Hin as [?|?]; done.
  - intros Hraw%has_column_false Hlow%has_column_false Hdate%has_column_false.
    unfold standardize_tasks. rewrite Hraw, Hdate. cbn. by rewrite Hlow.
Qed.

(** C8 (as amended).  The tasks block of [load_data] tests the
    lower-case label before it joins: with neither [ACCOUNT_ID] nor
    [account_id] among the columns the rename and the join are
    skipped, and the block then returns the table as read when there
    is no [ACTIVITY_DATE], the table with the parsed [activity_date]
    added when there is one and its dates parse, and raises what
    [pd.to_datetime] raises when they do not; without [ACTIVITY_DATE]
    nothing is parsed and no [activity_date] column is added, the
    block being the rename and the join alone; and a tasks file with
    none of the three columns never makes a loader fail that has
    loaded the other three tables.  (When a join is made it can fail,
    as any join.) *)
Theorem standardize_tasks_optional_columns (accounts tasks : DataFrame) :
  ("ACCOUNT_ID" ∉ columns tasks → "account_id" ∉ columns tasks →
   standardize_tasks pd_to_datetime accounts tasks
   = if has_column "ACTIVITY_DATE" tasks
     then activity_date ← getitem "ACTIVITY_DATE" tasks ≫= pd_to_datetime;
          Ok (setitem "activity_date" activity_date tasks)
     else Ok tasks) ∧
  ("ACTIVITY_DATE" ∉ columns tasks →
   (let renamed :=
      if has_column "ACCOUNT_ID" tasks
      then rename (list_to_map [("ACCOUNT_ID", "account_id")]) tasks
      else tasks in
    standardize_tasks pd_to_datetime accounts tasks
    = if has_column "account_id" renamed
      then join_account_name renamed accounts
      else Ok renamed) ∧
   ∀ loaded, standardize_tasks pd_to_datetime accounts tasks = Ok loaded →
     "activity_date" ∈ columns loaded → "activity_date" ∈ columns tasks) ∧
  ("ACCOUNT_ID" ∉ columns tasks → "account_id" ∉ columns tasks →
   "ACTIVITY_DATE" ∉ columns tasks →
   standardize_tasks pd_to_datetime accounts tasks = Ok tasks) ∧
  (∀ raw_accounts raw_opps raw_contacts opps contacts,
     pd_read_csv "accounts.csv" = Ok raw_accounts →
     pd_read_csv "opportunities.csv" = Ok raw_opps →
     pd_read_csv "contacts.csv" = Ok raw_contacts →
     pd_read_csv "tasks.csv" = Ok tasks →
     standardize_opportunities pd_to_datetime (standardize_accounts raw_accounts) raw_opps
     = Ok opps →
     standardize_contacts (standardize_accounts raw_accounts) raw_contacts = Ok contacts →
     "ACCOUNT_ID" ∉ columns tasks → "account_id" ∉ columns tasks →
     "ACTIVITY_DATE" ∉ columns tasks →
     load_data pd_read_csv pd_to_datetime
     = Ok (standardize_accounts raw_accounts, contacts, opps, tasks)).
Proof.
  destruct (standardize_tasks_cases accounts tasks) as (Hskip & Hdate & Hnone).
  split; [done|]. split; [done|]. split; [done|].
  intros raw_accounts raw_opps raw_contacts opps contacts Ha Ho Hc Ht Hopps Hcontacts
    Hraw Hlow Hno.
  destruct (standardize_tasks_cases (standardize_accounts raw_accounts) tasks)
    as (_ & _ & Hnone').
  unfold load_data. rewrite Ha, Ho, Hc, Ht. cbn [mbind result_bind].
  rewrite Hopps, Hcontacts, (Hnone' Hraw Hlow Hno). done.
Qed.

End Tasks.

Lemma standardize_tasks_optional_columns_witness :
  standardize_tasks demo_to_datetime (standardize_accounts accounts_csv) tasks_bare_csv
  = Ok tasks_bare_csv.
Proof.
  apply (standardize_tasks_optional_columns demo_read_csv demo_to_datetime
           (standardize_accounts accounts_csv) tasks_bare_csv);
    by_computation.
Defined.

(** C8 (as stated) fails on a tasks file that has no [ACCOUNT_ID] column
    but an [account_id] one: nothing is renamed, and the join is made. *)
Lemma standardize_tasks_joins_lower_case_column :
  demo_read_csv_lower "tasks.csv" = Ok tasks_lower_csv ∧
  has_column "ACCOUNT_ID" tasks_lower_csv = false ∧
  has_column "account_name" tasks_lower_csv = false ∧
  snd <$> load_data demo_read_csv_lower demo_to_datetime
  = Ok {| columns := ["ID"; "account_id"; "account_name"];
          rows := [[Str "T1"; Str "A2"; Str "Bolt"]; [Str "T2"; Str "A9"; NaN]] |}.
Proof. repeat split; vm_compute; reflexivity. Qed.

(** ** The gateway *)

Section Gateway.

Variable chat_completions_create : Groq → Request → result ChatCompletion.

(** C2.  [ask_ai] is a total function of its prompt: it returns the
    content of the first choice of the response, and when the attempt
    raises (the call itself, or the indexing of an empty list of
    choices) it returns "AI Error: " followed by the message of the
    exception; a "rate limit" exception gives "AI Error: rate limit". *)
Theorem ask_ai_never_raises (client : Groq) (prompt : string) :
  let request := {| model := "openai/gpt-oss-120b";
                    messages := [("user", prompt)];
                    temperature := Q2Qc (2 # 5);
                    max_tokens := 1000 |} in
  (∀ response first rest,
     chat_completions_create client request = Ok response →
     choices response = first :: rest →
     ask_ai chat_completions_create client prompt = content (message first)) ∧
  (∀ e,
     chat_completions_create client request = Raise e →
     ask_ai chat_completions_create client prompt = "AI Error: " +:+ str e) ∧
  (∀ response,
     chat_completions_create client request = Ok response →
     choices response = [] →
     ask_ai chat_completions_create client prompt = "AI Error: list index out of range") ∧
  (∀ cls,
     chat_completions_create client request = Raise (Exception cls "rate limit") →
     ask_ai chat_completions_create client prompt = "AI Error: rate limit").
Proof.
  intros request. unfold ask_ai. fold request. repeat split.
  - intros response first rest -> Hfirst. cbn. by rewrite Hfirst.
  - by intros e ->.
  - intros response -> Hnone. cbn. by rewrite Hnone.
  - by intros cls ->.
Qed.

End Gateway.

Lemma ask_ai_never_raises_witness :
  ask_ai rate_limited {| api_key := Some "gsk" |} "How is the pipeline?"
  = "AI Error: rate limit".
Proof.
  apply (ask_ai_never_raises rate_limited {| api_key := Some "gsk" |}
           "How is the pipeline?") with (cls := "RateLimitError").
  reflexivity.
Defined.

(** ** The credential and the client *)

Section Startup.

Variable pd_read_csv : string → result DataFrame.
Variable pd_to_datetime : list value → result (list value).
Variable to_string : DataFrame → string.
Variable format_money : value → string.
Variable amount_float64 : bool.
Variable repr : value → string.
Variable os_getenv : string → option string.
Variable st_secrets_get : string → result (option string).
Variable chat_completions_create : Groq → Request → result ChatCompletion.

Local Abbreviation body := (get_groq_client_body os_getenv st_secrets_get).
Local Abbreviation run := (script pd_read_csv pd_to_datetime to_string format_money amount_float64 repr
                   os_getenv st_secrets_get chat_completions_create).
Local Abbreviation runs := (reruns pd_read_csv pd_to_datetime to_string format_money amount_float64 repr
                    os_getenv st_secrets_get chat_completions_create).
Local Abbreviation page_of client w :=
  (match load_data pd_read_csv pd_to_datetime with
   | Raise e => Crashed e
   | Ok tables => render to_string format_money amount_float64 repr chat_completions_create client w tables
   end).

Lemma get_groq_client_cached (s : session) (client : Groq) :
  client_cache s = Some client →
  get_groq_client os_getenv st_secrets_get s = ([], Return client, s).
Proof. unfold get_groq_client. by intros ->. Qed.

Lemma script_cached (w : widgets) (s : session) (client : Groq) :
  client_cache s = Some client → run w s = (page_of client w, s).
Proof.
  intros Hc. unfold script. destruct (load_data _ _); [|done].
  by rewrite (get_groq_client_cached _ _ Hc).
Qed.

Lemma reruns_cached (ws : list widgets) (s : session) (client : Groq) :
  client_cache s = Some client →
  runs ws s = ((λ w, page_of client w) <$> ws, s).
Proof.
  intros Hc. induction ws as [|w ws IH]; [done|].
  simpl. rewrite (script_cached _ _ _ Hc), IH. done.
Qed.

Lemma script_constructed (w : widgets) (s : session) :
  client_cache s = None →
  (run w s).2 = s ∨
  ∃ client, (run w s).2 = {| client_cache := Some client; constructed := S (constructed s) |}.
Proof.
  intros Hc. unfold script. destruct (load_data _ _); [|by left].
  unfold get_groq_client. rewrite Hc.
  destruct body as [shown [client| |e]]; simpl; [right; by exists client|by left..].
Qed.

Lemma reruns_constructed (ws : list widgets) (s : session) :
  client_cache s = None →
  constructed (runs ws s).2 ≤ S (constructed s).
Proof.
  revert s. induction ws as [|w ws IH]; intros s Hc; [simpl; lia|].
  simpl. destruct (run w s) as [p s'] eqn:Hrun.
  destruct (runs ws s') as [ps s''] eqn:Hruns. simpl.
  destruct (script_constructed w s Hc) as [Hs|[client Hs]];
    rewrite Hrun in Hs; simpl in Hs; subst s'.
  - specialize (IH s Hc). by rewrite Hruns in IH.
  - pose proof (reruns_cached ws
                  {| client_cache := Some client; constructed := S (constructed s) |}
                  client eq_refl) as Hkept.
    rewrite Hruns in Hkept. injection Hkept as _ ->. simpl. lia.
Qed.

(** C7.  The key is the environment variable when it is set and not
    empty, and the secret store is consulted only otherwise; with no
    key from either the run ends at [st.stop()] (or at the failure of
    the loader before it, or at the exception of the secret store) and
    no view is rendered; a client once
    constructed is kept by the resource cache, every later run renders
    with it, and over any number of runs at most one is constructed. *)
Theorem credential_and_client :
  (∀ key, os_getenv "GROQ_API_KEY" = Some key → key ≠ "" →
     body = ([], Return {| api_key := Some key |})) ∧
  (∀ key, truthy (os_getenv "GROQ_API_KEY") = false →
     st_secrets_get "GROQ_API_KEY" = Ok (Some key) → key ≠ "" →
     body = ([], Return {| api_key := Some key |})) ∧
  (∀ found, truthy (os_getenv "GROQ_API_KEY") = false →
     st_secrets_get "GROQ_API_KEY" = Ok found → truthy found = false →
     body = ([StError "❌ GROQ_API_KEY not found in Streamlit secrets"], Stop) ∧
     ∀ w s, client_cache s = None →
       run w s
       = (match load_data pd_read_csv pd_to_datetime with
          | Raise e => Crashed e
          | Ok _ => Halted [StError "❌ GROQ_API_KEY not found in Streamlit secrets"]
          end, s)) ∧
  (∀ e, truthy (os_getenv "GROQ_API_KEY") = false →
     st_secrets_get "GROQ_API_KEY" = Raise e →
     ∀ w s, client_cache s = None →
       run w s
       = (match load_data pd_read_csv pd_to_datetime with
          | Raise e' => Crashed e'
          | Ok _ => Crashed e
          end, s)) ∧
  (∀ w s client tables, client_cache s = None →
     load_data pd_read_csv pd_to_datetime = Ok tables →
     body = ([], Return client) →
     run w s
     = (render to_string format_money amount_float64 repr chat_completions_create client w tables,
        {| client_cache := Some client; constructed := S (constructed s) |})) ∧
  (∀ ws s client, client_cache s = Some client →
     runs ws s = ((λ w, page_of client w) <$> ws, s)) ∧
  (∀ ws, constructed (runs ws {| client_cache := None; constructed := 0 |}).2 ≤ 1).
Proof.
  split; [|split; [|split; [|split; [|split; [|split]]]]].
  - intros key Henv Hkey. unfold get_groq_client_body, py_or, truthy.
    rewrite Henv, bool_decide_eq_false_2 by done. simpl.
    by rewrite bool_decide_eq_false_2.
  - intros key Henv Hsecret Hkey. unfold get_groq_client_body, py_or.
    rewrite Henv, Hsecret. unfold truthy. by rewrite bool_decide_eq_false_2.
  - intros found Henv Hsecret Hfound.
    assert (body = ([StError "❌ GROQ_API_KEY not found in Streamlit secrets"], Stop))
      as Hbody.
    { unfold get_groq_client_body, py_or. by rewrite Henv, Hsecret, Hfound. }
    split; [done|]. intros w s Hc. unfold script.
    destruct (load_data _ _); [|done].
    unfold get_groq_client. by rewrite Hc, Hbody.
  - intros e Henv Hsecret w s Hc. unfold script.
    destruct (load_data _ _); [|done].
    unfold get_groq_client, get_groq_client_body, py_or.
    by rewrite Hc, Henv, Hsecret.
  - intros w s client tables Hc Hload Hbody. unfold script.
    rewrite Hload. unfold get_groq_client. by rewrite Hc, Hbody.
  - intros ws s client Hc. by apply reruns_cached.
  - intros ws. by apply (reruns_constructed ws {| client_cache := None; constructed := 0 |}).
Qed.

End Startup.

Lemma credential_and_client_witness :
  get_groq_client_body no_env secret_store
  = ([], Return {| api_key := Some "gsk_secret" |}) ∧
  script demo_read_csv demo_to_datetime demo_to_string demo_format_money false demo_repr
    no_env no_secret echo demo_widgets fresh_session
  = (Halted [StError "❌ GROQ_API_KEY not found in Streamlit secrets"], fresh_session).
Proof.
  split.
  - apply (credential_and_client demo_read_csv demo_to_datetime demo_to_string
             demo_format_money false demo_repr no_env secret_store echo);
      [reflexivity | reflexivity | discriminate].
  - destruct (credential_and_client demo_read_csv demo_to_datetime demo_to_string
                demo_format_money false demo_repr no_env no_secret echo)
      as (_ & _ & Hnone & _).
    destruct (Hnone None eq_refl eq_refl eq_refl) as [_ Hhalt].
    exact (Hhalt demo_widgets fresh_session eq_refl).
Defined.

(** ** Running a view on the store *)

Lemma run_bind {A B} (m : M A) (f : A → M B) (σ : store) :
  (m ≫= f) σ = match m σ with
               | (Ok a, σ') => f a σ'
               | (Raise e, σ') => (Raise e, σ')
               end.
Proof. reflexivity. Qed.

Lemma run_deref (l : nat) (σ : store) (df : DataFrame) :
  σ !! l = Some df → deref l σ = (Ok df, σ).
Proof. unfold deref. by intros ->. Qed.

Lemma run_lift {A} (r : result A) (σ : store) : lift r σ = (r, σ).
Proof. reflexivity. Qed.

Lemma run_ret {A} (a : A) (σ : store) : mret (M := M) a σ = (Ok a, σ).
Proof. reflexivity. Qed.

(** ** The context of the assistant *)

Lemma getitem_take c df n :
  getitem c (head n df) = take n <$> getitem c df.
Proof.
  unfold getitem, head, column_loc. simpl.
  destruct (list_find _ _) as [[i c']|]; simpl; [|done].
  by rewrite fmap_take.
Qed.

Lemma getitem_getitems c cs df selected :
  getitems cs df = Ok selected → c ∈ cs →
  getitem c selected = getitem c df.
Proof.
  intros [Hall ->]%getitems_Ok Hc.
  assert (c ∈ columns df) as [i Hi]%column_loc_is_Some
    by (rewrite Forall_forall in Hall; by apply Hall).
  destruct (column_loc_is_Some c {| columns := cs; rows := [] |} Hc) as [k Hk].
  pose proof (column_loc_Some _ _ _ Hk) as Hcs. cbn [columns] in Hcs.
  unfold getitem.
  assert (column_loc c {| columns := cs;
            rows := (λ r, (λ c, cell (default 0 (column_loc c df)) r) <$> cs)
                    <$> rows df |} = Some k) as ->
    by exact Hk.
  rewrite Hi. f_equal. cbn [rows]. rewrite <- list_fmap_compose.
  apply list_fmap_ext. intros _ r _. cbn.
  unfold cell at 1. by rewrite list_lookup_fmap, Hcs; cbn; rewrite Hi.
Qed.

Lemma getitems_total cs df :
  Forall (λ c, c ∈ columns df) cs →
  ∃ selected, getitems cs df = Ok selected ∧
    columns selected = cs ∧ len selected = len df ∧
    Forall (λ r, length r = length cs) (rows selected).
Proof.
  intros Hcs. eexists. split; [by apply getitems_Ok|].
  unfold len. cbn [columns rows]. rewrite length_fmap.
  repeat split. apply Forall_fmap, Forall_forall. intros r _. cbn.
  by rewrite length_fmap.
Qed.

Section Assistant.

Variable to_string : DataFrame → string.
Variable chat_completions_create : Groq → Request → result ChatCompletion.

(** C5.  With the button pressed and a non-empty question, the
    assistant sends one prompt, built on a context that has exactly the
    columns account_name, stage, amount and probability, holds the first
    20 rows of the opportunity table in table order (all of them when
    there are fewer), and is followed in the prompt by the question as
    typed. *)
Theorem assistant_prompt_context (client : Groq) (w : widgets) (σ : store) (opps : DataFrame) :
  σ !! opps_df = Some opps →
  ask_clicked w = true →
  question w ≠ "" →
  Forall (λ c, c ∈ columns opps) ["account_name"; "stage"; "amount"; "probability"] →
  ∃ context,
    assistant to_string chat_completions_create client w σ
    = (Ok [StMarkdown (ask_ai chat_completions_create client
                         (assistant_prompt to_string context (question w)))], σ) ∧
    columns context = ["account_name"; "stage"; "amount"; "probability"] ∧
    len context = min 20 (len opps) ∧
    Forall (λ r, length r = 4) (rows context) ∧
    (∀ c, c ∈ columns context → getitem c context = take 20 <$> getitem c opps) ∧
    assistant_prompt to_string context (question w)
    = (nl +:+ ind +:+ "Sales Data (top 20 opportunities):" +:+ nl +:+ ind)
      +:+ to_string context
      +:+ (nl +:+ ind +:+ nl +:+ ind +:+ "Question: ")
      +:+ question w
      +:+ (nl +:+ ind +:+ nl +:+ ind
           +:+ "Answer concisely with specific numbers and recommendations."
           +:+ nl +:+ ind).
Proof.
  intros Hσ Hclick Hq Hcols.
  destruct (getitems_total _ _ Hcols) as (selected & Hsel & Hc & Hlen & Hwide).
  exists (head 20 selected). split; [|split; [|split; [|split; [|split]]]].
  - unfold assistant. rewrite Hclick, bool_decide_eq_false_2 by done. simpl.
    rewrite run_bind, (run_deref _ _ _ Hσ), run_bind, run_lift, Hsel. done.
  - done.
  - unfold len in *. simpl. by rewrite length_take, Hlen.
  - simpl. by apply Forall_take.
  - intros c Hin. rewrite getitem_take. f_equal.
    eapply getitem_getitems; [done|]. simpl in Hin. by rewrite <- Hc.
  - reflexivity.
Qed.

End Assistant.

Lemma assistant_prompt_context_witness :
  ∃ context,
    assistant demo_to_string echo {| api_key := Some "gsk" |} demo_widgets demo_store
    = (Ok [StMarkdown (ask_ai echo {| api_key := Some "gsk" |}
                         (assistant_prompt demo_to_string context (question demo_widgets)))],
       demo_store) ∧
    columns context = ["account_name"; "stage"; "amount"; "probability"] ∧
    len context = 5.
Proof.
  destruct (assistant_prompt_context demo_to_string echo {| api_key := Some "gsk" |}
              demo_widgets demo_store
              (demo_table opps_df))
    as (context & Hrun & Hcols & Hlen & _);
    [reflexivity | reflexivity | by_computation | by_computation |].
  exists context. split; [exact Hrun|]. split; [exact Hcols|]. exact Hlen.
Defined.

(** ** Filtering on the account *)

Lemma where_eq_Ok c v df selected :
  where_eq c v df = Ok selected ↔
  ∃ i, column_loc c df = Some i ∧
       selected = {| columns := columns df;
                     rows := filter (λ r, eq_py (cell i r) v = true) (rows df) |}.
Proof.
  unfold where_eq. destruct (column_loc c df) as [i|]; split.
  - intros [= <-]. by exists i.
  - by intros (i' & [= ->] & ->).
  - intros H. discriminate H.
  - by intros (i' & [=] & _).
Qed.

Lemma where_eq_total c v df :
  c ∈ columns df → ∃ selected, where_eq c v df = Ok selected ∧ columns selected = columns df.
Proof.
  intros [i Hi]%column_loc_is_Some. unfold where_eq. rewrite Hi. by eexists.
Qed.

Lemma where_attr_eq_Ok c v df selected :
  where_attr_eq c v df = Ok selected ↔ where_eq c v df = Ok selected.
Proof. unfold where_attr_eq. by destruct (where_eq c v df). Qed.

Lemma getitem_in_columns c df s : getitem c df = Ok s → c ∈ columns df.
Proof.
  intros (i & Hi%column_loc_Some & _)%getitem_Ok.
  by eapply list_elem_of_lookup_2.
Qed.

Lemma empty_false_iff df :
  columns df ≠ [] → (empty df = false ↔ rows df ≠ []).
Proof.
  intros Hc. unfold empty.
  rewrite (bool_decide_eq_false_2 (columns df = [])) by done.
  rewrite orb_false_r. apply bool_decide_eq_false.
Qed.

Lemma eq_py_spec (x k : value) : eq_py x k = true ↔ k ≠ NaN ∧ x = k.
Proof.
  destruct (decide (k = NaN)) as [->|Hk].
  - split; [by destruct x|]. by intros [? _].
  - rewrite (eq_py_true _ _ Hk). naive_solver.
Qed.

(** The rows a filter on a column keeps, and the columns a selection
    shows of them. *)
Lemma where_eq_rows c v df selected i :
  where_eq c v df = Ok selected → column_loc c df = Some i →
  selected = {| columns := columns df;
                rows := filter (λ r, v ≠ NaN ∧ cell i r = v) (rows df) |}.
Proof.
  intros (i' & Hi' & ->)%where_eq_Ok Hi. assert (i' = i) as -> by congruence.
  f_equal. apply filter_ext_in. intros r _. apply eq_py_spec.
Qed.

Lemma getitems_two a b df n e :
  column_loc a df = Some n → column_loc b df = Some e →
  getitems [a; b] df
  = Ok {| columns := [a; b]; rows := (λ r, [cell n r; cell e r]) <$> rows df |}.
Proof.
  intros Hn He. apply getitems_Ok. split.
  - repeat constructor; eapply list_elem_of_lookup_2, column_loc_Some; eauto.
  - f_equal. apply list_fmap_ext. intros _ r _. cbn. by rewrite Hn, He.
Qed.

Section MeetingPrep.

Variable to_string : DataFrame → string.
Variable repr : value → string.
Variable chat_completions_create : Groq → Request → result ChatCompletion.

(** C6.  In the meeting brief the text under "Contacts:" is the literal
    "No contacts" when no row of the contact table carries the selected
    account name, and otherwise the rendering of a table of exactly
    the contact_name and email columns of the rows that carry it, in
    table order; an empty selection is never rendered.  (The text under
    "Opportunities:" is the rendering of the stage, amount, probability
    and close_date columns of the opportunities of the account.) *)
Theorem meeting_brief_contacts (client : Groq) (w : widgets) (σ : store)
    (opps contacts : DataFrame) (options : list value) :
  σ !! opps_df = Some opps →
  σ !! contacts_df = Some contacts →
  brief_clicked w = true →
  (names ← getitem "account_name" opps; sorted (unique (dropna names))) = Ok options →
  Forall (λ c, c ∈ columns opps) ["stage"; "amount"; "probability"; "close_date"] →
  Forall (λ c, c ∈ columns contacts) ["account_name"; "contact_name"; "email"] →
  let account := selectbox NaN options (prep_account_picked w) in
  ∃ i n e shown_opps contacts_text,
    column_loc "account_name" contacts = Some i ∧
    column_loc "contact_name" contacts = Some n ∧
    column_loc "email" contacts = Some e ∧
    let matching := filter (λ r, account ≠ NaN ∧ cell i r = account) (rows contacts) in
    meeting_prep to_string repr chat_completions_create client w σ
    = (Ok [StSelectbox "Select Account" options;
           StMarkdown "### 📋 Meeting Brief";
           StMarkdown (ask_ai chat_completions_create client
                         (brief_prompt repr account (to_string shown_opps) contacts_text))],
       σ) ∧
    (matching = [] → contacts_text = "No contacts") ∧
    (matching ≠ [] →
     contacts_text
     = to_string {| columns := ["contact_name"; "email"];
                    rows := (λ r, [cell n r; cell e r]) <$> matching |}) ∧
    columns shown_opps = ["stage"; "amount"; "probability"; "close_date"] ∧
    (∀ c, c ∈ columns shown_opps →
       where_eq "account_name" account opps ≫= getitem c = getitem c shown_opps) ∧
    brief_prompt repr account (to_string shown_opps) contacts_text
    = (nl +:+ ind +:+ "MEETING BRIEF for ") +:+ py_str repr account
      +:+ (nl +:+ nl +:+ ind +:+ "Opportunities:" +:+ nl +:+ ind) +:+ to_string shown_opps
      +:+ (nl +:+ nl +:+ ind +:+ "Contacts:" +:+ nl +:+ ind) +:+ contacts_text
      +:+ (nl +:+ nl +:+ ind +:+ "Provide:"
           +:+ nl +:+ ind +:+ "1. Account status summary"
           +:+ nl +:+ ind +:+ "2. Key talking points"
           +:+ nl +:+ ind +:+ "3. Next action recommendations"
           +:+ nl +:+ ind).
Proof.
  intros Hopps Hcontacts Hclick Hoptions Hoc Hcc account.
  pose proof Hoptions as (names & Hnames%getitem_in_columns & _)%bind_Ok.
  destruct (where_eq_total "account_name" account opps Hnames)
    as (account_opps & Hao & Haoc).
  apply Forall_cons_1 in Hcc as [Hcn Hcc].
  apply Forall_cons_1 in Hcc as [Hname Hcc].
  apply Forall_cons_1 in Hcc as [Hemail _].
  pose proof (column_loc_is_Some _ _ Hcn) as [i Hi].
  pose proof (column_loc_is_Some _ _ Hname) as [n Hn].
  pose proof (column_loc_is_Some _ _ Hemail) as [e He].
  destruct (where_eq_total "account_name" account contacts Hcn)
    as (account_contacts & Hac & Hacc).
  pose proof (where_eq_rows _ _ _ _ _ Hac Hi) as Hrows.
  set (matching := filter (λ r, account ≠ NaN ∧ cell i r = account) (rows contacts))
    in *.
  destruct (getitems_total ["stage"; "amount"; "probability"; "close_date"] account_opps)
    as (shown_opps & Hso & Hsoc & _); [by rewrite Haoc|].
  assert (getitems ["contact_name"; "email"] account_contacts
          = Ok {| columns := ["contact_name"; "email"];
                  rows := (λ r, [cell n r; cell e r]) <$> matching |}) as Hsc.
  { rewrite (getitems_two _ _ _ n e); [by rewrite Hrows| |];
      unfold column_loc; by rewrite Hacc. }
  assert (columns account_contacts ≠ []) as Hne.
  { rewrite Hacc. intros Hnil. rewrite Hnil in Hcn. by apply elem_of_nil in Hcn. }
  exists i, n, e, shown_opps,
    (if negb (empty account_contacts)
     then to_string {| columns := ["contact_name"; "email"];
                       rows := (λ r, [cell n r; cell e r]) <$> matching |}
     else "No contacts").
  split; [done|]. split; [done|]. split; [done|]. cbv zeta. fold matching.
  assert (rows account_contacts = matching) as Hm by (by rewrite Hrows).
  split; [|split; [|split; [|split; [done|split]]]].
  - unfold meeting_prep.
    rewrite run_bind, (run_deref _ _ _ Hopps), run_bind, run_lift, Hoptions.
    fold account. rewrite Hclick.
    apply where_attr_eq_Ok in Hao, Hac.
    rewrite run_bind, run_lift, Hao, run_bind, (run_deref _ _ _ Hcontacts).
    rewrite run_bind, run_lift, Hac, run_bind, run_lift, Hso.
    cbn -[brief_prompt getitems]. rewrite run_bind, run_lift.
    destruct (empty account_contacts); cbn -[brief_prompt getitems]; [done|].
    rewrite Hsc. done.
  - intros Hnil. unfold empty. rewrite Hm, Hnil. done.
  - intros Hsome. rewrite <- Hm in Hsome.
    apply (empty_false_iff _ Hne) in Hsome. by rewrite Hsome.
  - intros c Hc. rewrite Hao. cbn [mbind result_bind]. symmetry.
    eapply getitem_getitems; [done|]. by rewrite <- Hsoc.
  - reflexivity.
Qed.

End MeetingPrep.

Lemma meeting_brief_contacts_witness :
  ∃ shown_opps,
    meeting_prep demo_to_string demo_repr echo {| api_key := Some "gsk" |}
      demo_widgets demo_store
    = (Ok [StSelectbox "Select Account" [Str "Acme"; Str "Bolt"; Str "Core"];
           StMarkdown "### 📋 Meeting Brief";
           StMarkdown (ask_ai echo {| api_key := Some "gsk" |}
                         (brief_prompt demo_repr (Str "Bolt") (demo_to_string shown_opps)
                            "No contacts"))],
       demo_store).
Proof.
  destruct (meeting_brief_contacts demo_to_string demo_repr echo
              {| api_key := Some "gsk" |} demo_widgets demo_store
              (demo_table opps_df)
              (demo_table contacts_df)
              [Str "Acme"; Str "Bolt"; Str "Core"])
    as (i & n & e & shown_opps & contacts_text & Hi & _ & _ & Hrun & Hnone & _);
    [reflexivity | reflexivity | reflexivity | by vm_compute
    | by_computation | by_computation |].
  exists shown_opps. rewrite <- Hnone; [exact Hrun|].
  vm_compute in Hi. injection Hi as <-. by vm_compute.
Defined.

(** ** The options of an account selector *)

Lemma elem_of_dropna v s : v ∈ dropna s ↔ v ≠ NaN ∧ v ∈ s.
Proof. unfold dropna. apply (list_elem_of_filter (λ v, v ≠ NaN)). Qed.

Lemma elem_of_unique_from v seen s :
  v ∈ unique_from seen s ↔ v ∈ s ∧ v ∉ seen.
Proof.
  revert seen. induction s as [|x s IH]; intros seen; simpl.
  - split; [by intros ?%elem_of_nil|by intros [?%elem_of_nil _]].
  - case_bool_decide as Hx.
    + rewrite IH, elem_of_cons. split; [naive_solver|].
      intros [[->|?] ?]; naive_solver.
    + rewrite !elem_of_cons, IH, not_elem_of_cons.
      destruct (decide (v = x)) as [->|]; naive_solver.
Qed.

Lemma elem_of_unique v s : v ∈ unique s ↔ v ∈ s.
Proof.
  unfold unique. rewrite elem_of_unique_from. split; [naive_solver|].
  intros ?. split; [done|]. apply not_elem_of_nil.
Qed.

Lemma NoDup_unique_from seen s : NoDup (unique_from seen s).
Proof.
  revert seen. induction s as [|x s IH]; intros seen; simpl; [constructor|].
  case_bool_decide; [done|]. apply NoDup_cons. split; [|done].
  rewrite elem_of_unique_from, not_elem_of_cons. naive_solver.
Qed.

Lemma NoDup_unique s : NoDup (unique s).
Proof. apply NoDup_unique_from. Qed.

Lemma sorted_Ok xs ys : sorted xs = Ok ys → ys ≡ₚ xs.
Proof.
  unfold sorted. destruct xs as [|x xs]; [by intros [= <-]|].
  destruct (forallb _ _); [|done]. intros [= <-].
  apply merge_sort_Permutation.
Qed.

Lemma elem_of_options names options v :
  sorted (unique (dropna names)) = Ok options →
  v ∈ options ↔ v ≠ NaN ∧ v ∈ names.
Proof.
  intros Hperm%sorted_Ok. by rewrite Hperm, elem_of_unique, elem_of_dropna.
Qed.

Lemma selectbox_elem_of {A} (none : A) (options : list A) (picked : nat) :
  options ≠ [] → selectbox none options picked ∈ options.
Proof.
  intros Hne. unfold selectbox.
  destruct (options !! picked) as [v|] eqn:Hv; simpl.
  - by eapply list_elem_of_lookup_2.
  - destruct options as [|v options]; [done|]. left.
Qed.

Lemma selectbox_nil {A} (none : A) (picked : nat) : selectbox none [] picked = none.
Proof. unfold selectbox. by rewrite !lookup_nil. Qed.

Lemma eq_py_refl v : v ≠ NaN → eq_py v v = true.
Proof. destruct v; [done|..]; intros _; simpl; by apply bool_decide_eq_true. Qed.

Lemma eq_py_NaN v : eq_py v NaN = false.
Proof. by destruct v. Qed.

(** A value offered by the selector selects at least one row. *)
Lemma where_eq_option c df names options v selected :
  getitem c df = Ok names →
  sorted (unique (dropna names)) = Ok options →
  v ∈ options →
  where_eq c v df = Ok selected →
  rows selected ≠ [].
Proof.
  intros (i & Hi & ->)%getitem_Ok Hoptions Hv (i' & Hi' & ->)%where_eq_Ok.
  assert (i' = i) as -> by congruence. simpl.
  apply (elem_of_options _ _ _ Hoptions) in Hv as [Hv (r & -> & Hr)%list_elem_of_fmap].
  intros Hnil. eapply (filter_nil_not_elem_of _ _ r Hnil); [|done].
  by apply eq_py_refl.
Qed.

Section Outreach.

Variable repr : value → string.
Variable chat_completions_create : Groq → Request → result ChatCompletion.

(** C10.  Every account the outreach selector offers selects at least
    one row of the contact table, so the contact selector then lists the
    names of these rows; the placeholder "No Contacts" is offered only
    when the account selector has no option at all. *)
Theorem outreach_placeholder_unreachable (client : Groq) (w : widgets) (σ : store)
    (contacts : DataFrame) (options : list value) :
  σ !! contacts_df = Some contacts →
  (names ← getitem "account_name" contacts; sorted (unique (dropna names))) = Ok options →
  "contact_name" ∈ columns contacts →
  let account := selectbox NaN options (outreach_account_picked w) in
  ∃ contact_df contact_options generated,
    where_eq "account_name" account contacts = Ok contact_df ∧
    outreach repr chat_completions_create client w σ
    = (Ok ([StSelectbox "Account" options;
            StSelectbox "Contact" contact_options;
            StSelectbox "Tone" [Str "Professional"; Str "Friendly"; Str "Executive"]]
           ++ generated), σ) ∧
    (∀ offered selected,
       offered ∈ options →
       where_eq "account_name" offered contacts = Ok selected →
       rows selected ≠ [] ∧ empty selected = false) ∧
    (options ≠ [] →
       account ∈ options ∧ empty contact_df = false ∧
       getitem "contact_name" contact_df = Ok contact_options ∧
       length contact_options = len contact_df ∧ contact_options ≠ []) ∧
    (options = [] →
       empty contact_df = true ∧ contact_options = [Str "No Contacts"]).
Proof.
  intros Hσ Hoptions Hcn account.
  pose proof Hoptions as (names & Hnames & Hsorted)%bind_Ok.
  pose proof (getitem_in_columns _ _ _ Hnames) as Han.
  assert (columns contacts ≠ []) as Hne.
  { intros Hnil. rewrite Hnil in Han. by apply elem_of_nil in Han. }
  destruct (where_eq_total "account_name" account contacts Han)
    as (contact_df & Hwhere & Hcols).
  assert (∀ offered selected,
            offered ∈ options →
            where_eq "account_name" offered contacts = Ok selected →
            rows selected ≠ [] ∧ empty selected = false) as Hoffered.
  { intros offered selected Hin Hsel.
    pose proof (where_eq_option _ _ _ _ _ _ Hnames Hsorted Hin Hsel) as Hrows.
    split; [done|]. apply empty_false_iff; [|done].
    apply where_eq_Ok in Hsel as (i & _ & ->). done. }
  assert ("contact_name" ∈ columns contact_df) as Hcn' by (by rewrite Hcols).
  apply column_loc_is_Some in Hcn' as [k Hk].
  assert (getitem "contact_name" contact_df = Ok (cell k <$> rows contact_df)) as Hget
    by (unfold getitem; by rewrite Hk).
  set (contact_options :=
         if negb (empty contact_df) then cell k <$> rows contact_df
         else [Str "No Contacts"]).
  exists contact_df, contact_options,
    (if email_clicked w && negb (bool_decide (purpose w = ""))
     then [StTextArea "Generated Email"
             (ask_ai chat_completions_create client
                (email_prompt repr
                   (selectbox "" ["Professional"; "Friendly"; "Executive"] (tone_picked w))
                   (selectbox NaN contact_options (contact_picked w))
                   account (purpose w)))]
     else []).
  split; [done|]. split; [|split; [done|split]].
  - unfold outreach.
    rewrite run_bind, (run_deref _ _ _ Hσ), run_bind, run_lift, Hoptions.
    fold account. rewrite run_bind, run_lift, Hwhere, run_bind, run_lift.
    unfold contact_options.
    destruct (empty contact_df); cbn -[email_prompt getitem]; [done|].
    rewrite Hget. done.
  - intros Hsome.
    pose proof (selectbox_elem_of NaN options (outreach_account_picked w) Hsome) as Hin.
    destruct (Hoffered _ _ Hin Hwhere) as [Hrows Hempty].
    unfold contact_options. rewrite Hempty. simpl.
    split; [done|]. split; [done|]. split; [done|].
    split; [by rewrite length_fmap|].
    destruct (rows contact_df); done.
  - intros ->. unfold account in Hwhere. rewrite selectbox_nil in Hwhere.
    apply where_eq_Ok in Hwhere as (i & _ & ->).
    assert (filter (λ r, eq_py (cell i r) NaN = true) (rows contacts) = []) as Hnil.
    { apply filter_none. intros r _. by rewrite eq_py_NaN. }
    unfold contact_options, empty; simpl. rewrite Hnil. done.
Qed.

End Outreach.

Lemma outreach_placeholder_unreachable_witness :
  ∃ generated,
    outreach demo_repr echo {| api_key := Some "gsk" |} demo_widgets demo_store
    = (Ok ([StSelectbox "Account" [Str "Acme"];
            StSelectbox "Contact" [Str "Ann"];
            StSelectbox "Tone" [Str "Professional"; Str "Friendly"; Str "Executive"]]
           ++ generated), demo_store).
Proof.
  destruct (outreach_placeholder_unreachable demo_repr echo
              {| api_key := Some "gsk" |} demo_widgets demo_store
              (demo_table contacts_df)
              [Str "Acme"])
    as (contact_df & contact_options & generated & Hwhere & Hrun & _ & Hsome & _);
    [reflexivity | by vm_compute | by_computation |].
  exists generated.
  destruct Hsome as (_ & _ & Hnames & _); [done|].
  vm_compute in Hwhere. injection Hwhere as <-.
  vm_compute in Hnames. injection Hnames as <-.
  exact Hrun.
Defined.
(** ** Sums and groups *)

Lemma whole_num (z : Z) : whole (num z) = Some z.
Proof.
  unfold whole, num. cbn [this Q2Qc].
  rewrite (Qred_identity (inject_Z z)) by apply Z.gcd_1_r. cbn.
  by rewrite bool_decide_eq_true_2.
Qed.

Lemma as_Z_num (z : Z) : as_Z (num z) = z.
Proof. unfold as_Z. by rewrite whole_num. Qed.

Lemma int64_wrap_range (z : Z) : (- 2 ^ 63 ≤ int64_wrap z < 2 ^ 63)%Z.
Proof.
  unfold int64_wrap.
  pose proof (Z.mod_pos_bound (z + 2 ^ 63) (2 ^ 64)) as H. lia.
Qed.

Lemma int64_wrap_fits (z : Z) : (- 2 ^ 63 ≤ z < 2 ^ 63)%Z → int64_wrap z = z.
Proof. intros H. unfold int64_wrap. rewrite Z.mod_small; lia. Qed.

Lemma int64_wrap_add_l (a b : Z) : int64_wrap (int64_wrap a + b) = int64_wrap (a + b).
Proof.
  unfold int64_wrap. f_equal.
  replace ((a + 2 ^ 63) `mod` 2 ^ 64 - 2 ^ 63 + b + 2 ^ 63)%Z
    with ((a + 2 ^ 63) `mod` 2 ^ 64 + b)%Z by lia.
  rewrite Zplus_mod_idemp_l. f_equal. lia.
Qed.

Lemma int64_wrap_Z_sum {A} (f : A → Z) (l : list A) :
  int64_wrap (Z_sum ((λ x, int64_wrap (f x)) <$> l)) = int64_wrap (Z_sum (f <$> l)).
Proof.
  induction l as [|x l IH]; [done|]. cbn.
  rewrite int64_wrap_add_l.
  rewrite (Z.add_comm (f x) (Z_sum _)), <- (int64_wrap_add_l (Z_sum _) (f x)), IH.
  by rewrite int64_wrap_add_l, Z.add_comm.
Qed.

Lemma is_int64_num (z : Z) : (- 2 ^ 63 ≤ z < 2 ^ 63)%Z → is_int64 (num z) = true.
Proof. intros H. unfold is_int64. rewrite whole_num. by apply bool_decide_eq_true. Qed.

Lemma is_int64_numeric (v : value) : is_int64 v = true → is_numeric v = true.
Proof. by destruct v. Qed.

Lemma forallb_Forall {A} (f : A → bool) (l : list A) :
  forallb f l = true ↔ Forall (λ x, f x = true) l.
Proof.
  rewrite forallb_forall, Forall_forall.
  split; intros H x Hx; apply H; by apply list_elem_of_In.
Qed.

Lemma dtype_of_int64 (s : list value) :
  Forall (λ v, is_int64 v = true) s → dtype_of false s = int64.
Proof.
  intros H. unfold dtype_of.
  assert (forallb is_numeric s = true) as ->.
  { apply forallb_Forall. eapply Forall_impl; [exact H|]. apply is_int64_numeric. }
  by apply forallb_Forall in H as ->.
Qed.

Lemma dtype_of_numeric (decimal : bool) (s : list value) :
  Forall (λ v, is_numeric v = true) s → numeric_dtype (dtype_of decimal s) = true.
Proof.
  intros H%forallb_Forall. unfold dtype_of. rewrite H.
  destruct decimal; [done|]. by repeat case_match.
Qed.

(** On a column of numbers the sum returns. *)
Lemma series_sum_numeric (decimal : bool) (s : list value) :
  Forall (λ v, is_numeric v = true) s → ∃ total, series_sum decimal s = Ok total.
Proof.
  intros H%(dtype_of_numeric decimal). unfold series_sum.
  destruct (dtype_of decimal s); try done; by eexists.
Qed.

Lemma series_sum_int64 (s : list value) :
  Forall (λ v, is_int64 v = true) s →
  series_sum false s = Ok (num (int64_wrap (Z_sum (as_Z <$> s)))).
Proof. intros H. unfold series_sum. by rewrite dtype_of_int64. Qed.

Lemma group_sum_numeric (dt : dtype) (s : list value) :
  numeric_dtype dt = true → group_sum dt s = Ok (group_total dt s).
Proof. unfold group_total. by destruct dt. Qed.

Lemma Z_sum_cons (z : Z) (zs : list Z) : Z_sum (z :: zs) = (z + Z_sum zs)%Z.
Proof. reflexivity. Qed.

Lemma Z_sum_filter_split {A} (f : A → Z) (P Q PQ : A → Prop)
    `{!∀ x, Decision (P x), !∀ x, Decision (Q x), !∀ x, Decision (PQ x)} (l : list A) :
  (∀ x, PQ x ↔ P x ∨ Q x) → (∀ x, P x → Q x → False) →
  (Z_sum (f <$> filter P l) + Z_sum (f <$> filter Q l)
   = Z_sum (f <$> filter PQ l))%Z.
Proof.
  intros Hor Hdisj. induction l as [|x l IH]; [done|].
  rewrite !filter_cons.
  destruct (decide (P x)) as [Hp|Hp], (decide (Q x)) as [Hq|Hq].
  - destruct (Hdisj x Hp Hq).
  - rewrite decide_True by (apply Hor; by left).
    rewrite !fmap_cons, !Z_sum_cons. lia.
  - rewrite decide_True by (apply Hor; by right).
    rewrite !fmap_cons, !Z_sum_cons. lia.
  - rewrite decide_False by (rewrite Hor; tauto). done.
Qed.

(** The depth given to the pairwise sum does not matter once it is
    the length of the array: the halving has ended by then. *)
Lemma pairwise_sum_depth (d1 d2 : nat) (a : list spec_float) :
  length a ≤ d1 → length a ≤ d2 → pairwise_sum d1 a = pairwise_sum d2 a.
Proof.
  revert d2 a. induction d1 as [|d1 IH]; intros d2 a H1 H2.
  - destruct a; [|simpl in H1; lia]. by destruct d2.
  - destruct d2 as [|d2].
    { destruct a; [done|simpl in H2; lia]. }
    cbn [pairwise_sum]. cbv zeta.
    destruct (length a <? 8) eqn:E8; [done|].
    destruct (length a <=? 128) eqn:E128; [done|].
    apply Nat.leb_gt in E128.
    pose proof (Nat.div_mod_eq (length a) 2) as Hh.
    pose proof (Nat.mod_upper_bound (length a) 2) as Hr.
    pose proof (Nat.mod_upper_bound (length a `div` 2) 8) as Hm.
    pose proof (Nat.Div0.mod_le (length a `div` 2) 8) as Hle.
    f_equal; apply IH; rewrite ?length_take, ?length_drop; lia.
Qed.

(** The whole-number sums of the groups of a list of distinct labels
    add up to the sum over the rows that carry one of these labels. *)
Lemma group_sums_partition (f : list value → Z) (i : nat) (labels : list value)
    (body : list (list value)) :
  NoDup labels → NaN ∉ labels →
  Z_sum ((λ k, Z_sum (f <$> filter (λ r, eq_py (cell i r) k = true) body)) <$> labels)
  = Z_sum (f <$> filter (λ r, cell i r ∈ labels) body).
Proof.
  induction labels as [|k labels IH]; intros Hnd Hnan.
  - simpl. rewrite filter_none; [done|]. intros r _. apply not_elem_of_nil.
  - apply NoDup_cons in Hnd as [Hk Hnd]. apply not_elem_of_cons in Hnan as [Hk' Hnan].
    rewrite fmap_cons, Z_sum_cons, IH by done.
    apply Z_sum_filter_split.
    + intros r. rewrite elem_of_cons, eq_py_true by done. done.
    + intros r Hr%eq_py_true Hin; [|done]. by rewrite Hr in Hin.
Qed.

(** The cells of one column next to the cells of another, on the rows
    that a test on the first column keeps. *)
Lemma zip_filter_on {A} (f g : A → value) (P : value → Prop)
    `{!∀ v, Decision (P v)} (l : list A) :
  snd <$> filter (λ p, P p.1) (zip (f <$> l) (g <$> l))
  = g <$> filter (λ x, P (f x)) l.
Proof.
  induction l as [|x l IH]; [done|].
  rewrite !fmap_cons.
  change (zip (f x :: (f <$> l)) (g x :: (g <$> l)))
    with ((f x, g x) :: zip (f <$> l) (g <$> l)).
  rewrite !filter_cons. cbn [fst].
  destruct (decide (P (f x))); [|done].
  by rewrite !fmap_cons, IH.
Qed.

Lemma groupby_sum_Ok (decimal : bool) (key c : string) (df : DataFrame) (i j : nat) :
  column_loc key df = Some i → column_loc c df = Some j →
  Forall (λ v, is_numeric v = true) (cell j <$> rows df) →
  groupby_sum decimal key c df
  = Ok {| columns := [key; c];
          rows := (λ k, [k; group_total (dtype_of decimal (cell j <$> rows df))
                              (cell j <$> filter (λ r, eq_py (cell i r) k = true) (rows df))])
                  <$> merge_sort value_le (unique (dropna (cell i <$> rows df))) |}.
Proof.
  intros Hi Hj Hnum. unfold groupby_sum.
  assert (getitem key df = Ok (cell i <$> rows df)) as ->
    by (apply getitem_Ok; eauto).
  assert (getitem c df = Ok (cell j <$> rows df)) as ->
    by (apply getitem_Ok; eauto).
  cbn [mbind result_bind].
  erewrite mapM_Ok_fmap; [done|]. intros k _.
  unfold where_eq. rewrite Hi. cbn [mbind result_bind].
  assert (getitem c {| columns := columns df;
                       rows := filter (λ r, eq_py (cell i r) k = true) (rows df) |}
          = Ok (cell j <$> filter (λ r, eq_py (cell i r) k = true) (rows df))) as ->.
  { apply getitem_Ok. exists j. split; [exact Hj|done]. }
  cbn [mbind result_bind].
  by rewrite group_sum_numeric by (by apply dtype_of_numeric).
Qed.

(** C3 (as amended).  On amounts that pandas holds as int64 (whole
    numbers, none missing), the per-stage sums of the stage summary add
    up, in int64, to the sum of amount over the opportunities that have
    a stage: a row whose stage is missing belongs to no group.  They
    add up to the total pipeline when no stage is missing.  (On float64
    amounts the two sums round on their own and can differ.) *)
Theorem stage_summary_total (opps : DataFrame) (stages amounts : list value) :
  getitem "stage" opps = Ok stages →
  getitem "amount" opps = Ok amounts →
  Forall (λ v, is_int64 v = true) amounts →
  ∃ stage_summary sums,
    groupby_sum false "stage" "amount" opps = Ok stage_summary ∧
    getitem "amount" stage_summary = Ok sums ∧
    series_sum false sums
    = Ok (num (int64_wrap
                 (Z_sum (as_Z <$> (snd <$> filter (λ p, p.1 ≠ NaN) (zip stages amounts)))))) ∧
    (NaN ∉ stages → series_sum false sums = series_sum false amounts).
Proof.
  intros (i & Hi & ->)%getitem_Ok (j & Hj & ->)%getitem_Ok Hint.
  assert (Forall (λ v, is_numeric v = true) (cell j <$> rows opps)) as Hnum
    by (eapply Forall_impl; [exact Hint|]; apply is_int64_numeric).
  eexists _, _. split; [by apply (groupby_sum_Ok _ _ _ _ i j)|].
  split; [reflexivity|].
  rewrite (dtype_of_int64 _ Hint).
  set (labels := merge_sort value_le (unique (dropna (cell i <$> rows opps)))).
  assert (labels ≡ₚ unique (dropna (cell i <$> rows opps))) as Hperm
    by apply merge_sort_Permutation.
  assert (NoDup labels) as Hnd by (rewrite Hperm; apply NoDup_unique).
  assert (∀ k, k ∈ labels ↔ k ≠ NaN ∧ k ∈ cell i <$> rows opps) as Hin.
  { intros k. by rewrite Hperm, elem_of_unique, elem_of_dropna. }
  assert (NaN ∉ labels) as Hnan by (rewrite Hin; naive_solver).
  set (group k := cell j <$> filter (λ r, eq_py (cell i r) k = true) (rows opps)).
  assert (series_sum false
            (cell 1 <$> ((λ k, [k; group_total int64 (group k)]) <$> labels))
          = Ok (num (int64_wrap
                       (Z_sum (as_Z <$> (cell j <$> filter (λ r, cell i r ≠ NaN)
                                                      (rows opps)))))))
    as Hsum.
  { rewrite <- list_fmap_compose.
    rewrite series_sum_int64
      by (apply Forall_fmap, Forall_forall; intros k _; apply is_int64_num,
            int64_wrap_range).
    do 2 f_equal. rewrite <- list_fmap_compose.
    rewrite (list_fmap_ext _ (λ k, int64_wrap (Z_sum (as_Z <$> group k))) labels)
      by (intros; cbn; apply as_Z_num).
    rewrite int64_wrap_Z_sum. f_equal.
    rewrite (filter_ext_in (λ r, cell i r ≠ NaN) (λ r, cell i r ∈ labels)).
    - rewrite <- (list_fmap_compose (cell j) as_Z).
      rewrite <- (group_sums_partition (as_Z ∘ cell j) i labels (rows opps) Hnd Hnan).
      f_equal. apply list_fmap_ext. intros _ k _. unfold group.
      by rewrite <- list_fmap_compose.
    - intros r Hr. rewrite Hin. split; [|naive_solver].
      intros ?. split; [done|]. by apply list_elem_of_fmap_2. }
  split.
  - pose proof (zip_filter_on (cell i) (cell j) (λ v, v ≠ NaN) (rows opps)) as Hz.
    cbv beta in Hz. rewrite Hz. exact Hsum.
  - intros Hall. rewrite (series_sum_int64 _ Hint).
    etrans; [exact Hsum|].
    rewrite (filter_ext_in _ (λ _, True)).
    + by rewrite filter_all.
    + intros r Hr. split; [done|]. intros _ Heq. apply Hall.
      rewrite <- Heq. by apply list_elem_of_fmap_2.
Qed.

Lemma stage_summary_total_witness :
  ∃ stage_summary sums,
    groupby_sum false "stage" "amount" opps_missing_stage = Ok stage_summary ∧
    getitem "amount" stage_summary = Ok sums ∧
    series_sum false sums = Ok (q 1000).
Proof.
  destruct (stage_summary_total opps_missing_stage
              [Str "Prospecting"; NaN] [q 1000; q 500])
    as (stage_summary & sums & Hgroup & Hsums & Htotal & _);
    [reflexivity | reflexivity | by_computation |].
  exists stage_summary, sums. split; [exact Hgroup|]. split; [exact Hsums|].
  exact Htotal.
Defined.

(** C3 (as stated) fails on a table with an opportunity whose stage is
    missing: the total pipeline is 1500, the stage summary holds 1000.
    It fails on float64 amounts, too, where every opportunity has a
    stage: 0.1 and 0.4 in one stage and 0.2 in another add up to 0.7 by
    stage and to 0.7000000000000001 in table order. *)
Lemma stage_sums_differ_from_total :
  (getitem "amount" opps_missing_stage ≫= series_sum false = Ok (q 1500) ∧
   (stage_summary ← groupby_sum false "stage" "amount" opps_missing_stage;
    getitem "amount" stage_summary ≫= series_sum false) = Ok (q 1000) ∧
   (stage_summary ← groupby_sum false "stage" "amount" opps_missing_stage;
    getitem "amount" stage_summary ≫= series_sum false)
   ≠ getitem "amount" opps_missing_stage ≫= series_sum false) ∧
  (getitem "stage" opps_float_amounts = Ok [Str "Negotiation"; Str "Prospecting";
                                             Str "Negotiation"] ∧
   getitem "amount" opps_float_amounts = Ok [f64 1 10; f64 2 10; f64 4 10] ∧
   getitem "amount" opps_float_amounts ≫= series_sum false
   = Ok (Num (Q2Qc (6305039478318695 # 9007199254740992))) ∧
   (stage_summary ← groupby_sum false "stage" "amount" opps_float_amounts;
    getitem "amount" stage_summary ≫= series_sum false)
   = Ok (Num (Q2Qc (6305039478318694 # 9007199254740992))) ∧
   (stage_summary ← groupby_sum false "stage" "amount" opps_float_amounts;
    getitem "amount" stage_summary ≫= series_sum false)
   ≠ getitem "amount" opps_float_amounts ≫= series_sum false).
Proof. repeat apply conj; by_computation. Qed.

(** ** The weighted amount *)

Lemma series_div_cons (v : value) (s : list value) (k : Qc) :
  series_div (v :: s) k
  = (x ← value_div v (Num k); xs ← series_div s k; Ok (x :: xs)).
Proof. reflexivity. Qed.

Lemma series_mul_cons (a b : value) (s1 s2 : list value) :
  series_mul (a :: s1) (b :: s2)
  = (x ← value_mul a b; xs ← series_mul s1 s2; Ok (x :: xs)).
Proof. reflexivity. Qed.

Lemma of_float64_numeric (f : spec_float) : is_numeric (of_float64 f) = true.
Proof. by destruct f. Qed.

Lemma as_float64_numeric (v : value) :
  is_numeric v = true → as_float64 v = Some (to_float64 v).
Proof. by destruct v. Qed.

Lemma value_div_numeric (x y : value) :
  is_numeric x = true → is_numeric y = true →
  value_div x y = Ok (of_float64 (f64_div (to_float64 x) (to_float64 y))).
Proof.
  intros Hx Hy. unfold value_div.
  by rewrite (as_float64_numeric _ Hx), (as_float64_numeric _ Hy).
Qed.

Lemma value_mul_numeric (x y : value) :
  is_numeric x = true → is_numeric y = true →
  value_mul x y = Ok (of_float64 (f64_mul (to_float64 x) (to_float64 y))).
Proof.
  intros Hx Hy. unfold value_mul.
  by rewrite (as_float64_numeric _ Hx), (as_float64_numeric _ Hy).
Qed.

(** The weighted amount of a row, as the two operations of the
    dashboard give it. *)
Lemma weighted_Ok (a p : value) :
  is_numeric a = true → is_numeric p = true →
  ∃ share, value_div p (Num (Q2Qc 100)) = Ok share ∧
           value_mul a share = Ok (weighted a p) ∧
           is_numeric (weighted a p) = true.
Proof.
  intros Ha Hp. unfold weighted.
  rewrite (value_div_numeric p (Num (Q2Qc 100)) Hp eq_refl). cbn [mbind result_bind].
  eexists. split; [done|].
  rewrite (value_mul_numeric a _ Ha (of_float64_numeric _)).
  split; [done|]. apply of_float64_numeric.
Qed.



Lemma weighted_series (amounts probabilities : list value) :
  Forall (λ v, is_numeric v = true) amounts →
  Forall (λ v, is_numeric v = true) probabilities →
  length amounts = length probabilities →
  (share ← series_div probabilities (Q2Qc 100); series_mul amounts share)
  = Ok (zip_with weighted amounts probabilities).
Proof.
  intros Ha. revert probabilities.
  induction Ha as [|a amounts Hna _ IH]; intros probabilities Hp Hlen.
  - destruct probabilities; [done|discriminate Hlen].
  - destruct Hp as [|p probabilities Hnp Hp]; [discriminate Hlen|].
    injection Hlen as Hlen. specialize (IH _ Hp Hlen).
    apply bind_Ok in IH as (shares & Hshares & Hmul).
    destruct (weighted_Ok a p Hna Hnp) as (share & Hshare & Hw & _).
    rewrite series_div_cons, Hshare. cbn [mbind result_bind].
    rewrite Hshares. cbn [mbind result_bind].
    rewrite series_mul_cons, Hw. cbn [mbind result_bind].
    by rewrite Hmul.
Qed.

Lemma weighted_series_numeric (amounts probabilities : list value) :
  Forall (λ v, is_numeric v = true) amounts →
  Forall (λ v, is_numeric v = true) probabilities →
  Forall (λ v, is_numeric v = true) (zip_with weighted amounts probabilities).
Proof.
  intros Ha Hp. rewrite Forall_forall in Ha, Hp. apply Forall_forall.
  intros v (a & p & -> & Hina & Hinp)%elem_of_zip_with.
  by destruct (weighted_Ok a p (Ha a Hina) (Hp p Hinp)) as (? & _ & _ & ?).
Qed.

(** ** Assigning a column *)

Lemma column_loc_snoc c df :
  c ∉ columns df →
  column_loc c {| columns := columns df ++ [c]; rows := [] |} = Some (length (columns df)).
Proof.
  unfold column_loc. simpl. intros Hc.
  induction (columns df) as [|c' cs IH]; simpl.
  - by rewrite decide_True.
  - apply not_elem_of_cons in Hc as [Hne Hc].
    rewrite decide_False by done.
    specialize (IH Hc). destruct (list_find _ (cs ++ [c])) as [[k x]|]; simplify_eq/=.
    done.
Qed.

Lemma getitem_setitem c s df :
  rectangular df → length s = len df →
  getitem c (setitem c s df) = Ok s.
Proof.
  unfold rectangular, len. intros Hrect Hlen. rewrite Forall_forall in Hrect.
  unfold setitem. destruct (column_loc c df) as [i|] eqn:Hi.
  - apply getitem_Ok. exists i. split; [exact Hi|]. simpl.
    apply list_eq. intros k. rewrite list_lookup_fmap, list_lookup_imap.
    destruct (rows df !! k) as [r|] eqn:Hr; simpl.
    + assert (k < length s) as [v Hv]%lookup_lt_is_Some
        by (rewrite Hlen; by eapply lookup_lt_Some).
      rewrite Hv. f_equal. unfold cell at 2. rewrite Hv. simpl.
      unfold cell. rewrite list_lookup_insert_eq; [done|].
      rewrite (Hrect r) by (by eapply list_elem_of_lookup_2).
      apply column_loc_Some in Hi. by eapply lookup_lt_Some.
    + apply lookup_ge_None. rewrite Hlen. by apply lookup_ge_None.
  - apply column_loc_None in Hi. apply getitem_Ok.
    exists (length (columns df)). split; [by apply column_loc_snoc|]. simpl.
    apply list_eq. intros k. rewrite list_lookup_fmap, list_lookup_imap.
    destruct (rows df !! k) as [r|] eqn:Hr; simpl.
    + assert (k < length s) as [v Hv]%lookup_lt_is_Some
        by (rewrite Hlen; by eapply lookup_lt_Some).
      rewrite Hv. f_equal. unfold cell at 2. rewrite Hv. simpl.
      unfold cell. rewrite <- (Hrect r) by (by eapply list_elem_of_lookup_2).
      by rewrite list_lookup_middle.
    + apply lookup_ge_None. rewrite Hlen. by apply lookup_ge_None.
Qed.

(** ** Copying and assigning in the store *)

Lemma run_df_copy (l : nat) (σ : store) (df : DataFrame) :
  σ !! l = Some df → df_copy l σ = (Ok (length σ), σ ++ [df]).
Proof. unfold df_copy. by intros ->. Qed.

Lemma run_deref_fresh (σ : store) (df : DataFrame) :
  deref (length σ) (σ ++ [df]) = (Ok df, σ ++ [df]).
Proof. apply run_deref. by apply list_lookup_middle. Qed.

Lemma run_df_setitem_fresh (σ : store) (df : DataFrame) (c : string) (s : list value) :
  df_setitem (length σ) c s (σ ++ [df]) = (Ok (), σ ++ [setitem c s df]).
Proof.
  unfold df_setitem. rewrite (list_lookup_middle σ [] df (length σ) eq_refl). f_equal.
  rewrite <- (Nat.add_0_r (length σ)) at 1. by rewrite insert_app_r.
Qed.

Lemma run_deref_old (l : nat) (σ fresh : store) (df : DataFrame) :
  σ !! l = Some df → deref l (σ ++ fresh) = (Ok df, σ ++ fresh).
Proof.
  intros Hl. apply run_deref. rewrite lookup_app_l; [done|].
  by eapply lookup_lt_Some.
Qed.

(** An item assignment through a name changes the frame the name
    denotes: the store does express mutation. *)
Lemma run_df_setitem_in_place (l : nat) (σ : store) (df : DataFrame)
    (c : string) (s : list value) :
  σ !! l = Some df → (df_setitem l c s σ).2 !! l = Some (setitem c s df).
Proof.
  intros Hl. unfold df_setitem. rewrite Hl. simpl.
  apply list_lookup_insert_eq. by eapply lookup_lt_Some.
Qed.

Section Dashboard.

Variable to_string : DataFrame → string.
Variable format_money : value → string.
Variable amount_float64 : bool.
Variable chat_completions_create : Groq → Request → result ChatCompletion.


End Dashboard.



(** ** Views that only read *)

Lemma read_only_ret {A} (a : A) : read_only (mret a).
Proof. by intros σ. Qed.

Lemma read_only_lift {A} (r : result A) : read_only (lift r).
Proof. by intros σ. Qed.

Lemma read_only_deref (l : nat) : read_only (deref l).
Proof. intros σ. unfold deref. by destruct (σ !! l). Qed.

Lemma read_only_bind {A B} (m : M A) (f : A → M B) :
  read_only m → (∀ a, read_only (f a)) → read_only (m ≫= f).
Proof.
  intros Hm Hf σ. rewrite run_bind. specialize (Hm σ).
  destruct (m σ) as [[a|e] σ']; simpl in Hm; subst σ'; [apply Hf|done].
Qed.

Lemma read_only_if {A} (b : bool) (m1 m2 : M A) :
  read_only m1 → read_only m2 → read_only (if b then m1 else m2).
Proof. by destruct b. Qed.

Create HintDb read_only.
#[local] Hint Resolve read_only_ret read_only_lift read_only_deref : read_only.

Ltac read_only :=
  repeat first
    [ apply read_only_bind; [|intros ?]
    | apply read_only_if
    | solve [auto with read_only] ].

(** After a step that leaves the store alone, the store at the end is
    the one the rest of the view leaves. *)
Lemma run_then_read_only {A B} (m : M A) (f : A → M B) (σ : store) :
  (∀ a, read_only (f a)) → ((m ≫= f) σ).2 = (m σ).2.
Proof.
  intros Hf. rewrite run_bind. destruct (m σ) as [[a|e] σ']; [apply Hf|done].
Qed.

Section Frame.

Variable to_string : DataFrame → string.
Variable format_money : value → string.
Variable amount_float64 : bool.
Variable repr : value → string.
Variable chat_completions_create : Groq → Request → result ChatCompletion.

Lemma assistant_read_only client w :
  read_only (assistant to_string chat_completions_create client w).
Proof. unfold assistant. read_only. Qed.

Lemma meeting_prep_read_only client w :
  read_only (meeting_prep to_string repr chat_completions_create client w).
Proof. unfold meeting_prep. read_only. Qed.

Lemma outreach_read_only client w :
  read_only (outreach repr chat_completions_create client w).
Proof. unfold outreach. read_only. Qed.

(** The dashboard allocates its copy past the end of the store and
    assigns the new column there. *)
Lemma dashboard_store client w σ :
  ∃ fresh,
    (dashboard to_string format_money amount_float64 chat_completions_create client w σ).2 = σ ++ fresh ∧
    (fresh = [] ∨
     ∃ opps, σ !! opps_df = Some opps ∧
       (fresh = [opps] ∨ ∃ s, fresh = [setitem "weighted_amount" s opps])).
Proof.
  unfold dashboard. rewrite run_bind. unfold df_copy at 1.
  destruct (σ !! opps_df) as [opps|] eqn:Hσ.
  - rewrite run_bind, run_deref_fresh, run_bind, run_lift.
    destruct (amount ← getitem "amount" opps;
              probability ← getitem "probability" opps;
              share ← series_div probability (Q2Qc 100);
              series_mul amount share) as [s|e].
    + rewrite run_bind, run_df_setitem_fresh.
      exists [setitem "weighted_amount" s opps]. split; [|right; eauto].
      match goal with
      | |- (?k ?σ').2 = _ => assert (read_only k) as Hk; [|apply Hk]
      end.
      read_only.
    + exists [opps]. split; [done|]. right. eauto.
  - exists []. split; [by rewrite app_nil_r|by left].
Qed.

(** C9.  No view changes a loaded table.  The assistant, the meeting
    preparation and the outreach generator leave the store as it is;
    the dashboard only appends its own copy of the opportunity table,
    the one that receives the weighted_amount column; so every frame of
    the store, the four loaded tables among them, is the same after the
    views have run, whether they return or raise. *)
Theorem views_leave_loaded_tables (client : Groq) (w : widgets) (σ : store) :
  (assistant to_string chat_completions_create client w σ).2 = σ ∧
  (meeting_prep to_string repr chat_completions_create client w σ).2 = σ ∧
  (outreach repr chat_completions_create client w σ).2 = σ ∧
  (∃ fresh,
     (dashboard to_string format_money amount_float64 chat_completions_create client w σ).2 = σ ++ fresh ∧
     (views to_string format_money amount_float64 repr chat_completions_create client w σ).2 = σ ++ fresh ∧
     (fresh = [] ∨
      ∃ opps, σ !! opps_df = Some opps ∧
        (fresh = [opps] ∨ ∃ s, fresh = [setitem "weighted_amount" s opps]))) ∧
  (∀ l df, σ !! l = Some df →
     (views to_string format_money amount_float64 repr chat_completions_create client w σ).2 !! l
     = Some df).
Proof.
  assert ((views to_string format_money amount_float64 repr chat_completions_create client w σ).2
          = (dashboard to_string format_money amount_float64 chat_completions_create client w σ).2)
    as Hviews.
  { unfold views. apply run_then_read_only. intros tab0.
    apply read_only_bind; [apply assistant_read_only|intros tab1].
    apply read_only_bind; [apply meeting_prep_read_only|intros tab2].
    apply read_only_bind; [apply outreach_read_only|intros tab3].
    apply read_only_ret. }
  destruct (dashboard_store client w σ) as (fresh & Hdash & Hfresh).
  split; [apply assistant_read_only|].
  split; [apply meeting_prep_read_only|].
  split; [apply outreach_read_only|].
  split.
  - exists fresh. by rewrite Hviews.
  - intros l df Hl. rewrite Hviews, Hdash, lookup_app_l; [done|].
    by eapply lookup_lt_Some.
Qed.

End Frame.

(** On the sample tables the opportunity table is the same frame after
    the views have run. *)
Lemma views_leave_loaded_tables_witness :
  (views demo_to_string demo_format_money false demo_repr echo {| api_key := Some "gsk" |}
     demo_widgets demo_store).2 !! opps_df
  = Some (demo_table opps_df).
Proof.
  apply (views_leave_loaded_tables demo_to_string demo_format_money false demo_repr echo
           {| api_key := Some "gsk" |} demo_widgets demo_store).
  reflexivity.
Defined.

(** * Further properties of the loader *)

(** ** Labels after a rename *)

Lemma rename_label (kvs : list (string * string)) (c t : string) :
  NoDup (kvs.*1) →
  default c (list_to_map (M := gmap string string) kvs !! c) = t →
  (c, t) ∈ kvs ∨ (¬ c ∈ kvs.*1) ∧ c = t.
Proof.
  intros Hnd. destruct (_ !! c) as [v|] eqn:E; simpl; intros <-.
  - left. by apply elem_of_list_to_map.
  - right. split; [|done]. by apply not_elem_of_list_to_map.
Qed.

Lemma rename_label_mapped (kvs : list (string * string)) (c t : string) :
  NoDup (kvs.*1) → (c, t) ∈ kvs →
  default c (list_to_map (M := gmap string string) kvs !! c) = t.
Proof. intros Hnd Hin. by rewrite (elem_of_list_to_map_1 _ _ _ Hnd Hin). Qed.

Lemma rename_label_kept (kvs : list (string * string)) (c : string) :
  c ∉ (kvs.*1) →
  default c (list_to_map (M := gmap string string) kvs !! c) = c.
Proof. intros Hc. by rewrite (not_elem_of_list_to_map_1 _ _ Hc). Qed.

Lemma list_find_ext_in {A} (P Q : A → Prop)
    `{!∀ x, Decision (P x), !∀ x, Decision (Q x)} (l : list A) :
  (∀ x, x ∈ l → P x ↔ Q x) → list_find P l = list_find Q l.
Proof.
  induction l as [|x l IH]; intros Hext; [done|]. simpl.
  assert (list_find P l = list_find Q l) as ->
    by (apply IH; intros y Hy; apply Hext; by right).
  destruct (decide (P x)) as [Hp|Hp].
  - rewrite decide_True; [done|]. apply Hext; [left|done].
  - rewrite decide_False; [done|]. rewrite <- Hext; [done|left].
Qed.

(** A column found under its new label is the first column that the
    rename gives this label. *)
Lemma column_loc_rename (mapping : gmap string string) (df : DataFrame) (c t : string) :
  (∀ c', c' ∈ columns df → default c' (mapping !! c') = t ↔ c' = c) →
  column_loc t (rename mapping df) = column_loc c df.
Proof.
  unfold column_loc, rename. cbn [columns]. intros Hext.
  rewrite list_find_fmap.
  rewrite (list_find_ext_in _ (λ c', c' = c)) by exact Hext.
  by destruct (list_find _ _) as [[k x]|].
Qed.

Ltac pairs_cases H :=
  repeat (apply elem_of_cons in H as [H|H]; [simplify_eq|]);
  try (by apply elem_of_nil in H).

Lemma close_date_label (c : string) :
  default c (list_to_map (M := gmap string string)
               [("ID", "opportunity_id"); ("ACCOUNT_ID", "account_id");
                ("AMOUNT", "amount"); ("PROBABILITY", "probability");
                ("STAGE_NAME", "stage"); ("CLOSE_DATE", "close_date")] !! c)
  = "close_date"
  ↔ c = "CLOSE_DATE" ∨ c = "close_date".
Proof.
  split.
  - intros [Hin|[_ ->]]%rename_label; [|by right|by_computation].
    pairs_cases Hin. by left.
  - intros [->| ->]; by vm_compute.
Qed.


Lemma account_labels (c t : string) :
  t = "account_id" ∨ t = "account_name" →
  default c (list_to_map (M := gmap string string)
               [("ID", "account_id"); ("NAME", "account_name")] !! c) = t
  ↔ (c, t) ∈ [("ID", "account_id"); ("NAME", "account_name")] ∨ c = t.
Proof.
  intros Ht. split.
  - intros [Hin|[_ ->]]%rename_label; [by left|by right|by_computation].
  - intros [Hin| ->].
    + apply rename_label_mapped; [by_computation|done].
    + destruct Ht as [-> | ->]; by vm_compute.
Qed.

Lemma has_label_after_rename (mapping : gmap string string) (df : DataFrame) (t : string) :
  t ∈ columns (rename mapping df) ↔
  ∃ c, c ∈ columns df ∧ default c (mapping !! c) = t.
Proof.
  unfold rename. cbn [columns]. rewrite list_elem_of_fmap. naive_solver.
Qed.

(** ** Failures of the loader *)

Section LoaderErrors.

Variable pd_read_csv : string → result DataFrame.
Variable pd_to_datetime : list value → result (list value).

(** X1.  An opportunities file with neither a [CLOSE_DATE] nor a
    [close_date] column makes the loader raise the key error of the
    close date, whatever the other files hold. *)
Theorem load_data_without_close_date (raw_accounts raw_opps raw_contacts raw_tasks : DataFrame) :
  pd_read_csv "accounts.csv" = Ok raw_accounts →
  pd_read_csv "opportunities.csv" = Ok raw_opps →
  pd_read_csv "contacts.csv" = Ok raw_contacts →
  pd_read_csv "tasks.csv" = Ok raw_tasks →
  "CLOSE_DATE" ∉ columns raw_opps →
  "close_date" ∉ columns raw_opps →
  load_data pd_read_csv pd_to_datetime = Raise (KeyError "close_date").
Proof.
  intros Ha Ho Hc Ht Hraw Hlow. unfold load_data.
  rewrite Ha, Ho, Hc, Ht. cbn [mbind result_bind].
  unfold standardize_opportunities.
  set (renamed := rename _ raw_opps).
  assert (getitem "close_date" renamed = Raise (KeyError "close_date")) as ->; [|done].
  unfold getitem.
  assert (column_loc "close_date" renamed = None) as ->; [|done].
  apply column_loc_None. intros (c & Hin & [-> | ->]%close_date_label)%has_label_after_rename;
    done.
Qed.

Lemma getitem_close_date (raw_opps : DataFrame) (s : list value) :
  "close_date" ∉ columns raw_opps →
  getitem "CLOSE_DATE" raw_opps = Ok s →
  getitem "close_date"
    (rename (list_to_map [("ID", "opportunity_id"); ("ACCOUNT_ID", "account_id");
                          ("AMOUNT", "amount"); ("PROBABILITY", "probability");
                          ("STAGE_NAME", "stage"); ("CLOSE_DATE", "close_date")])
            raw_opps) = Ok s.
Proof.
  intros Hlow (i & Hi & ->)%getitem_Ok. apply getitem_Ok. exists i.
  split; [|done]. rewrite <- Hi. apply column_loc_rename.
  intros c Hin. rewrite close_date_label. split; [|by left].
  intros [->| ->]; done.
Qed.

(** X2.  A close date that [pd.to_datetime] cannot parse is fatal: the
    loader raises the exception of the parser and returns no table. *)
Theorem load_data_unparseable_close_date
    (raw_accounts raw_opps raw_contacts raw_tasks : DataFrame) (s : list value) (e : exn) :
  pd_read_csv "accounts.csv" = Ok raw_accounts →
  pd_read_csv "opportunities.csv" = Ok raw_opps →
  pd_read_csv "contacts.csv" = Ok raw_contacts →
  pd_read_csv "tasks.csv" = Ok raw_tasks →
  "close_date" ∉ columns raw_opps →
  getitem "CLOSE_DATE" raw_opps = Ok s →
  pd_to_datetime s = Raise e →
  load_data pd_read_csv pd_to_datetime = Raise e.
Proof.
  intros Ha Ho Hc Ht Hlow Hs He. unfold load_data.
  rewrite Ha, Ho, Hc, Ht. cbn [mbind result_bind].
  unfold standardize_opportunities.
  rewrite (getitem_close_date _ _ Hlow Hs). cbn [mbind result_bind].
  by rewrite He.
Qed.

(** X3.  An accounts file without an identifier column ([ID] or
    [account_id]) or without a name column ([NAME] or [account_name])
    makes the first join raise the key error of the selection of the
    two columns: it names the missing label when one of the two is
    there, and both labels when neither is. *)
Theorem load_data_unkeyed_accounts
    (raw_accounts raw_opps raw_contacts raw_tasks : DataFrame) (s dates : list value) :
  pd_read_csv "accounts.csv" = Ok raw_accounts →
  pd_read_csv "opportunities.csv" = Ok raw_opps →
  pd_read_csv "contacts.csv" = Ok raw_contacts →
  pd_read_csv "tasks.csv" = Ok raw_tasks →
  "close_date" ∉ columns raw_opps →
  getitem "CLOSE_DATE" raw_opps = Ok s →
  pd_to_datetime s = Ok dates →
  let id := "ID" ∈ columns raw_accounts ∨ "account_id" ∈ columns raw_accounts in
  let name := "NAME" ∈ columns raw_accounts ∨ "account_name" ∈ columns raw_accounts in
  (¬ id → name →
   load_data pd_read_csv pd_to_datetime
   = Raise (Exception "KeyError" (dq +:+ "['account_id'] not in index" +:+ dq))) ∧
  (id → ¬ name →
   load_data pd_read_csv pd_to_datetime
   = Raise (Exception "KeyError" (dq +:+ "['account_name'] not in index" +:+ dq))) ∧
  (¬ id → ¬ name →
   load_data pd_read_csv pd_to_datetime
   = Raise (Exception "KeyError"
              (dq +:+ "None of [Index(['account_id', 'account_name'], dtype='object')] "
                  +:+ "are in the [columns]" +:+ dq))).
Proof.
  intros Ha Ho Hc Ht Hlow Hs Hdates id name.
  set (accounts := standardize_accounts raw_accounts).
  assert ("account_id" ∈ columns accounts ↔ id) as Hid.
  { unfold accounts, standardize_accounts. rewrite has_label_after_rename. split.
    - intros (c & Hin & [Hp| ->]%(account_labels _ "account_id")); [|by right|by left].
      pairs_cases Hp. by left.
    - intros [Hin|Hin]; [exists "ID"|exists "account_id"]; by split. }
  assert ("account_name" ∈ columns accounts ↔ name) as Hname.
  { unfold accounts, standardize_accounts. rewrite has_label_after_rename. split.
    - intros (c & Hin & [Hp| ->]%(account_labels _ "account_name")); [|by right|by right].
      pairs_cases Hp. by left.
    - intros [Hin|Hin]; [exists "NAME"|exists "account_name"]; by split. }
  assert (∀ e, getitems ["account_id"; "account_name"] accounts = Raise e →
               load_data pd_read_csv pd_to_datetime = Raise e) as Hload.
  { intros e He. unfold load_data.
    rewrite Ha, Ho, Hc, Ht. cbn [mbind result_bind].
    unfold standardize_opportunities.
    rewrite (getitem_close_date _ _ Hlow Hs). cbn [mbind result_bind].
    rewrite Hdates. cbn [mbind result_bind].
    unfold join_account_name. fold accounts. by rewrite He. }
  rewrite <- Hid, <- Hname.
  split; [|split]; intros H1 H2; apply Hload; unfold getitems;
    rewrite filter_cons, filter_cons, filter_nil.
  - rewrite decide_True, decide_False by tauto. done.
  - rewrite decide_False, decide_True by tauto. done.
  - rewrite decide_True, decide_True by tauto. done.
Qed.

End LoaderErrors.

Lemma load_data_without_close_date_witness :
  load_data (demo_read_csv_with accounts_csv opportunities_undated_csv) demo_to_datetime
  = Raise (KeyError "close_date").
Proof.
  apply (load_data_without_close_date
           (demo_read_csv_with accounts_csv opportunities_undated_csv) demo_to_datetime
           accounts_csv opportunities_undated_csv contacts_csv tasks_bare_csv);
    first [reflexivity | by_computation].
Defined.

Lemma load_data_unparseable_close_date_witness :
  load_data (demo_read_csv_with accounts_csv opportunities_bad_date_csv) demo_to_datetime
  = Raise (Exception "ValueError" "Unknown datetime string format").
Proof.
  apply (load_data_unparseable_close_date
           (demo_read_csv_with accounts_csv opportunities_bad_date_csv) demo_to_datetime
           accounts_csv opportunities_bad_date_csv contacts_csv tasks_bare_csv
           [Str "next week"]);
    first [reflexivity | by_computation].
Defined.

Lemma load_data_unkeyed_accounts_witness :
  load_data (demo_read_csv_with accounts_unkeyed_csv opportunities_csv) demo_to_datetime
  = Raise (Exception "KeyError" (dq +:+ "['account_id'] not in index" +:+ dq)).
Proof.
  apply (load_data_unkeyed_accounts
           (demo_read_csv_with accounts_unkeyed_csv opportunities_csv) demo_to_datetime
           accounts_unkeyed_csv opportunities_csv contacts_csv tasks_bare_csv
           [Str "2024-01-31"; Str "2024-01-31"; Str "2024-02-29"; Str "2024-02-29";
            Str "2024-02-29"]
           [Timestamp 1706659200; Timestamp 1706659200; Timestamp 1709164800;
            Timestamp 1709164800; Timestamp 1709164800]);
    first [reflexivity | by_computation].
Defined.

(** * Further properties of the join *)

(** The joined table, spelled out. *)
Lemma join_account_name_Ok (child accounts joined : DataFrame) :
  join_account_name child accounts = Ok joined →
  ∃ ids names i,
    getitem "account_id" accounts = Ok ids ∧
    getitem "account_name" accounts = Ok names ∧
    column_loc "account_id" child = Some i ∧
    joined
    = {| columns := (suffixed "account_id" ["account_id"; "account_name"] "_x"
                       <$> columns child)
                    ++ [suffixed "account_id" (columns child) "_y" "account_name"];
         rows := rows child
                   ≫= join_row {| columns := ["account_id"; "account_name"];
                                  rows := (λ p, [p.1; p.2]) <$> zip ids names |} i 0 |}.
Proof.
  intros (right & Hright & Hmerge)%join_account_name_inv.
  apply getitems_account_key in Hright as (ids & names & Hids & Hnames & Hcols & Hrows).
  apply merge_left_Ok in Hmerge as (i & j & Hi & Hj & ->).
  assert (j = 0) as ->.
  { unfold column_loc in Hj. rewrite Hcols in Hj. by simplify_eq/=. }
  exists ids, names, i. split; [done|]. split; [done|]. split; [done|].
  destruct right as [cols body]. simpl in *. by subst.
Qed.

(** A row of the join is a row of the child followed by one cell: the
    name of an account that carries the row's identifier, or a missing
    value when no account does. *)
Lemma join_row_sound (ids names : list value) (i : nat) (r row : list value) :
  length ids = length names →
  row ∈ join_row {| columns := ["account_id"; "account_name"];
                    rows := (λ p, [p.1; p.2]) <$> zip ids names |} i 0 r →
  ∃ name, row = r ++ [name] ∧
    ((name = NaN ∧ cell i r ∉ ids) ∨
     ∃ k, ids !! k = Some (cell i r) ∧ names !! k = Some name).
Proof.
  intros Hlen. unfold join_row. cbn [rows columns].
  destruct (filter _ _) as [|s ms] eqn:E.
  - intros ->%list_elem_of_singleton. exists NaN. split; [done|]. left. split; [done|].
    intros (k & Hk)%list_elem_of_lookup_1.
    assert (k < length names) as [name Hname]%lookup_lt_is_Some
      by (rewrite <- Hlen; by eapply lookup_lt_Some).
    eapply (filter_nil_not_elem_of _ _ [cell i r; name] E); [done|].
    apply list_elem_of_fmap. exists (cell i r, name). split; [done|].
    apply list_elem_of_lookup. exists k. by apply lookup_zip_with_Some; eauto.
  - rewrite <- E. intros (s' & -> & [Hkey Hin]%list_elem_of_filter)%list_elem_of_fmap.
    apply list_elem_of_fmap in Hin as ([id name] & -> & Hin).
    apply list_elem_of_lookup_1 in Hin as (k & Hk).
    apply lookup_zip_with_Some in Hk as (id' & name' & [= <- <-] & Hid & Hname).
    exists name. split; [done|]. right. exists k. split; [|done].
    by rewrite <- Hkey.
Qed.


(** X4.  Every row of a joined table is a row of the child table
    followed by one cell, which is the name of an account whose
    identifier equals the row's account_id, or a missing value when
    there is no such account. *)
Theorem join_account_name_sound (child accounts joined : DataFrame) :
  join_account_name child accounts = Ok joined →
  ∃ ids names i,
    getitem "account_id" accounts = Ok ids ∧
    getitem "account_name" accounts = Ok names ∧
    column_loc "account_id" child = Some i ∧
    ∀ row, row ∈ rows joined →
      ∃ r name, r ∈ rows child ∧ row = r ++ [name] ∧
        ((name = NaN ∧ cell i r ∉ ids) ∨
         ∃ k, ids !! k = Some (cell i r) ∧ names !! k = Some name).
Proof.
  intros (ids & names & i & Hids & Hnames & Hi & ->)%join_account_name_Ok.
  exists ids, names, i. split; [done|]. split; [done|]. split; [done|].
  cbn [rows]. intros row (r & Hrow & Hr)%list_elem_of_bind.
  apply join_row_sound in Hrow as (name & -> & Hname).
  - by exists r, name.
  - apply getitem_length in Hids, Hnames. congruence.
Qed.


Lemma join_account_name_witness_tables :
  join_account_name
    {| columns := ["contact_id"; "account_id"];
       rows := [[Str "C1"; Str "A2"]; [Str "C2"; Str "A9"]] |}
    (standardize_accounts accounts_csv)
  = Ok {| columns := ["contact_id"; "account_id"; "account_name"];
          rows := [[Str "C1"; Str "A2"; Str "Bolt"]; [Str "C2"; Str "A9"; NaN]] |}.
Proof. by vm_compute. Qed.

Lemma join_account_name_sound_witness :
  ∃ ids names i,
    getitem "account_id" (standardize_accounts accounts_csv) = Ok ids ∧
    getitem "account_name" (standardize_accounts accounts_csv) = Ok names ∧
    column_loc "account_id"
      {| columns := ["contact_id"; "account_id"];
         rows := [[Str "C1"; Str "A2"]; [Str "C2"; Str "A9"]] |} = Some i ∧
    ∀ row, row ∈ [[Str "C1"; Str "A2"; Str "Bolt"]; [Str "C2"; Str "A9"; NaN]] →
      ∃ r name, r ∈ [[Str "C1"; Str "A2"]; [Str "C2"; Str "A9"]] ∧ row = r ++ [name] ∧
        ((name = NaN ∧ cell i r ∉ ids) ∨
         ∃ k, ids !! k = Some (cell i r) ∧ names !! k = Some name).
Proof.
  exact (join_account_name_sound _ _ _ join_account_name_witness_tables).
Defined.


(** * The tables the loader returns *)

Lemma standardize_opportunities_child pd_to_datetime accounts raw opps :
  standardize_opportunities pd_to_datetime accounts raw = Ok opps →
  ∃ child cd,
    join_account_name child accounts = Ok opps ∧
    columns child
    = columns (rename (list_to_map
                         [("ID", "opportunity_id"); ("ACCOUNT_ID", "account_id");
                          ("AMOUNT", "amount"); ("PROBABILITY", "probability");
                          ("STAGE_NAME", "stage"); ("CLOSE_DATE", "close_date")]) raw) ∧
    columns child !! cd = Some "close_date" ∧
    length (rows child) = length (rows raw) ∧
    (∀ k r', rows child !! k = Some r' →
       ∃ r d, rows raw !! k = Some r ∧ r' = <[cd := d]> r).
Proof.
  unfold standardize_opportunities.
  set (renamed := rename _ raw).
  intros (dates & (s & Hs & Hdates)%bind_Ok & Hjoin)%bind_Ok.
  apply getitem_Ok in Hs as (cd & Hcd & _).
  exists (setitem "close_date" dates renamed), cd.
  split; [done|].
  assert (setitem "close_date" dates renamed
          = {| columns := columns renamed;
               rows := imap (λ k r, <[cd := cell k dates]> r) (rows raw) |}) as ->
    by (unfold setitem; by rewrite Hcd).
  cbn [columns rows].
  split; [done|]. split; [by apply column_loc_Some|].
  split; [by rewrite length_imap|].
  intros k r'. rewrite list_lookup_imap.
  destruct (rows raw !! k) as [r|]; [|done]. intros [= <-]. eauto.
Qed.

Lemma join_account_name_plain_columns (child accounts joined : DataFrame) :
  join_account_name child accounts = Ok joined →
  "account_name" ∉ columns child →
  columns joined = columns child ++ ["account_name"].
Proof.
  intros (ids & names & i & _ & _ & _ & ->)%join_account_name_Ok Hno.
  cbn [columns]. f_equal.
  - rewrite <- (list_fmap_id (columns child)) at 2.
    apply list_fmap_ext. intros _ c Hc%list_elem_of_lookup_2.
    unfold suffixed. case_bool_decide as Hs; [|done].
    destruct Hs as [Hne Hs]. apply elem_of_cons in Hs as [?|Hs]; [done|].
    apply list_elem_of_singleton in Hs as ->. done.
  - unfold suffixed. rewrite bool_decide_eq_false_2; [done|]. naive_solver.
Qed.

Lemma renamed_without_account_name (kvs : list (string * string)) (df : DataFrame) :
  NoDup (kvs.*1) → (¬ "account_name" ∈ kvs.*2) →
  "account_name" ∉ columns df →
  "account_name" ∉ columns (rename (list_to_map kvs) df).
Proof.
  intros Hnd Hv Hno (c & Hc & [Hin|[_ ->]]%rename_label)%has_label_after_rename;
    [|done..].
  apply Hv. apply list_elem_of_fmap. by exists (c, "account_name").
Qed.

Lemma renamed_has_label (kvs : list (string * string)) (df : DataFrame) (c t : string) :
  NoDup (kvs.*1) → (c, t) ∈ kvs → c ∈ columns df →
  t ∈ columns (rename (list_to_map kvs) df).
Proof.
  intros Hnd Hin Hc. apply has_label_after_rename. exists c. split; [done|].
  by apply rename_label_mapped.
Qed.

Lemma join_account_name_rectangular (child accounts joined : DataFrame) :
  join_account_name child accounts = Ok joined →
  rectangular child → rectangular joined.
Proof.
  intros Hjoin Hrect.
  destruct (join_account_name_sound _ _ _ Hjoin) as (ids & names & i & _ & _ & _ & Hrows).
  apply join_account_name_Ok in Hjoin as (? & ? & ? & _ & _ & _ & Heq).
  unfold rectangular in *. rewrite Forall_forall in Hrect. apply Forall_forall.
  intros row (r & name & Hr & -> & _)%Hrows.
  rewrite Heq. cbn [columns]. rewrite !length_app, length_fmap, (Hrect r Hr). done.
Qed.

Section Loaded.

Variable pd_read_csv : string → result DataFrame.
Variable pd_to_datetime : list value → result (list value).

Lemma opportunity_label_renamed (raw : DataFrame) :
  columns (rename (list_to_map
                     [("ID", "opportunity_id"); ("ACCOUNT_ID", "account_id");
                      ("AMOUNT", "amount"); ("PROBABILITY", "probability");
                      ("STAGE_NAME", "stage"); ("CLOSE_DATE", "close_date")]) raw)
  = opportunity_label <$> columns raw.
Proof.
  unfold rename. cbn [columns]. apply list_fmap_ext. intros _ c _.
  unfold opportunity_label. repeat case_decide; subst; try by vm_compute.
  apply rename_label_kept. cbn. set_solver.
Qed.

Lemma contact_label_renamed (raw : DataFrame) :
  columns (rename (list_to_map
                     [("ID", "contact_id"); ("ACCOUNT_ID", "account_id");
                      ("NAME", "contact_name"); ("EMAIL", "email")]) raw)
  = contact_label <$> columns raw.
Proof.
  unfold rename. cbn [columns]. apply list_fmap_ext. intros _ c _.
  unfold contact_label. repeat case_decide; subst; try by vm_compute.
  apply rename_label_kept. cbn. set_solver.
Qed.

(** X6.  When the opportunity and contact files have no account_name
    column of their own, the loaded tables carry the columns of their
    files, in the order of the file and each under the label the
    rename gives it (the other labels kept as they are), followed by
    account_name; in particular the raw columns of the documented
    schema arrive under the labels the views read. *)
Theorem load_data_columns (raw_opps raw_contacts accounts contacts opps tasks : DataFrame) :
  pd_read_csv "opportunities.csv" = Ok raw_opps →
  pd_read_csv "contacts.csv" = Ok raw_contacts →
  load_data pd_read_csv pd_to_datetime = Ok (accounts, contacts, opps, tasks) →
  "account_name" ∉ columns raw_opps →
  "account_name" ∉ columns raw_contacts →
  columns opps = (opportunity_label <$> columns raw_opps) ++ ["account_name"] ∧
  columns contacts = (contact_label <$> columns raw_contacts) ++ ["account_name"] ∧
  (∀ raw std,
     (raw, std) ∈ [("ID", "opportunity_id"); ("ACCOUNT_ID", "account_id");
                   ("AMOUNT", "amount"); ("PROBABILITY", "probability");
                   ("STAGE_NAME", "stage"); ("CLOSE_DATE", "close_date")] →
     raw ∈ columns raw_opps → std ∈ columns opps) ∧
  (∀ raw std,
     (raw, std) ∈ [("ID", "contact_id"); ("ACCOUNT_ID", "account_id");
                   ("NAME", "contact_name"); ("EMAIL", "email")] →
     raw ∈ columns raw_contacts → std ∈ columns contacts).
Proof.
  intros Hro Hrc (raw_a & raw_o & raw_c & raw_t & _ & Hro' & Hrc' & _ & _
                  & Hopps & Hcontacts & _)%load_data_Ok Hno Hnc.
  assert (raw_o = raw_opps) as -> by congruence.
  assert (raw_c = raw_contacts) as -> by congruence.
  apply standardize_opportunities_child in Hopps
    as (child & cd & Hjoin & Hcols & _ & _ & _).
  unfold standardize_contacts in Hcontacts.
  assert (columns opps = (opportunity_label <$> columns raw_opps) ++ ["account_name"])
    as Ho.
  { rewrite (join_account_name_plain_columns _ _ _ Hjoin), Hcols.
    - by rewrite opportunity_label_renamed.
    - rewrite Hcols. apply renamed_without_account_name; [by_computation..|done]. }
  assert (columns contacts = (contact_label <$> columns raw_contacts) ++ ["account_name"])
    as Hc.
  { rewrite (join_account_name_plain_columns _ _ _ Hcontacts).
    - by rewrite contact_label_renamed.
    - apply renamed_without_account_name; [by_computation..|done]. }
  split; [done|]. split; [done|]. split.
  - intros raw std Hin Hraw. rewrite Ho. apply elem_of_app. left.
    rewrite <- opportunity_label_renamed.
    apply (renamed_has_label _ _ raw); [by_computation|done..].
  - intros raw std Hin Hraw. rewrite Hc. apply elem_of_app. left.
    rewrite <- contact_label_renamed.
    apply (renamed_has_label _ _ raw); [by_computation|done..].
Qed.

(** X7.  The loader keeps tables rectangular: when every row of the
    opportunity and contact files has one cell per column, so has every
    row of the loaded tables. *)
Theorem load_data_rectangular (raw_opps raw_contacts accounts contacts opps tasks : DataFrame) :
  pd_read_csv "opportunities.csv" = Ok raw_opps →
  pd_read_csv "contacts.csv" = Ok raw_contacts →
  load_data pd_read_csv pd_to_datetime = Ok (accounts, contacts, opps, tasks) →
  rectangular raw_opps → rectangular raw_contacts →
  rectangular opps ∧ rectangular contacts.
Proof.
  intros Hro Hrc (raw_a & raw_o & raw_c & raw_t & _ & Hro' & Hrc' & _ & _
                  & Hopps & Hcontacts & _)%load_data_Ok Hrecto Hrectc.
  assert (raw_o = raw_opps) as -> by congruence.
  assert (raw_c = raw_contacts) as -> by congruence.
  apply standardize_opportunities_child in Hopps
    as (child & cd & Hjoin & Hcols & _ & _ & Hrows).
  split.
  - apply (join_account_name_rectangular _ _ _ Hjoin).
    unfold rectangular in *. rewrite Forall_forall in Hrecto. apply Forall_forall.
    intros r' (k & Hk)%list_elem_of_lookup_1.
    destruct (Hrows k r' Hk) as (r & d & Hr & ->).
    rewrite length_insert, Hcols. unfold rename. cbn [columns].
    rewrite length_fmap. apply Hrecto. by eapply list_elem_of_lookup_2.
  - apply (join_account_name_rectangular _ _ _ Hcontacts).
    unfold rectangular, rename in *. cbn [columns rows]. by rewrite length_fmap.
Qed.

(** X8.  A contact (or opportunity) file that already has an
    account_name column loses that label in the join: the loaded table
    has account_name_x and account_name_y and no account_name column. *)
Theorem load_data_account_name_clash (raw_contacts accounts contacts opps tasks : DataFrame) :
  pd_read_csv "contacts.csv" = Ok raw_contacts →
  load_data pd_read_csv pd_to_datetime = Ok (accounts, contacts, opps, tasks) →
  "account_name" ∈ columns raw_contacts →
  ("account_name" ∉ columns contacts) ∧
  "account_name_x" ∈ columns contacts ∧
  "account_name_y" ∈ columns contacts.
Proof.
  intros Hrc (raw_a & raw_o & raw_c & raw_t & _ & _ & Hrc' & _ & _
              & _ & Hcontacts & _)%load_data_Ok Hin.
  assert (raw_c = raw_contacts) as -> by congruence.
  unfold standardize_contacts in Hcontacts.
  set (child := rename _ raw_contacts) in Hcontacts.
  assert ("account_name" ∈ columns child) as Hchild.
  { apply has_label_after_rename. exists "account_name". split; [done|].
    apply rename_label_kept. by_computation. }
  apply join_account_name_Ok in Hcontacts as (ids & names & i & _ & _ & _ & ->).
  cbn [columns]. split; [|split].
  - rewrite elem_of_app, list_elem_of_fmap, list_elem_of_singleton.
    intros [(c & Hc & _)|Hc].
    + unfold suffixed in Hc. case_bool_decide as Hs.
      * destruct Hs as [_ Hs]. pairs_cases Hs.
      * subst c. apply Hs. split; [done|]. by_computation.
    + unfold suffixed in Hc. by rewrite bool_decide_eq_true_2 in Hc.
  - apply elem_of_app. left. apply list_elem_of_fmap. exists "account_name".
    split; [|done]. unfold suffixed. rewrite bool_decide_eq_true_2; [done|].
    split; [done|]. by_computation.
  - apply elem_of_app. right. apply list_elem_of_singleton.
    unfold suffixed. by rewrite bool_decide_eq_true_2.
Qed.

End Loaded.

Lemma load_data_columns_witness :
  columns (demo_table opps_df)
  = ["opportunity_id"; "account_id"; "amount"; "probability"; "stage"; "close_date";
     "account_name"] ∧
  columns (demo_table contacts_df)
  = ["contact_id"; "account_id"; "contact_name"; "email"; "account_name"].
Proof.
  destruct (load_data_columns demo_read_csv demo_to_datetime
              opportunities_csv contacts_csv
              (demo_table accounts_df) (demo_table contacts_df)
              (demo_table opps_df) (demo_table tasks_df))
    as (Hopps & Hcontacts & _);
    [reflexivity | reflexivity | by vm_compute | by_computation | by_computation |].
  split; [exact Hopps|exact Hcontacts].
Defined.

Lemma load_data_rectangular_witness :
  rectangular (demo_table opps_df) ∧ rectangular (demo_table contacts_df).
Proof.
  apply (load_data_rectangular demo_read_csv demo_to_datetime
           opportunities_csv contacts_csv
           (demo_table accounts_df) (demo_table contacts_df)
           (demo_table opps_df) (demo_table tasks_df));
    [reflexivity | reflexivity | by vm_compute | by_computation | by_computation].
Defined.

Lemma load_data_account_name_clash_witness :
  ∃ accounts contacts opps tasks,
    load_data demo_read_csv_named demo_to_datetime = Ok (accounts, contacts, opps, tasks) ∧
    ("account_name" ∉ columns contacts) ∧
    "account_name_x" ∈ columns contacts ∧
    "account_name_y" ∈ columns contacts.
Proof.
  destruct (load_data demo_read_csv_named demo_to_datetime)
    as [[[[accounts contacts] opps] tasks]|e] eqn:Hload; [|by vm_compute in Hload].
  exists accounts, contacts, opps, tasks. split; [done|].
  apply (load_data_account_name_clash demo_read_csv_named demo_to_datetime
           contacts_named_csv accounts contacts opps tasks);
    [reflexivity | exact Hload | by_computation].
Defined.

(** * Further properties of the views *)

(** ** The order of labels *)

#[global] Instance value_le_total : Total value_le.
Proof.
  intros x y. unfold value_le.
  destruct x as [|a|[]|a|a], y as [|b|[]|b|b]; simpl; try (by left); try (by right).
  - destruct (total Qcle a b); [left|right]; by apply bool_decide_pack.
  - destruct (total String.le a b); [left|right]; by apply bool_decide_pack.
  - destruct (total Z.le a b); [left|right]; by apply bool_decide_pack.
Qed.

#[global] Instance value_le_trans : Transitive value_le.
Proof.
  intros x y z. unfold value_le.
  destruct x as [|a|[]|a|a], y as [|b|[]|b|b], z as [|c|[]|c|c]; simpl; try done;
    intros Hab%bool_decide_unpack Hbc%bool_decide_unpack;
    apply bool_decide_pack; by etrans.
Qed.

Lemma value_le_Str (a b : string) : value_le (Str a) (Str b) ↔ String.le a b.
Proof. unfold value_le. simpl. apply bool_decide_spec. Qed.

Lemma StronglySorted_lookup_le {A} (R : relation A) (l : list A) :
  StronglySorted R l →
  ∀ i j x y, i < j → l !! i = Some x → l !! j = Some y → R x y.
Proof.
  induction 1 as [|z l Hl IH Hall]; intros i j x y Hij Hi Hj; [done|].
  destruct j as [|j]; [lia|]. destruct i as [|i]; simplify_eq/=.
  - rewrite Forall_forall in Hall. apply Hall. by eapply list_elem_of_lookup_2.
  - eapply (IH i j); [lia|done..].
Qed.

(** X9.  The options of an account selector are the account names that
    occur in the table, each once, none missing, in ascending order
    (strings by code point). *)
Theorem selector_options (names options : list value) :
  sorted (unique (dropna names)) = Ok options →
  NoDup options ∧
  (∀ v, v ∈ options ↔ v ≠ NaN ∧ v ∈ names) ∧
  StronglySorted value_le options ∧
  (∀ i j a b, i < j → options !! i = Some (Str a) → options !! j = Some (Str b) →
     String.le a b).
Proof.
  intros Hsorted. pose proof (sorted_Ok _ _ Hsorted) as Hperm.
  assert (StronglySorted value_le options) as Hss.
  { unfold sorted in Hsorted. destruct (unique (dropna names)) as [|x xs]; [|
      destruct (forallb _ _); [|done]]; injection Hsorted as <-.
    - constructor.
    - apply StronglySorted_merge_sort; apply _. }
  split; [rewrite Hperm; apply NoDup_unique|].
  split; [intros v; by apply elem_of_options|].
  split; [done|].
  intros i j a b Hij Hi Hj.
  by apply value_le_Str, (StronglySorted_lookup_le _ _ Hss i j).
Qed.

Lemma selector_options_witness :
  NoDup [Str "Acme"; Str "Bolt"; Str "Core"] ∧
  (∀ v, v ∈ [Str "Acme"; Str "Bolt"; Str "Core"] ↔
        v ≠ NaN ∧ v ∈ [Str "Core"; NaN; Str "Acme"; Str "Bolt"; Str "Acme"]) ∧
  StronglySorted value_le [Str "Acme"; Str "Bolt"; Str "Core"] ∧
  (∀ i j a b, i < j →
     [Str "Acme"; Str "Bolt"; Str "Core"] !! i = Some (Str a) →
     [Str "Acme"; Str "Bolt"; Str "Core"] !! j = Some (Str b) →
     String.le a b).
Proof.
  apply (selector_options [Str "Core"; NaN; Str "Acme"; Str "Bolt"; Str "Acme"]).
  by vm_compute.
Defined.

(** ** Meeting preparation *)

Lemma where_eq_NaN (c : string) (df selected : DataFrame) :
  where_eq c NaN df = Ok selected → rows selected = [] ∧ columns selected = columns df.
Proof.
  intros (i & _ & ->)%where_eq_Ok. split; [|done]. cbn [rows].
  apply filter_none. intros r _. by rewrite eq_py_NaN.
Qed.

Section MeetingPrepMore.

Variable to_string : DataFrame → string.
Variable repr : value → string.
Variable chat_completions_create : Groq → Request → result ChatCompletion.

(** X10.  Every account the meeting preparation offers has at least one
    opportunity, so the opportunity section of its brief is never the
    rendering of an empty selection; when no account is offered (no
    opportunity carries an account name) the button still sends a
    brief, for no account, with an empty opportunity selection and the
    "No contacts" marker. *)
Theorem meeting_prep_offered_account (client : Groq) (w : widgets) (σ : store)
    (opps contacts : DataFrame) (options : list value) :
  σ !! opps_df = Some opps →
  σ !! contacts_df = Some contacts →
  (names ← getitem "account_name" opps; sorted (unique (dropna names))) = Ok options →
  (∀ offered, offered ∈ options →
     ∃ selected, where_attr_eq "account_name" offered opps = Ok selected ∧
                 rows selected ≠ []) ∧
  (options ≠ [] → selectbox NaN options (prep_account_picked w) ∈ options) ∧
  (options = [] → brief_clicked w = true →
   Forall (λ c, c ∈ columns opps) ["stage"; "amount"; "probability"; "close_date"] →
   "account_name" ∈ columns contacts →
   ∃ shown,
     columns shown = ["stage"; "amount"; "probability"; "close_date"] ∧
     rows shown = [] ∧
     meeting_prep to_string repr chat_completions_create client w σ
     = (Ok [StSelectbox "Select Account" [];
            StMarkdown "### 📋 Meeting Brief";
            StMarkdown (ask_ai chat_completions_create client
                          (brief_prompt repr NaN (to_string shown) "No contacts"))], σ)).
Proof.
  intros Hopps Hcontacts Hoptions.
  pose proof Hoptions as (names & Hnames & Hsorted)%bind_Ok.
  pose proof (getitem_in_columns _ _ _ Hnames) as Han.
  split; [|split].
  - intros offered Hin.
    destruct (where_eq_total "account_name" offered opps Han) as (selected & Hsel & _).
    exists selected. split; [by apply where_attr_eq_Ok|].
    by eapply where_eq_option.
  - apply selectbox_elem_of.
  - intros -> Hclick Hcols Hcn.
    destruct (where_eq_total "account_name" NaN opps Han) as (none & Hnone & Hnc).
    destruct (where_eq_total "account_name" NaN contacts Hcn) as (nobody & Hnobody & _).
    pose proof (where_eq_NaN _ _ _ Hnone) as [Hrows _].
    pose proof (where_eq_NaN _ _ _ Hnobody) as [Hrows' _].
    destruct (getitems_total ["stage"; "amount"; "probability"; "close_date"] none)
      as (shown & Hshown & Hsc & Hlen & _); [by rewrite Hnc|].
    exists shown. split; [done|]. split.
    { unfold len in Hlen. rewrite Hrows in Hlen. by destruct (rows shown). }
    apply where_attr_eq_Ok in Hnone, Hnobody.
    unfold meeting_prep.
    rewrite run_bind, (run_deref _ _ _ Hopps), run_bind, run_lift, Hoptions.
    rewrite selectbox_nil, Hclick.
    rewrite run_bind, run_lift, Hnone, run_bind, (run_deref _ _ _ Hcontacts).
    rewrite run_bind, run_lift, Hnobody, run_bind, run_lift, Hshown.
    cbn -[brief_prompt getitems]. rewrite run_bind, run_lift.
    unfold empty. rewrite Hrows'. done.
Qed.

End MeetingPrepMore.

Lemma meeting_prep_offered_account_witness :
  ∃ shown,
    columns shown = ["stage"; "amount"; "probability"; "close_date"] ∧
    rows shown = [] ∧
    meeting_prep demo_to_string demo_repr echo {| api_key := Some "gsk" |}
      demo_widgets empty_opps_store
    = (Ok [StSelectbox "Select Account" [];
           StMarkdown "### 📋 Meeting Brief";
           StMarkdown (ask_ai echo {| api_key := Some "gsk" |}
                         (brief_prompt demo_repr NaN (demo_to_string shown) "No contacts"))],
       empty_opps_store).
Proof.
  apply (meeting_prep_offered_account demo_to_string demo_repr echo
           {| api_key := Some "gsk" |} demo_widgets empty_opps_store
           empty_opps (demo_table contacts_df) []);
    first [reflexivity | by_computation].
Defined.

(** ** The outreach generator *)

Section OutreachMore.

Variable repr : value → string.
Variable chat_completions_create : Groq → Request → result ChatCompletion.

(** X11.  The contact the outreach generator writes to is a contact of
    the chosen account: some row of the contact table carries both the
    chosen account name and the chosen contact name.  The tone is one
    of the three offered and enters the prompt in lower case; the email
    is generated only with the button pressed and a non-empty purpose,
    from a prompt that names this tone, contact and account and carries
    the purpose as typed. *)
Theorem outreach_contact_of_account (client : Groq) (w : widgets) (σ : store)
    (contacts : DataFrame) (options : list value) :
  σ !! contacts_df = Some contacts →
  (names ← getitem "account_name" contacts; sorted (unique (dropna names))) = Ok options →
  "contact_name" ∈ columns contacts →
  options ≠ [] →
  let account := selectbox NaN options (outreach_account_picked w) in
  ∃ i j contact_options contact tone,
    column_loc "account_name" contacts = Some i ∧
    column_loc "contact_name" contacts = Some j ∧
    contact_options
    = cell j <$> filter (λ r, eq_py (cell i r) account = true) (rows contacts) ∧
    contact = selectbox NaN contact_options (contact_picked w) ∧
    (∃ r, r ∈ rows contacts ∧ cell i r = account ∧ cell j r = contact) ∧
    tone = selectbox "" ["Professional"; "Friendly"; "Executive"] (tone_picked w) ∧
    lower tone ∈ ["professional"; "friendly"; "executive"] ∧
    outreach repr chat_completions_create client w σ
    = (Ok ([StSelectbox "Account" options;
            StSelectbox "Contact" contact_options;
            StSelectbox "Tone" [Str "Professional"; Str "Friendly"; Str "Executive"]]
           ++ (if email_clicked w && negb (bool_decide (purpose w = ""))
               then [StTextArea "Generated Email"
                       (ask_ai chat_completions_create client
                          (email_prompt repr tone contact account (purpose w)))]
               else [])), σ) ∧
    email_prompt repr tone contact account (purpose w)
    = (nl +:+ ind +:+ "Write a ") +:+ lower tone +:+ " sales email to "
      +:+ py_str repr contact +:+ " at " +:+ py_str repr account
      +:+ ("." +:+ nl +:+ ind +:+ "Purpose: ") +:+ purpose w
      +:+ (nl +:+ ind
           +:+ "Structure: Subject line + Greeting + Body + Call-to-action + Sign-off"
           +:+ nl +:+ ind +:+ "Keep under 150 words. Conversational tone."
           +:+ nl +:+ ind +:+ "From: Your Name, Sales Manager at Your Company"
           +:+ nl +:+ ind).
Proof.
  intros Hσ Hoptions Hcn Hsome account.
  pose proof Hoptions as (names & Hnames & Hsorted)%bind_Ok.
  pose proof Hnames as (i & Hi & ->)%getitem_Ok.
  pose proof (column_loc_is_Some _ _ Hcn) as [j Hj].
  pose proof (selectbox_elem_of NaN options (outreach_account_picked w) Hsome) as Hin.
  fold account in Hin.
  pose proof Hin as [Hnan _]%(elem_of_options _ _ _ Hsorted).
  set (matching := filter (λ r, eq_py (cell i r) account = true) (rows contacts)).
  assert (where_eq "account_name" account contacts
          = Ok {| columns := columns contacts; rows := matching |}) as Hwhere
    by (unfold where_eq; by rewrite Hi).
  assert (matching ≠ []) as Hrows
    by (eapply (where_eq_option _ _ _ _ _ _ Hnames Hsorted Hin Hwhere)).
  assert (getitem "contact_name" {| columns := columns contacts; rows := matching |}
          = Ok (cell j <$> matching)) as Hget
    by (apply getitem_Ok; by exists j).
  set (contact := selectbox NaN (cell j <$> matching) (contact_picked w)).
  set (tone := selectbox "" ["Professional"; "Friendly"; "Executive"] (tone_picked w)).
  exists i, j, (cell j <$> matching), contact, tone.
  split; [done|]. split; [done|]. split; [done|]. split; [done|].
  split; [|split; [done|split; [|split; [|reflexivity]]]].
  - assert (contact ∈ cell j <$> matching) as (r & Hr & [Heq Hrin]%list_elem_of_filter
                                                 )%list_elem_of_fmap.
    { apply selectbox_elem_of. by destruct matching. }
    exists r. split; [done|]. split; [|done]. by apply eq_py_true in Heq.
  - unfold tone, selectbox.
    destruct (tone_picked w) as [|[|[|k]]]; by_computation.
  - unfold outreach.
    rewrite run_bind, (run_deref _ _ _ Hσ), run_bind, run_lift, Hoptions.
    fold account. rewrite run_bind, run_lift, Hwhere, run_bind, run_lift.
    assert (empty {| columns := columns contacts; rows := matching |} = false) as ->.
    { apply empty_false_iff; cbn [columns rows]; [|done].
      intros Hnil. rewrite Hnil in Hcn. by apply elem_of_nil in Hcn. }
    cbn -[email_prompt getitem]. rewrite Hget. done.
Qed.

End OutreachMore.

Lemma outreach_contact_of_account_witness :
  ∃ contact tone,
    contact = Str "Ann" ∧ tone = "Friendly" ∧
    outreach demo_repr echo {| api_key := Some "gsk" |} demo_widgets demo_store
    = (Ok [StSelectbox "Account" [Str "Acme"];
           StSelectbox "Contact" [Str "Ann"];
           StSelectbox "Tone" [Str "Professional"; Str "Friendly"; Str "Executive"];
           StTextArea "Generated Email"
             (ask_ai echo {| api_key := Some "gsk" |}
                (email_prompt demo_repr tone contact (Str "Acme")
                   "Schedule discovery call"))],
       demo_store).
Proof.
  destruct (outreach_contact_of_account demo_repr echo {| api_key := Some "gsk" |}
              demo_widgets demo_store (demo_table contacts_df) [Str "Acme"])
    as (i & j & contact_options & contact & tone
        & Hi & Hj & Hoptions & Hcontact & _ & Htone & _ & Hrun & _);
    [reflexivity | by vm_compute | by_computation | done |].
  vm_compute in Hi, Hj. injection Hi as <-. injection Hj as <-.
  vm_compute in Hoptions. subst contact_options.
  vm_compute in Hcontact, Htone. subst contact tone.
  exists (Str "Ann"), "Friendly". split; [done|]. split; [done|]. exact Hrun.
Defined.

(** * What the views depend on *)

Lemma reads_two_ret {A} (a : A) : reads_two_tables (mret a).
Proof. by intros σ1 σ2 _. Qed.

Lemma reads_two_lift {A} (r : result A) : reads_two_tables (lift r).
Proof. by intros σ1 σ2 _. Qed.

Lemma reads_two_deref_opps : reads_two_tables (deref opps_df).
Proof. intros σ1 σ2 [_ H]. unfold deref. rewrite H. by destruct (σ2 !! opps_df). Qed.

Lemma reads_two_deref_contacts : reads_two_tables (deref contacts_df).
Proof. intros σ1 σ2 [H _]. unfold deref. rewrite H. by destruct (σ2 !! contacts_df). Qed.

Lemma reads_two_bind {A B} (m : M A) (f : A → M B) :
  read_only m → reads_two_tables m → (∀ a, reads_two_tables (f a)) →
  reads_two_tables (m ≫= f).
Proof.
  intros Hro Hm Hf σ1 σ2 Hσ. rewrite !run_bind.
  pose proof (Hro σ1) as H1. pose proof (Hro σ2) as H2. pose proof (Hm σ1 σ2 Hσ) as H12.
  destruct (m σ1) as [r1 σ1'], (m σ2) as [r2 σ2']. simpl in *. subst.
  destruct r2 as [a|e]; [by apply Hf|done].
Qed.

Lemma reads_two_if {A} (b : bool) (m1 m2 : M A) :
  reads_two_tables m1 → reads_two_tables m2 → reads_two_tables (if b then m1 else m2).
Proof. by destruct b. Qed.

Create HintDb reads_two.
#[local] Hint Resolve reads_two_ret reads_two_lift reads_two_deref_opps
  reads_two_deref_contacts read_only_ret read_only_lift read_only_deref : reads_two.

Ltac reads_two :=
  repeat first
    [ apply reads_two_bind; [| |intros ?]
    | apply reads_two_if
    | solve [auto with reads_two] ].

Lemma same_tables_app (σ1 σ2 fresh1 fresh2 : store) :
  same_tables σ1 σ2 → is_Some (σ1 !! opps_df) →
  same_tables (σ1 ++ fresh1) (σ2 ++ fresh2).
Proof.
  intros [Hc Ho] Hsome.
  assert (opps_df < length σ1) as H1 by (by apply lookup_lt_is_Some).
  assert (opps_df < length σ2) as H2 by (apply lookup_lt_is_Some; by rewrite <- Ho).
  unfold same_tables, contacts_df, opps_df in *.
  rewrite !lookup_app_l by lia. done.
Qed.

Section Dependence.

Variable to_string : DataFrame → string.
Variable format_money : value → string.
Variable amount_float64 : bool.
Variable repr : value → string.
Variable chat_completions_create : Groq → Request → result ChatCompletion.

Lemma assistant_reads_two client w :
  reads_two_tables (assistant to_string chat_completions_create client w).
Proof. unfold assistant. reads_two. Qed.

Lemma meeting_prep_reads_two client w :
  reads_two_tables (meeting_prep to_string repr chat_completions_create client w).
Proof. unfold meeting_prep. reads_two. Qed.

Lemma outreach_reads_two client w :
  reads_two_tables (outreach repr chat_completions_create client w).
Proof. unfold outreach. reads_two. Qed.

(** The dashboard on a store that holds the opportunity table. *)
Lemma dashboard_result client w σ opps :
  σ !! opps_df = Some opps →
  (dashboard to_string format_money amount_float64 chat_completions_create client w σ).1
  = (dashboard to_string format_money amount_float64 chat_completions_create client w [opps; opps; opps]).1.
Proof.
  intros Hσ.
  assert ([opps; opps; opps] !! opps_df = Some opps) as Hτ by done.
  unfold dashboard.
  rewrite !run_bind, (run_df_copy _ σ _ Hσ), (run_df_copy _ _ _ Hτ).
  rewrite !run_bind, (run_deref_fresh σ), (run_deref_fresh [opps; opps; opps]).
  rewrite !run_bind, !run_lift.
  destruct (amount ← getitem "amount" opps;
            probability ← getitem "probability" opps;
            share ← series_div probability (Q2Qc 100);
            series_mul amount share) as [s|e]; [|done].
  rewrite !run_bind, (run_df_setitem_fresh σ), (run_df_setitem_fresh [opps; opps; opps]).
  rewrite !run_bind, (run_deref_old _ σ _ _ Hσ), (run_deref_old _ [opps; opps; opps] _ _ Hτ).
  rewrite !run_bind, !run_lift.
  destruct (getitem "amount" opps ≫= series_sum amount_float64) as [total|e]; [|done].
  rewrite !run_bind, (run_deref_fresh σ), (run_deref_fresh [opps; opps; opps]).
  rewrite !run_bind, !run_lift.
  destruct (getitem "weighted_amount" (setitem "weighted_amount" s opps)
              ≫= series_sum true)
    as [weighted_total|e]; [|done].
  rewrite !run_bind, !run_lift.
  destruct (groupby_sum amount_float64 "stage" "amount" opps) as [stage_summary|e]; done.
Qed.

(** X12.  The views read the opportunity and contact tables and
    nothing else of the store: what they show, or the exception they
    raise, is the same on any two stores that hold the same two
    tables; the accounts and tasks tables are loaded but never read. *)
Theorem views_read_two_tables (client : Groq) (w : widgets) (σ1 σ2 : store) :
  σ1 !! contacts_df = σ2 !! contacts_df →
  σ1 !! opps_df = σ2 !! opps_df →
  (views to_string format_money amount_float64 repr chat_completions_create client w σ1).1
  = (views to_string format_money amount_float64 repr chat_completions_create client w σ2).1.
Proof.
  intros Hc Ho. unfold views. rewrite !run_bind.
  destruct (dashboard_store to_string format_money amount_float64 chat_completions_create client w σ1)
    as (fresh1 & Hs1 & _).
  destruct (dashboard_store to_string format_money amount_float64 chat_completions_create client w σ2)
    as (fresh2 & Hs2 & _).
  assert ((dashboard to_string format_money amount_float64 chat_completions_create client w σ1).1
          = (dashboard to_string format_money amount_float64 chat_completions_create client w σ2).1)
    as Hr.
  { destruct (σ1 !! opps_df) as [opps|] eqn:H1.
    - rewrite (dashboard_result client w σ1 opps H1).
      by rewrite (dashboard_result client w σ2 opps).
    - unfold dashboard. rewrite !run_bind. unfold df_copy.
      by rewrite H1, <- Ho. }
  assert (∀ tab0, (dashboard to_string format_money amount_float64 chat_completions_create
                     client w σ1).1 = Ok tab0 → is_Some (σ1 !! opps_df)) as Hsome.
  { intros tab0. destruct (σ1 !! opps_df) eqn:H1; [by eexists|].
    unfold dashboard. rewrite run_bind. unfold df_copy. by rewrite H1. }
  destruct (dashboard _ _ _ _ _ _ σ1) as [r1 σ1'],
           (dashboard _ _ _ _ _ _ σ2) as [r2 σ2']. simpl in *. subst.
  destruct r2 as [tab0|e]; [|done].
  assert (reads_two_tables
            (tab1 ← assistant to_string chat_completions_create client w;
             tab2 ← meeting_prep to_string repr chat_completions_create client w;
             tab3 ← outreach repr chat_completions_create client w;
             mret (tab0 ++ tab1 ++ tab2 ++ tab3))) as Hrest.
  { apply reads_two_bind;
      [apply assistant_read_only|apply assistant_reads_two|intros tab1].
    apply reads_two_bind;
      [apply meeting_prep_read_only|apply meeting_prep_reads_two|intros tab2].
    apply reads_two_bind;
      [apply outreach_read_only|apply outreach_reads_two|intros tab3].
    apply reads_two_ret. }
  apply Hrest, same_tables_app; [done|]. by apply (Hsome tab0).
Qed.

End Dependence.

Lemma views_read_two_tables_witness :
  (views demo_to_string demo_format_money false demo_repr echo {| api_key := Some "gsk" |}
     demo_widgets demo_store).1
  = (views demo_to_string demo_format_money false demo_repr echo {| api_key := Some "gsk" |}
       demo_widgets
       [{| columns := []; rows := [] |}; demo_table contacts_df; demo_table opps_df]).1.
Proof.
  apply (views_read_two_tables demo_to_string demo_format_money false demo_repr echo
           {| api_key := Some "gsk" |} demo_widgets); reflexivity.
Defined.

(** * The endpoint and the views *)

Lemma end_alike_refl {A} (m : M A) : end_alike m m.
Proof. by intros σ. Qed.

Lemma end_alike_ret {A} (a1 a2 : A) : end_alike (mret a1) (mret a2).
Proof. by intros σ. Qed.

Lemma end_alike_bind {A B} (m : M A) (f1 f2 : A → M B) :
  (∀ a, end_alike (f1 a) (f2 a)) → end_alike (m ≫= f1) (m ≫= f2).
Proof.
  intros Hf σ. rewrite !run_bind. destruct (m σ) as [[a|e] σ']; [apply Hf|done].
Qed.

Lemma end_alike_if {A} (b : bool) (m1 m2 n1 n2 : M A) :
  end_alike m1 n1 → end_alike m2 n2 →
  end_alike (if b then m1 else m2) (if b then n1 else n2).
Proof. by destruct b. Qed.

Lemma end_alike_binds {A B} (m1 m2 : M A) (f1 f2 : A → M B) :
  end_alike m1 m2 → (∀ a1 a2, end_alike (f1 a1) (f2 a2)) →
  end_alike (m1 ≫= f1) (m2 ≫= f2).
Proof.
  intros Hm Hf σ. rewrite !run_bind. destruct (Hm σ) as [Hr Hs].
  destruct (m1 σ) as [[a1|e1] σ1], (m2 σ) as [[a2|e2] σ2];
    simpl in *; subst; try done.
  apply Hf.
Qed.

Ltac end_alike :=
  repeat first
    [ apply end_alike_ret
    | apply end_alike_bind; intros ?
    | apply end_alike_if ].

Section Endpoint.

Variable to_string : DataFrame → string.
Variable format_money : value → string.
Variable amount_float64 : bool.
Variable repr : value → string.

(** X13.  No view fails because of the completion endpoint: with any
    two endpoints the views end in the same store and either both
    return or both raise the same exception, so an endpoint that raises
    never turns a page that renders into one that crashes. *)
Theorem views_whatever_the_endpoint
    (endpoint1 endpoint2 : Groq → Request → result ChatCompletion)
    (client : Groq) (w : widgets) (σ : store)
    (tables : DataFrame * DataFrame * DataFrame * DataFrame) :
  (outcome (views to_string format_money amount_float64 repr endpoint1 client w σ).1
   = outcome (views to_string format_money amount_float64 repr endpoint2 client w σ).1 ∧
   (views to_string format_money amount_float64 repr endpoint1 client w σ).2
   = (views to_string format_money amount_float64 repr endpoint2 client w σ).2) ∧
  (∀ e, render to_string format_money amount_float64 repr endpoint1 client w tables = Crashed e ↔
        render to_string format_money amount_float64 repr endpoint2 client w tables = Crashed e).
Proof.
  assert (end_alike (views to_string format_money amount_float64 repr endpoint1 client w)
                    (views to_string format_money amount_float64 repr endpoint2 client w)) as Halike.
  { unfold views.
    apply end_alike_binds; [unfold dashboard; end_alike|intros tab0 tab0'].
    apply end_alike_binds; [unfold assistant; end_alike|intros tab1 tab1'].
    apply end_alike_binds; [unfold meeting_prep; end_alike|intros tab2 tab2'].
    apply end_alike_binds; [unfold outreach; end_alike|intros tab3 tab3'].
    apply end_alike_ret. }
  split; [apply Halike|].
  intros e. unfold render. destruct tables as [[[accounts contacts] opps] tasks].
  destruct (Halike [accounts; contacts; opps; tasks]) as [Hr _].
  destruct (views _ _ _ _ endpoint1 _ _ _) as [[shown1|e1] σ1],
           (views _ _ _ _ endpoint2 _ _ _) as [[shown2|e2] σ2];
    simpl in Hr; simplify_eq; done.
Qed.

End Endpoint.

(** * Reruns of the script *)

Section Reruns.

Variable pd_read_csv : string → result DataFrame.
Variable pd_to_datetime : list value → result (list value).
Variable to_string : DataFrame → string.
Variable format_money : value → string.
Variable amount_float64 : bool.
Variable repr : value → string.
Variable os_getenv : string → option string.
Variable st_secrets_get : string → result (option string).
Variable chat_completions_create : Groq → Request → result ChatCompletion.

Local Abbreviation run :=
  (script pd_read_csv pd_to_datetime to_string format_money amount_float64 repr
     os_getenv st_secrets_get chat_completions_create).
Local Abbreviation runs :=
  (reruns pd_read_csv pd_to_datetime to_string format_money amount_float64 repr
     os_getenv st_secrets_get chat_completions_create).

(** X14.  With the files loading and a key available, any number of
    runs of the script, from a process that has no client yet,
    constructs the client exactly once, on the first run, and renders
    every page with that one client. *)
Theorem client_constructed_once
    (tables : DataFrame * DataFrame * DataFrame * DataFrame)
    (shown : list element) (client : Groq) (w : widgets) (ws : list widgets) :
  load_data pd_read_csv pd_to_datetime = Ok tables →
  get_groq_client_body os_getenv st_secrets_get = (shown, Return client) →
  runs (w :: ws) {| client_cache := None; constructed := 0 |}
  = ((λ w, render to_string format_money amount_float64 repr chat_completions_create client w tables)
       <$> (w :: ws),
     {| client_cache := Some client; constructed := 1 |}).
Proof.
  intros Hload Hbody.
  assert (run w {| client_cache := None; constructed := 0 |}
          = (render to_string format_money amount_float64 repr chat_completions_create client w tables,
             {| client_cache := Some client; constructed := 1 |})) as Hfirst.
  { unfold script. rewrite Hload. unfold get_groq_client. cbn [client_cache].
    by rewrite Hbody. }
  cbn [reruns]. rewrite Hfirst.
  rewrite (reruns_cached _ _ _ _ _ _ _ _ _ ws
             {| client_cache := Some client; constructed := 1 |} client eq_refl).
  by rewrite Hload.
Qed.

(** X15.  When the loader raises, every run of the script ends with
    that exception before the credential is looked up: no client is
    constructed, the session is left as it was, and the outcome does
    not depend on the environment or the secret store. *)
Theorem failed_load_constructs_nothing (e : exn) (ws : list widgets) (s : session) :
  load_data pd_read_csv pd_to_datetime = Raise e →
  runs ws s = ((λ _, Crashed e) <$> ws, s).
Proof.
  intros Hload. induction ws as [|w ws IH]; [done|].
  cbn [reruns]. unfold script at 1. rewrite Hload, IH. done.
Qed.

End Reruns.

Lemma client_constructed_once_witness :
  (reruns demo_read_csv demo_to_datetime demo_to_string demo_format_money false demo_repr
     no_env secret_store echo [demo_widgets; demo_widgets] fresh_session).2
  = {| client_cache := Some {| api_key := Some "gsk_secret" |}; constructed := 1 |}.
Proof.
  destruct (load_data demo_read_csv demo_to_datetime) as [tables|e] eqn:Hload;
    [|by vm_compute in Hload].
  unfold fresh_session.
  by rewrite (client_constructed_once demo_read_csv demo_to_datetime demo_to_string
                demo_format_money false demo_repr no_env secret_store echo tables []
                {| api_key := Some "gsk_secret" |} demo_widgets [demo_widgets]
                Hload eq_refl).
Defined.

Lemma failed_load_constructs_nothing_witness :
  reruns (demo_read_csv_with accounts_csv opportunities_undated_csv) demo_to_datetime
    demo_to_string demo_format_money false demo_repr no_env secret_store echo
    [demo_widgets; demo_widgets] fresh_session
  = ([Crashed (KeyError "close_date"); Crashed (KeyError "close_date")], fresh_session).
Proof.
  apply (failed_load_constructs_nothing
           (demo_read_csv_with accounts_csv opportunities_undated_csv) demo_to_datetime
           demo_to_string demo_format_money false demo_repr no_env secret_store echo
           (KeyError "close_date") [demo_widgets; demo_widgets] fresh_session).
  by vm_compute.
Defined.

(** * Views on well-formed tables *)

Lemma sorted_total (names : list value) :
  Forall (λ v, is_text v = true) names →
  ∃ options, sorted (unique (dropna names)) = Ok options.
Proof.
  intros Htext. unfold sorted.
  destruct (unique (dropna names)) as [|x xs] eqn:E; [by eexists|].
  assert (∀ y, y ∈ x :: xs → ∃ s, y = Str s) as Hstr.
  { intros y Hy. rewrite <- E in Hy.
    apply elem_of_unique, elem_of_dropna in Hy as [Hnan Hy].
    rewrite Forall_forall in Htext. specialize (Htext y Hy).
    destruct y; try done. by eexists. }
  assert (forallb (same_kind x) (x :: xs) = true) as ->; [|by eexists].
  apply Is_true_true, forallb_True, Forall_forall. intros y Hy.
  destruct (Hstr x) as [s ->]; [left|]. by destruct (Hstr y Hy) as [s' ->].
Qed.

Section Total.

Variable to_string : DataFrame → string.
Variable format_money : value → string.
Variable amount_float64 : bool.
Variable repr : value → string.
Variable chat_completions_create : Groq → Request → result ChatCompletion.

Lemma dashboard_total client w σ opps amounts probabilities :
  σ !! opps_df = Some opps →
  rectangular opps →
  getitem "amount" opps = Ok amounts →
  getitem "probability" opps = Ok probabilities →
  Forall (λ v, is_numeric v = true) amounts →
  Forall (λ v, is_numeric v = true) probabilities →
  "stage" ∈ columns opps →
  ∃ stage_summary total weighted_total fresh,
    groupby_sum amount_float64 "stage" "amount" opps = Ok stage_summary ∧
    dashboard to_string format_money amount_float64 chat_completions_create client w σ
    = (Ok ([StMetric "Total Pipeline" (MStr ("€" +:+ format_money total));
            StMetric "Weighted Pipeline" (MStr ("€" +:+ format_money weighted_total));
            StMetric "Active Deals" (MInt (len opps));
            StPlotlyChart stage_summary "stage" "amount" "Pipeline by Stage"]
           ++ (if insights_clicked w
               then [StSuccess (ask_ai chat_completions_create client
                                  (insights_prompt to_string stage_summary))]
               else [])),
       σ ++ fresh).
Proof.
  intros Hσ Hrect Hamounts Hprobs Hna Hnp Hstage.
  pose proof (getitem_length _ _ _ Hamounts) as Hla.
  pose proof (getitem_length _ _ _ Hprobs) as Hlp.
  assert (length (zip_with weighted amounts probabilities) = len opps) as Hlw.
  { rewrite length_zip_with_l_eq; [done|]. by rewrite Hla, Hlp. }
  pose proof (getitem_setitem "weighted_amount" _ opps Hrect Hlw) as Hget.
  pose proof (weighted_series_numeric _ _ Hna Hnp) as Hnw.
  apply column_loc_is_Some in Hstage as [i Hi].
  pose proof Hamounts as (j & Hj & Heq)%getitem_Ok.
  pose proof (groupby_sum_Ok amount_float64 "stage" "amount" opps i j Hi Hj) as Hgroup.
  rewrite <- Heq in Hgroup. specialize (Hgroup Hna).
  destruct (series_sum_numeric amount_float64 _ Hna) as [total Htotal].
  destruct (series_sum_numeric true _ Hnw) as [weighted_total Hweighted].
  eexists _, total, weighted_total, _. split; [exact Hgroup|]. unfold dashboard.
  rewrite run_bind, (run_df_copy _ _ _ Hσ), run_bind, run_deref_fresh.
  rewrite run_bind, run_lift, Hamounts. cbn [mbind result_bind]. rewrite Hprobs.
  cbn [mbind result_bind].
  rewrite weighted_series by (done || by rewrite Hla, Hlp).
  rewrite run_bind, run_df_setitem_fresh.
  rewrite run_bind, (run_deref_old _ _ _ _ Hσ).
  rewrite run_bind, run_lift, Hamounts. cbn [mbind result_bind].
  rewrite Htotal.
  rewrite run_bind, run_deref_fresh.
  rewrite run_bind, run_lift, Hget. cbn [mbind result_bind].
  rewrite Hweighted.
  rewrite run_bind, run_lift, Hgroup.
  reflexivity.
Qed.

Lemma assistant_total client w σ opps :
  σ !! opps_df = Some opps →
  Forall (λ c, c ∈ columns opps) ["account_name"; "stage"; "amount"; "probability"] →
  ∃ shown, assistant to_string chat_completions_create client w σ = (Ok shown, σ).
Proof.
  intros Hσ Hcols. unfold assistant.
  destruct (ask_clicked w && negb (bool_decide (question w = ""))); [|by eexists].
  destruct (getitems_total _ _ Hcols) as (selected & Hsel & _).
  rewrite run_bind, (run_deref _ _ _ Hσ), run_bind, run_lift, Hsel. by eexists.
Qed.

Lemma meeting_prep_total client w σ opps contacts names :
  σ !! opps_df = Some opps →
  σ !! contacts_df = Some contacts →
  getitem "account_name" opps = Ok names →
  Forall (λ v, is_text v = true) names →
  Forall (λ c, c ∈ columns opps) ["stage"; "amount"; "probability"; "close_date"] →
  Forall (λ c, c ∈ columns contacts) ["account_name"; "contact_name"; "email"] →
  ∃ shown,
    meeting_prep to_string repr chat_completions_create client w σ = (Ok shown, σ).
Proof.
  intros Hopps Hcontacts Hnames Htext Hoc Hcc.
  destruct (sorted_total names Htext) as [options Hoptions].
  pose proof (getitem_in_columns _ _ _ Hnames) as Han.
  assert ("account_name" ∈ columns contacts) as Hcn
    by (by apply Forall_cons_1 in Hcc as [? _]).
  unfold meeting_prep.
  rewrite run_bind, (run_deref _ _ _ Hopps), run_bind, run_lift, Hnames.
  cbn [mbind result_bind]. rewrite Hoptions.
  set (account := selectbox NaN options (prep_account_picked w)).
  destruct (brief_clicked w); [|by eexists].
  destruct (where_eq_total "account_name" account opps Han)
    as (account_opps & Hao & Haoc).
  destruct (where_eq_total "account_name" account contacts Hcn)
    as (account_contacts & Hac & Hacc).
  destruct (getitems_total ["stage"; "amount"; "probability"; "close_date"] account_opps)
    as (shown_opps & Hso & _); [by rewrite Haoc|].
  destruct (getitems_total ["contact_name"; "email"] account_contacts)
    as (shown & Hsc & _).
  { rewrite Hacc. by apply Forall_cons_1 in Hcc as [_ ?]. }
  apply where_attr_eq_Ok in Hao, Hac.
  rewrite run_bind, run_lift, Hao, run_bind, (run_deref _ _ _ Hcontacts).
  rewrite run_bind, run_lift, Hac, run_bind, run_lift, Hso.
  cbn -[brief_prompt getitems]. rewrite run_bind, run_lift.
  destruct (empty account_contacts); cbn -[brief_prompt getitems]; [by eexists|].
  rewrite Hsc. by eexists.
Qed.

Lemma outreach_total client w σ contacts names :
  σ !! contacts_df = Some contacts →
  getitem "account_name" contacts = Ok names →
  Forall (λ v, is_text v = true) names →
  "contact_name" ∈ columns contacts →
  ∃ shown, outreach repr chat_completions_create client w σ = (Ok shown, σ).
Proof.
  intros Hσ Hnames Htext Hcn.
  destruct (sorted_total names Htext) as [options Hoptions].
  pose proof (getitem_in_columns _ _ _ Hnames) as Han.
  unfold outreach.
  rewrite run_bind, (run_deref _ _ _ Hσ), run_bind, run_lift, Hnames.
  cbn [mbind result_bind]. rewrite Hoptions.
  set (account := selectbox NaN options (outreach_account_picked w)).
  destruct (where_eq_total "account_name" account contacts Han)
    as (contact_df & Hwhere & Hcols).
  assert ("contact_name" ∈ columns contact_df) as Hcn' by (by rewrite Hcols).
  apply column_loc_is_Some in Hcn' as [k Hk].
  assert (getitem "contact_name" contact_df = Ok (cell k <$> rows contact_df)) as Hget
    by (unfold getitem; by rewrite Hk).
  rewrite run_bind, run_lift, Hwhere, run_bind, run_lift.
  destruct (empty contact_df); cbn -[email_prompt getitem]; [by eexists|].
  rewrite Hget. by eexists.
Qed.

(** X17.  When the insights button is pressed the dashboard adds one
    success box, holding what [ask_ai] returns for the prompt built on
    the stage summary; an endpoint that raises puts its "AI Error: "
    text into that same success box, and the dashboard still returns.
    Without the button no box is added and the endpoint is not used. *)
Theorem dashboard_insight_box (client : Groq) (w : widgets) (σ : store) (opps : DataFrame)
    (amounts probabilities : list value) :
  σ !! opps_df = Some opps →
  rectangular opps →
  getitem "amount" opps = Ok amounts →
  getitem "probability" opps = Ok probabilities →
  Forall (λ v, is_numeric v = true) amounts →
  Forall (λ v, is_numeric v = true) probabilities →
  "stage" ∈ columns opps →
  ∃ stage_summary metrics final,
    groupby_sum amount_float64 "stage" "amount" opps = Ok stage_summary ∧
    length metrics = 4 ∧
    (insights_clicked w = false →
     dashboard to_string format_money amount_float64 chat_completions_create client w σ
     = (Ok metrics, final)) ∧
    (insights_clicked w = true →
     dashboard to_string format_money amount_float64 chat_completions_create client w σ
     = (Ok (metrics ++ [StSuccess (ask_ai chat_completions_create client
                                     (insights_prompt to_string stage_summary))]),
        final) ∧
     ∀ e, chat_completions_create client
            {| model := "openai/gpt-oss-120b";
               messages := [("user", insights_prompt to_string stage_summary)];
               temperature := Q2Qc (2 # 5);
               max_tokens := 1000 |} = Raise e →
          dashboard to_string format_money amount_float64 chat_completions_create client w σ
          = (Ok (metrics ++ [StSuccess ("AI Error: " +:+ str e)]), final)).
Proof.
  intros Hσ Hrect Hamounts Hprobs Hna Hnp Hstage.
  destruct (dashboard_total client w σ opps amounts probabilities)
    as (stage_summary & total & weighted_total & fresh & Hgroup & Hdash); [done..|].
  exists stage_summary,
    [StMetric "Total Pipeline" (MStr ("€" +:+ format_money total));
     StMetric "Weighted Pipeline" (MStr ("€" +:+ format_money weighted_total));
     StMetric "Active Deals" (MInt (len opps));
     StPlotlyChart stage_summary "stage" "amount" "Pipeline by Stage"],
    (σ ++ fresh).
  split; [done|]. split; [reflexivity|].
  split.
  - intros Hclick. rewrite Hdash, Hclick. by rewrite app_nil_r.
  - intros Hclick. rewrite Hdash, Hclick. split; [done|].
    intros e He. unfold ask_ai. by rewrite He.
Qed.

(** X16.  On well-formed tables the page always renders: with a
    rectangular opportunity table that has numeric amount and
    probability columns, the stage and close date columns and textual
    account names, and a contact table with textual account names and
    the contact name and email columns, no view raises, whatever the
    state of the widgets and whatever the endpoint answers. *)
Theorem well_formed_tables_render (client : Groq) (w : widgets)
    (accounts contacts opps tasks : DataFrame)
    (amounts probabilities opp_names contact_names : list value) :
  rectangular opps →
  getitem "amount" opps = Ok amounts →
  getitem "probability" opps = Ok probabilities →
  getitem "account_name" opps = Ok opp_names →
  getitem "account_name" contacts = Ok contact_names →
  Forall (λ v, is_numeric v = true) amounts →
  Forall (λ v, is_numeric v = true) probabilities →
  Forall (λ v, is_text v = true) opp_names →
  Forall (λ v, is_text v = true) contact_names →
  Forall (λ c, c ∈ columns opps) ["stage"; "close_date"] →
  Forall (λ c, c ∈ columns contacts) ["contact_name"; "email"] →
  ∃ shown,
    render to_string format_money amount_float64 repr chat_completions_create client w
      (accounts, contacts, opps, tasks)
    = Rendered (StMarkdown (nl +:+ "#AI Sales Analytics" +:+ nl) :: shown).
Proof.
  intros Hrect Hamounts Hprobs Hon Hcn Hna Hnp Hto Htc Hoc Hcc.
  pose proof (getitem_in_columns _ _ _ Hamounts) as Hca.
  pose proof (getitem_in_columns _ _ _ Hprobs) as Hcp.
  pose proof (getitem_in_columns _ _ _ Hon) as Hcon.
  pose proof (getitem_in_columns _ _ _ Hcn) as Hccn.
  apply Forall_cons_1 in Hoc as [Hstage [Hclose _]%Forall_cons_1].
  apply Forall_cons_1 in Hcc as [Hname [Hemail _]%Forall_cons_1].
  set (σ := [accounts; contacts; opps; tasks]).
  destruct (dashboard_total client w σ opps amounts probabilities)
    as (stage_summary & total & weighted_total & fresh & _ & Hdash); [done..|].
  match type of Hdash with _ = (Ok ?shown, _) => set (tab0 := shown) in * end.
  assert ((σ ++ fresh) !! opps_df = Some opps) as Ho by done.
  assert ((σ ++ fresh) !! contacts_df = Some contacts) as Hc by done.
  destruct (assistant_total client w (σ ++ fresh) opps Ho) as [tab1 Hassist].
  { by repeat constructor. }
  destruct (meeting_prep_total client w (σ ++ fresh) opps contacts opp_names Ho Hc Hon Hto)
    as [tab2 Hprep]; [by repeat constructor..|].
  destruct (outreach_total client w (σ ++ fresh) contacts contact_names Hc Hcn Htc Hname)
    as [tab3 Hout].
  exists (tab0 ++ tab1 ++ tab2 ++ tab3). unfold render. fold σ.
  unfold views. rewrite run_bind, Hdash, run_bind, Hassist, run_bind, Hprep.
  by rewrite run_bind, Hout.
Qed.

End Total.

Lemma well_formed_tables_render_witness :
  ∃ shown,
    render demo_to_string demo_format_money false demo_repr rate_limited
      {| api_key := Some "gsk" |} demo_widgets
      (demo_table accounts_df, demo_table contacts_df, demo_table opps_df,
       demo_table tasks_df)
    = Rendered (StMarkdown (nl +:+ "#AI Sales Analytics" +:+ nl) :: shown).
Proof.
  apply (well_formed_tables_render demo_to_string demo_format_money false demo_repr rate_limited
           {| api_key := Some "gsk" |} demo_widgets
           (demo_table accounts_df) (demo_table contacts_df) (demo_table opps_df)
           (demo_table tasks_df)
           [q 1000; q 2000; q 3000; q 4000; q 5000]
           [q 50; q 50; q 50; q 50; q 50]
           [Str "Acme"; Str "Acme"; Str "Bolt"; Str "Core"; Str "Core"]
           [Str "Acme"; NaN]);
    first [by vm_compute | by_computation].
Defined.

Lemma dashboard_insight_box_witness :
  ∃ metrics final,
    length metrics = 4 ∧
    dashboard demo_to_string demo_format_money false rate_limited {| api_key := Some "gsk" |}
      insights_widgets demo_store
    = (Ok (metrics ++ [StSuccess "AI Error: rate limit"]), final).
Proof.
  destruct (dashboard_insight_box demo_to_string demo_format_money false rate_limited
              {| api_key := Some "gsk" |} insights_widgets demo_store
              (demo_table opps_df)
              [q 1000; q 2000; q 3000; q 4000; q 5000]
              [q 50; q 50; q 50; q 50; q 50])
    as (stage_summary & metrics & final & _ & Hlen & _ & Hclicked);
    [reflexivity | by_computation | by vm_compute | by vm_compute
    | by_computation | by_computation | by_computation |].
  destruct (Hclicked eq_refl) as [_ Herror].
  exists metrics, final. split; [exact Hlen|].
  exact (Herror (Exception "RateLimitError" "rate limit") eq_refl).
Defined.
(** * The stage summary *)

(** X18.  The stage summary has the two columns stage and amount and
    one row per stage that occurs in the opportunity table: the stages
    are distinct, none is missing, they come in ascending order, and
    the amount of each is the sum of the amounts of the opportunities
    in that stage, in the arithmetic of the amount column: added in
    int64, wrapping around, for whole amounts held as int64, and added
    in float64 in row order with Kahan's compensation, missing amounts
    skipped, for amounts held as float64 (as they are when the file
    writes them with a decimal point).  A table without opportunities
    gives a summary without rows. *)
Theorem stage_summary_bars (decimal : bool) (opps : DataFrame) (stages amounts : list value) :
  getitem "stage" opps = Ok stages →
  getitem "amount" opps = Ok amounts →
  Forall (λ v, is_numeric v = true) amounts →
  ∃ stage_summary labels,
    let group k := snd <$> filter (λ p, p.1 = k) (zip stages amounts) in
    let dt := dtype_of decimal amounts in
    groupby_sum decimal "stage" "amount" opps = Ok stage_summary ∧
    columns stage_summary = ["stage"; "amount"] ∧
    getitem "stage" stage_summary = Ok labels ∧
    NoDup labels ∧
    (∀ k, k ∈ labels ↔ k ≠ NaN ∧ k ∈ stages) ∧
    StronglySorted value_le labels ∧
    rows stage_summary = (λ k, [k; group_total dt (group k)]) <$> labels ∧
    (∀ k, group_sum dt (group k) = Ok (group_total dt (group k))) ∧
    (decimal = false → Forall (λ v, is_int64 v = true) amounts →
     ∀ k, group_total dt (group k) = num (int64_wrap (Z_sum (as_Z <$> group k)))) ∧
    (decimal = true → dt = float64) ∧
    (dt = float64 →
     ∀ k, group_total dt (group k)
          = of_float64 (kahan_sum (to_float64 <$> dropna (group k)))) ∧
    (rows opps = [] → rows stage_summary = []).
Proof.
  intros (i & Hi & ->)%getitem_Ok (j & Hj & ->)%getitem_Ok Hnum.
  set (labels := merge_sort value_le (unique (dropna (cell i <$> rows opps)))).
  assert (labels ≡ₚ unique (dropna (cell i <$> rows opps))) as Hperm
    by apply merge_sort_Permutation.
  assert (∀ k, k ∈ labels ↔ k ≠ NaN ∧ k ∈ cell i <$> rows opps) as Hin.
  { intros k. by rewrite Hperm, elem_of_unique, elem_of_dropna. }
  eexists _, labels. cbv zeta.
  split; [by apply (groupby_sum_Ok _ _ _ _ i j)|].
  split; [done|]. split.
  { apply getitem_Ok. exists 0. split; [done|]. cbn [rows]. fold labels.
    rewrite <- list_fmap_compose. symmetry. apply list_fmap_id. }
  split; [rewrite Hperm; apply NoDup_unique|].
  split; [done|].
  split; [apply StronglySorted_merge_sort; apply _|].
  cbn [rows]. fold labels. split; [|split; [|split; [|split; [|split]]]].
  - apply list_fmap_ext. intros _ k Hk%list_elem_of_lookup_2.
    do 3 f_equal.
    pose proof (zip_filter_on (cell i) (cell j) (λ v, v = k) (rows opps)) as Hz.
    cbv beta in Hz. rewrite Hz. f_equal.
    apply filter_ext_in. intros r _. apply eq_py_true.
    apply Hin in Hk as [? _]. done.
  - intros k. by apply group_sum_numeric, dtype_of_numeric.
  - intros -> Hint k. by rewrite (dtype_of_int64 _ Hint).
  - intros ->. unfold dtype_of.
    by apply forallb_Forall in Hnum as ->.
  - intros Hdt k. by rewrite Hdt.
  - intros Hnil. unfold labels. by rewrite Hnil.
Qed.

Lemma stage_summary_bars_witness :
  ∃ stage_summary,
    groupby_sum false "stage" "amount" (demo_table opps_df) = Ok stage_summary ∧
    getitem "stage" stage_summary
    = Ok [Str "Closed Won"; Str "Negotiation"; Str "Prospecting"] ∧
    getitem "amount" stage_summary = Ok [q 4000; q 7000; q 4000].
Proof.
  destruct (stage_summary_bars false (demo_table opps_df)
              [Str "Prospecting"; Str "Negotiation"; Str "Prospecting";
               Str "Closed Won"; Str "Negotiation"]
              [q 1000; q 2000; q 3000; q 4000; q 5000])
    as (stage_summary & labels & Hgroup & _ & Hlabels & _);
    [by vm_compute | by vm_compute | by_computation |].
  exists stage_summary. split; [exact Hgroup|].
  vm_compute in Hgroup. injection Hgroup as <-. split; by_computation.
Defined.

(** * The activity date of the tasks *)

Lemma join_account_name_keeps_label (child accounts joined : DataFrame) (c : string) :
  join_account_name child accounts = Ok joined →
  c ∈ columns child → c ≠ "account_name" → c ∈ columns joined.
Proof.
  intros (ids & names & i & _ & _ & _ & ->)%join_account_name_Ok Hc Hne.
  cbn [columns]. apply elem_of_app. left. apply list_elem_of_fmap. exists c.
  split; [|done]. unfold suffixed. rewrite bool_decide_eq_false_2; [done|].
  intros [Hkey Hin]. pairs_cases Hin.
Qed.

Lemma setitem_columns (c c' : string) (s : list value) (df : DataFrame) :
  c' ∈ columns (setitem c s df) ↔ c' = c ∨ c' ∈ columns df.
Proof.
  unfold setitem. destruct (column_loc c df) as [i|] eqn:Hi; cbn [columns].
  - split; [by right|]. intros [->|?]; [|done].
    apply column_loc_Some in Hi. by eapply list_elem_of_lookup_2.
  - rewrite elem_of_app, list_elem_of_singleton. tauto.
Qed.

Section ActivityDate.

Variable pd_to_datetime : list value → result (list value).

(** X19.  When the tasks file has an [ACTIVITY_DATE] column, the loader
    parses it: a date that does not parse makes the tasks block raise
    the exception of the parser, and otherwise the loaded tasks table
    carries the parsed dates under activity_date next to the raw
    [ACTIVITY_DATE] column, which is kept. *)
Theorem standardize_tasks_activity_date (accounts tasks : DataFrame) (s : list value) :
  getitem "ACTIVITY_DATE" tasks = Ok s →
  (∀ e, pd_to_datetime s = Raise e →
     standardize_tasks pd_to_datetime accounts tasks = Raise e) ∧
  (∀ dates loaded,
     pd_to_datetime s = Ok dates →
     standardize_tasks pd_to_datetime accounts tasks = Ok loaded →
     "ACTIVITY_DATE" ∈ columns loaded ∧ "activity_date" ∈ columns loaded) ∧
  (∀ dates,
     pd_to_datetime s = Ok dates →
     "ACCOUNT_ID" ∉ columns tasks → "account_id" ∉ columns tasks →
     standardize_tasks pd_to_datetime accounts tasks
     = Ok (setitem "activity_date" dates tasks)).
Proof.
  intros Hs.
  set (renamed := if has_column "ACCOUNT_ID" tasks
                  then rename (list_to_map [("ACCOUNT_ID", "account_id")]) tasks
                  else tasks).
  assert (getitem "ACTIVITY_DATE" renamed = Ok s) as Hs'.
  { unfold renamed. destruct (has_column "ACCOUNT_ID" tasks); [|done].
    apply getitem_Ok in Hs as (i & Hi & ->). apply getitem_Ok. exists i.
    split; [|done]. rewrite <- Hi. apply column_loc_rename. intros c _. split.
    - intros [Hin|[_ ->]]%rename_label; [|done|by_computation]. pairs_cases Hin.
    - intros ->. by vm_compute. }
  assert (has_column "ACTIVITY_DATE" renamed = true) as Hhas
    by (by eapply has_column_true, getitem_in_columns).
  split; [|split].
  - intros e He. unfold standardize_tasks. fold renamed.
    rewrite Hhas, Hs'. cbn [mbind result_bind]. by rewrite He.
  - intros dates loaded Hdates. unfold standardize_tasks. fold renamed.
    rewrite Hhas, Hs'. cbn [mbind result_bind]. rewrite Hdates.
    cbn [mbind result_bind].
    assert ("ACTIVITY_DATE" ∈ columns (setitem "activity_date" dates renamed)) as H1.
    { apply setitem_columns. right. by eapply getitem_in_columns. }
    assert ("activity_date" ∈ columns (setitem "activity_date" dates renamed)) as H2
      by (apply setitem_columns; by left).
    destruct (has_column "account_id" _).
    + intros Hjoin. split; by eapply join_account_name_keeps_label.
    + by intros [= <-].
  - intros dates Hdates Hraw%has_column_false Hlow.
    unfold standardize_tasks. unfold renamed in *. rewrite Hraw in *.
    rewrite Hhas, Hs'. cbn [mbind result_bind]. rewrite Hdates.
    cbn [mbind result_bind].
    assert (has_column "account_id" (setitem "activity_date" dates tasks) = false) as ->;
      [|done].
    apply has_column_false. rewrite setitem_columns. by intros [?|?].
Qed.

End ActivityDate.

Lemma standardize_tasks_activity_date_witness :
  "ACTIVITY_DATE" ∈ ["ID"; "account_id"; "ACTIVITY_DATE"; "activity_date"; "account_name"] ∧
  "activity_date" ∈ ["ID"; "account_id"; "ACTIVITY_DATE"; "activity_date"; "account_name"].
Proof.
  apply (standardize_tasks_activity_date demo_to_datetime
           (standardize_accounts accounts_csv) tasks_dated_csv [Str "2024-01-31"]
           eq_refl)
    with (dates := [Timestamp 1706659200])
         (loaded := {| columns := ["ID"; "account_id"; "ACTIVITY_DATE"; "activity_date";
                                   "account_name"];
                       rows := [[Str "T1"; Str "A2"; Str "2024-01-31";
                                 Timestamp 1706659200; Str "Bolt"]] |});
    by vm_compute.
Defined.
(** * Joins that pandas refuses *)

Lemma twice_after_first {A} `{EqDecision A} (l : list A) (c : A) (a b i : nat) :
  l !! a = Some c → l !! b = Some c → a ≠ b →
  fst <$> list_find (λ c', c' = c) l = Some i →
  c ∈ drop (S i) l.
Proof.
  intros Ha Hb Hab Hi.
  destruct (list_find _ l) as [[k c']|] eqn:E; simplify_eq/=.
  apply list_find_Some in E as (Hk & Hc & Hfirst).
  assert (i ≤ a) as Hia.
  { destruct (decide (i ≤ a)) as [|Hgt]; [done|].
    by destruct (Hfirst a c Ha ltac:(lia)). }
  assert (i ≤ b) as Hib.
  { destruct (decide (i ≤ b)) as [|Hgt]; [done|].
    by destruct (Hfirst b c Hb ltac:(lia)). }
  destruct (decide (i < a)) as [Hlt|Hge].
  - apply list_elem_of_lookup. exists (a - S i).
    rewrite lookup_drop. by replace (S i + (a - S i)) with a by lia.
  - apply list_elem_of_lookup. exists (b - S i).
    rewrite lookup_drop. by replace (S i + (b - S i)) with b by lia.
Qed.

Lemma label_loc_twice (c : string) (df : DataFrame) (a b : nat) :
  columns df !! a = Some c → columns df !! b = Some c → a ≠ b →
  label_loc c df = Raise (ValueError ("The column label '" +:+ c +:+ "' is not unique.")).
Proof.
  intros Ha Hb Hab. unfold label_loc.
  destruct (column_loc c df) as [i|] eqn:Hi.
  - rewrite bool_decide_eq_true_2; [done|].
    exact (twice_after_first (columns df) c a b i Ha Hb Hab Hi).
  - apply column_loc_None in Hi. destruct Hi. by eapply list_elem_of_lookup_2.
Qed.

Lemma dtype_of_text (decimal : bool) (keys : list value) (s : string) :
  Str s ∈ keys → dtype_of decimal keys = object.
Proof.
  intros Hin. unfold dtype_of.
  assert (forallb is_numeric keys = false) as ->.
  { apply not_true_is_false. intros H%forallb_Forall.
    rewrite Forall_forall in H. by specialize (H _ Hin). }
  assert (forallb is_date keys = false) as ->; [|done].
  apply not_true_is_false. intros H%forallb_Forall.
  rewrite Forall_forall in H. by specialize (H _ Hin).
Qed.

Section Refused.

Variable pd_to_datetime : list value → result (list value).

(** X20.  A tasks file that has the account column under both labels,
    [ACCOUNT_ID] and [account_id], carries the key label twice after
    the rename, and its join is refused: with no [ACTIVITY_DATE] to
    parse and an accounts table that has its two key columns, the key
    once, the tasks block raises the [ValueError] of the label that is
    not unique. *)
Theorem standardize_tasks_repeated_key (accounts tasks right : DataFrame) (k : nat) :
  "ACCOUNT_ID" ∈ columns tasks →
  "account_id" ∈ columns tasks →
  "ACTIVITY_DATE" ∉ columns tasks →
  getitems ["account_id"; "account_name"] accounts = Ok right →
  label_loc "account_id" accounts = Ok k →
  standardize_tasks pd_to_datetime accounts tasks
  = Raise (Exception "ValueError" "The column label 'account_id' is not unique.").
Proof.
  intros Hraw Hlow Hdate Hright Hk. unfold standardize_tasks.
  apply has_column_true in Hraw as Hhas. rewrite Hhas.
  set (renamed := rename _ tasks).
  assert (has_column "ACTIVITY_DATE" renamed = false) as ->.
  { apply has_column_false. intros [?|?]%rename_account_id_columns; done. }
  cbn [mbind result_bind].
  apply list_elem_of_lookup_1 in Hraw as [a Ha], Hlow as [b Hb].
  assert (columns renamed !! a = Some "account_id") as Ha'
    by (unfold renamed, rename; cbn [columns]; by rewrite list_lookup_fmap, Ha).
  assert (columns renamed !! b = Some "account_id") as Hb'
    by (unfold renamed, rename; cbn [columns]; by rewrite list_lookup_fmap, Hb).
  assert (a ≠ b) as Hab by (intros ->; congruence).
  assert (has_column "account_id" renamed = true) as ->
    by (by eapply has_column_true, list_elem_of_lookup_2).
  unfold join_account_name. rewrite Hright, Hk. cbn [mbind result_bind].
  unfold merge_left.
  apply getitems_account_key in Hright as (ids & names & _ & _ & Hcols & _).
  assert (label_loc "account_id" right = Ok 0) as ->.
  { apply label_loc_Ok. unfold column_loc. rewrite Hcols. split; [done|].
    cbn. set_solver. }
  cbn [mbind result_bind].
  by rewrite (label_loc_twice _ _ a b Ha' Hb' Hab).
Qed.

End Refused.

(** X21.  A join of text keys with numbers is refused: when the
    account identifiers are numbers and the account_id column of the
    child table holds strings (and missing values), or the other way
    round, neither column empty, the join raises a [ValueError] and no
    table is returned. *)
Theorem join_account_name_key_dtypes (child accounts : DataFrame)
    (ids names keys : list value) (s : string) :
  getitem "account_id" accounts = Ok ids →
  getitem "account_name" accounts = Ok names →
  getitem "account_id" child = Ok keys →
  let numbers l := Forall (λ v, is_numeric v = true) l ∧ l ≠ [] in
  let text l := Forall (λ v, v = NaN ∨ ∃ t, v = Str t) l ∧ Str s ∈ l in
  (numbers ids ∧ text keys) ∨ (numbers keys ∧ text ids) →
  ∃ msg, join_account_name child accounts = Raise (Exception "ValueError" msg).
Proof.
  intros Hids Hnames Hkeys numbers text Hmixed. unfold join_account_name.
  destruct (getitems_total ["account_id"; "account_name"] accounts)
    as (right & Hright & _).
  { repeat constructor; by eapply getitem_in_columns. }
  rewrite Hright. cbn [mbind result_bind].
  destruct (label_loc "account_id" accounts) as [k|e] eqn:Hk.
  2:{ unfold label_loc in Hk.
      destruct (column_loc_is_Some "account_id" accounts) as [k' Hk'];
        [by eapply getitem_in_columns|].
      rewrite Hk' in Hk. case_bool_decide; [|done]. injection Hk as <-. by eexists. }
  cbn [mbind result_bind]. unfold merge_left.
  pose proof Hright as (ids' & names' & Hids' & Hnames' & Hcols & Hrows)%getitems_account_key.
  assert (ids' = ids) as -> by congruence.
  assert (names' = names) as -> by congruence.
  assert (label_loc "account_id" right = Ok 0) as ->.
  { apply label_loc_Ok. unfold column_loc. rewrite Hcols. split; [done|].
    cbn. set_solver. }
  cbn [mbind result_bind].
  destruct (label_loc "account_id" child) as [i|e] eqn:Hi.
  2:{ unfold label_loc in Hi.
      destruct (column_loc_is_Some "account_id" child) as [i' Hi'];
        [by eapply getitem_in_columns|].
      rewrite Hi' in Hi. case_bool_decide; [|done]. injection Hi as <-. by eexists. }
  cbn [mbind result_bind].
  apply label_loc_Ok in Hi as [Hi _].
  assert (cell i <$> rows child = keys) as ->.
  { apply getitem_Ok in Hkeys as (i' & Hi' & ->). congruence. }
  assert (cell 0 <$> rows right = ids) as ->.
  { rewrite Hrows, <- list_fmap_compose.
    assert (length ids = length names) as Hlen
      by (apply getitem_length in Hids, Hnames; lia).
    clear -Hlen. revert names Hlen.
    induction ids as [|x ids IH]; intros [|y names] Hlen; try done.
    cbn in *. f_equal. apply IH. lia. }
  assert (keys_compatible keys ids = false) as ->; [|by eexists].
  unfold keys_compatible.
  destruct Hmixed as [[[Hnum Hne] [_ Hin]]|[[Hnum Hne] [_ Hin]]].
  - rewrite (dtype_of_text _ _ _ Hin).
    pose proof (dtype_of_numeric false _ Hnum) as Hd.
    rewrite (bool_decide_eq_false_2 (ids = [])) by done.
    rewrite (bool_decide_eq_false_2 (keys = [])) by (intros ->; by apply elem_of_nil in Hin).
    destruct (dtype_of false ids); try done.
  - rewrite (dtype_of_text _ _ _ Hin).
    pose proof (dtype_of_numeric false _ Hnum) as Hd.
    rewrite (bool_decide_eq_false_2 (keys = [])) by done.
    rewrite (bool_decide_eq_false_2 (ids = [])) by (intros ->; by apply elem_of_nil in Hin).
    destruct (dtype_of false keys); try done.
Qed.

Lemma standardize_tasks_repeated_key_witness :
  standardize_tasks demo_to_datetime (standardize_accounts accounts_csv) tasks_twice_csv
  = Raise (Exception "ValueError" "The column label 'account_id' is not unique.").
Proof.
  apply (standardize_tasks_repeated_key demo_to_datetime
           (standardize_accounts accounts_csv) tasks_twice_csv
           {| columns := ["account_id"; "account_name"];
              rows := [[Str "A1"; Str "Acme"]; [Str "A2"; Str "Bolt"];
                       [Str "A3"; Str "Core"]] |} 0);
    first [by vm_compute | by_computation].
Defined.

Lemma join_account_name_key_dtypes_witness :
  ∃ msg,
    join_account_name (rename (list_to_map [("ACCOUNT_ID", "account_id")]) tasks_numbered_csv)
      (standardize_accounts accounts_csv)
    = Raise (Exception "ValueError" msg).
Proof.
  apply (join_account_name_key_dtypes
           (rename (list_to_map [("ACCOUNT_ID", "account_id")]) tasks_numbered_csv)
           (standardize_accounts accounts_csv)
           [Str "A1"; Str "A2"; Str "A3"] [Str "Acme"; Str "Bolt"; Str "Core"]
           [q 2; q 9] "A1");
    [by vm_compute | by vm_compute | by vm_compute |].
  right. split; [split; [by_computation|done]|].
  split; [|by_computation].
  repeat (apply Forall_cons; split; [right; by eexists|]). apply Forall_nil_2.
Defined.
